(** * The Look e-commerce ETL: cleaning, referential integrity, bigint validator

    A shallow embedding of

      - [scripts/etl/data_cleaning.py]: the seven per-table cleaning
        functions and the referential-integrity pass of [main];
      - [tests/validators/events/big_int_validator.py]: [BigintValidator].

    A DataFrame is a list of rows in input order; each table has its
    own record of columns, typed as the table's schema fixes them.  pandas
    operations are modelled row-wise: a boolean mask is a [bool] predicate
    and [df[mask]] is [filter mask df].  Python exceptions are the
    [Raise] branch of [result].

    What the model takes from pandas rather than from the scripts:

      - a column has the type its schema gives it whatever its rows: a
        text column holds strings or nulls (so [.str] applies), a price
        column floats, a mask booleans;
      - identifiers are unbounded integers, null, or text still to be
        parsed; a float is a binary64 value given by significand and
        exponent, and NaN is the null cell;
      - the two parsers of text, [pd.to_numeric] and [pd.to_datetime], are
        parameters ([Parsers]);
      - a cleaned file read back by [main] holds the rows written to it;
      - strings are sequences of 8-bit characters, and the [str] methods
        and the regular expressions are those of Python on ASCII. *)

From Stdlib Require Import ZArith List String Ascii Bool Lia Arith.
Import ListNotations.

Set Implicit Arguments.

(** ** Exceptions and the error monad *)

Inductive exn : Set :=
| ZeroDivisionError
| TypeError
| KeyError
| FileNotFoundError
| ValueError
| OverflowError.

Inductive result (A : Type) : Type :=
| Ok (a : A)
| Raise (e : exn).

Arguments Ok {A} a.
Arguments Raise {A} e.

Definition bind {A B : Type} (c : result A) (k : A -> result B) : result B :=
  match c with
  | Ok a => k a
  | Raise e => Raise e
  end.

Declare Scope result_scope.
Delimit Scope result_scope with result.
Notation "x <- c ;; k" := (bind c (fun x => k))
  (at level 61, c at next level, right associativity) : result_scope.
Notation "' pat <- c ;; k" :=
  (bind c (fun x => match x with pat => k end))
  (at level 61, pat pattern, c at next level, right associativity)
  : result_scope.
Notation "c ;;; k" := (bind c (fun _ => k))
  (at level 61, right associativity) : result_scope.

Fixpoint mapM {A B : Type} (f : A -> result B) (l : list A) : result (list B) :=
  match l with
  | [] => Ok []
  | x :: xs =>
      (y <- f x ;; ys <- mapM f xs ;; Ok (y :: ys))%result
  end.

(** ** Python scalars *)

(** A finite IEEE-754 binary64 value is [mant * 2 ^ expo] with a 53-bit
    significand; NaN is pandas' null and is represented by the null cell,
    so [float64] has only the infinities and the finite values. *)
Record finite64 : Set := {
  mant : Z;
  expo : Z;
  finite64_ok :
    ((Z.abs mant <? 2 ^ 53) && (-1074 <=? expo) && (expo <=? 971))%Z = true
}.

Inductive float64 : Set :=
| FInf (neg : bool)
| FFin (x : finite64).

(** What iterating a numeric Series yields: a Python [int] or [float]. *)
Inductive pynum : Set :=
| PyInt (n : Z)
| PyFloat (f : float64).

(** Exact comparison of a finite float with an integer, as Python does it. *)
Definition fin_cmp_Z (x : finite64) (z : Z) : comparison :=
  if (0 <=? expo x)%Z
  then (mant x * 2 ^ expo x ?= z)%Z
  else (mant x ?= z * 2 ^ (- expo x))%Z.

Definition fin_cmp (x y : finite64) : comparison :=
  let k := Z.min (expo x) (expo y) in
  (mant x * 2 ^ (expo x - k) ?= mant y * 2 ^ (expo y - k))%Z.

(** [int(x)] on a finite float truncates toward zero. *)
Definition fin_trunc (x : finite64) : Z :=
  if (0 <=? expo x)%Z
  then (mant x * 2 ^ expo x)%Z
  else Z.quot (mant x) (2 ^ (- expo x)).

Definition float_cmp (a b : float64) : comparison :=
  match a, b with
  | FInf true, FInf true => Eq
  | FInf true, _ => Lt
  | _, FInf true => Gt
  | FInf false, FInf false => Eq
  | FInf false, _ => Gt
  | _, FInf false => Lt
  | FFin x, FFin y => fin_cmp x y
  end.

Definition float_cmp_Z (a : float64) (z : Z) : comparison :=
  match a with
  | FInf true => Lt
  | FInf false => Gt
  | FFin x => fin_cmp_Z x z
  end.

Definition is_Lt (c : comparison) : bool :=
  match c with Lt => true | _ => false end.
Definition is_Gt (c : comparison) : bool :=
  match c with Gt => true | _ => false end.
Definition is_Eq (c : comparison) : bool :=
  match c with Eq => true | _ => false end.

(** [value < z] and [value > z] for a Python number and an [int]. *)
Definition py_lt_Z (v : pynum) (z : Z) : bool :=
  match v with
  | PyInt n => (n <? z)%Z
  | PyFloat f => is_Lt (float_cmp_Z f z)
  end.

Definition py_gt_Z (v : pynum) (z : Z) : bool :=
  match v with
  | PyInt n => (n >? z)%Z
  | PyFloat f => is_Gt (float_cmp_Z f z)
  end.

(** [int(value)]: raises [OverflowError] on an infinity. *)
Definition py_int (v : pynum) : result Z :=
  match v with
  | PyInt n => Ok n
  | PyFloat (FInf _) => Raise OverflowError
  | PyFloat (FFin x) => Ok (fin_trunc x)
  end.


(** ** Strings: the [str] methods the scripts call, on 8-bit characters *)

Module Str.

Definition code (c : ascii) : N := N_of_ascii c.

Definition isupper (c : ascii) : bool := ((65 <=? code c) && (code c <=? 90))%N.
Definition islower (c : ascii) : bool := ((97 <=? code c) && (code c <=? 122))%N.
Definition isalpha (c : ascii) : bool := isupper c || islower c.
Definition isdigit (c : ascii) : bool := ((48 <=? code c) && (code c <=? 57))%N.

(** Python's [str.isspace] on the first 128 code points. *)
Definition isspace (c : ascii) : bool :=
  ((9 <=? code c) && (code c <=? 13) || (28 <=? code c) && (code c <=? 32))%N.

Definition upper (c : ascii) : ascii :=
  if islower c then ascii_of_N (code c - 32) else c.
Definition lower (c : ascii) : ascii :=
  if isupper c then ascii_of_N (code c + 32) else c.

Definition is_empty (s : string) : bool :=
  match s with EmptyString => true | _ => false end.

(** [s.lstrip()], [s.rstrip()], [s.strip()] *)
Fixpoint lstrip (s : string) : string :=
  match s with
  | EmptyString => EmptyString
  | String c s' => if isspace c then lstrip s' else s
  end.

Fixpoint rstrip (s : string) : string :=
  match s with
  | EmptyString => EmptyString
  | String c s' =>
      let r := rstrip s' in
      if isspace c && is_empty r then EmptyString else String c r
  end.

Definition strip (s : string) : string := rstrip (lstrip s).

(** [s.title()]: a cased character is upper-cased when the previous
    character is uncased and lower-cased when it is cased. *)
Fixpoint title_from (previous_is_cased : bool) (s : string) : string :=
  match s with
  | EmptyString => EmptyString
  | String c s' =>
      if isalpha c
      then String (if previous_is_cased then lower c else upper c)
                  (title_from true s')
      else String c (title_from false s')
  end.

Definition title (s : string) : string := title_from false s.

(** [re.sub('  +', '', s)]: every maximal run of two or more spaces is
    deleted; a single space stays. *)
Definition is_blank (c : ascii) : bool := (code c =? 32)%N.

Definition starts_blank (s : string) : bool :=
  match s with
  | String c _ => is_blank c
  | EmptyString => false
  end.

Fixpoint drop_runs (in_run : bool) (s : string) : string :=
  match s with
  | EmptyString => EmptyString
  | String c s' =>
      if is_blank c
      then if in_run || starts_blank s'
           then drop_runs true s'
           else String c (drop_runs false s')
      else String c (drop_runs false s')
  end.

Definition replace_space_runs (s : string) : string := drop_runs false s.

End Str.

(** ** [EMAIL_RE]

    [^[A-Za-z0-9._%+-]+@[A-Za-z0-9.-]+\.[A-Za-z]{2,}$] under [re.match].
    The local class has no ["@"], so the ["@"] is the first one of the
    string; the last class has no ["."], so the escaped dot is the last
    one; [$] also matches just before one final newline. *)

Module EmailRe.
Import Str.

Definition one_of (cs : string) (c : ascii) : bool :=
  existsb (Ascii.eqb c) (list_ascii_of_string cs).

Definition local_char (c : ascii) : bool :=
  isalpha c || isdigit c || one_of "._%+-" c.
Definition domain_char (c : ascii) : bool :=
  isalpha c || isdigit c || one_of ".-" c.

(** Split at the first character satisfying [p]; the character itself is
    dropped. *)
Fixpoint split_first (p : ascii -> bool) (s : list ascii)
  : option (list ascii * list ascii) :=
  match s with
  | [] => None
  | c :: s' =>
      if p c then Some ([], s')
      else match split_first p s' with
           | Some (a, b) => Some (c :: a, b)
           | None => None
           end
  end.

Definition split_last (p : ascii -> bool) (s : list ascii)
  : option (list ascii * list ascii) :=
  match split_first p (rev s) with
  | Some (a, b) => Some (rev b, rev a)
  | None => None
  end.

Definition chop_final_newline (s : list ascii) : list ascii :=
  match rev s with
  | c :: r => if (code c =? 10)%N then rev r else s
  | [] => s
  end.

Definition nonempty {A : Type} (l : list A) : bool :=
  match l with [] => false | _ => true end.

Definition matches (s : string) : bool :=
  match split_first (Ascii.eqb "@") (list_ascii_of_string s) with
  | None => false
  | Some (local, rest) =>
      nonempty local && forallb local_char local &&
      match split_last (Ascii.eqb ".") (chop_final_newline rest) with
      | None => false
      | Some (domain, tld) =>
          nonempty domain && forallb domain_char domain &&
          (2 <=? List.length tld) && forallb isalpha tld
      end
  end.

End EmailRe.

Definition EMAIL_RE : string -> bool := EmailRe.matches.

(** ** Cells *)

(** An identifier column as read from a CSV: null, an integer, or text
    that [pd.to_numeric] still has to parse.  Integers are unbounded. *)
Inductive idcell : Set :=
| INull
| IInt (z : Z)
| IStr (s : string).

(** A timestamp column: [NaT], raw text, or a parsed [Timestamp]
    (nanoseconds since the epoch). *)
Inductive tscell : Set :=
| NaT
| TStr (s : string)
| Timestamp (t : Z).

(** Any other cell of a frame. *)
Inductive cell : Set :=
| CNull
| CInt (z : Z)
| CFloat (f : float64)
| CStr (s : string).

Definition idcell_eqb (a b : idcell) : bool :=
  match a, b with
  | INull, INull => true
  | IInt x, IInt y => (x =? y)%Z
  | IStr s, IStr t => String.eqb s t
  | _, _ => false
  end.

Definition text := option string.

Definition text_eqb (a b : text) : bool :=
  match a, b with
  | None, None => true
  | Some s, Some t => String.eqb s t
  | _, _ => false
  end.

(** The two pandas parsers the scripts rely on, for text cells:
    [pd.to_numeric] and [pd.to_datetime], both with [errors='coerce']
    ([None] is the coerced failure). *)
Class Parsers : Type := {
  to_numeric_str : string -> option pynum;
  to_datetime_str : string -> option Z
}.

(** ** The pandas operations used by the cleaning functions *)

Module Pandas.

(** [df.drop_duplicates(subset=[key], keep='first')]; nulls compare equal
    to each other. *)
Fixpoint drop_duplicates_from {R K : Type} (eqb : K -> K -> bool)
         (key : R -> K) (seen : list K) (df : list R) : list R :=
  match df with
  | [] => []
  | r :: rest =>
      if existsb (eqb (key r)) seen
      then drop_duplicates_from eqb key seen rest
      else r :: drop_duplicates_from eqb key (key r :: seen) rest
  end.

Definition drop_duplicates {R K : Type} (eqb : K -> K -> bool)
           (key : R -> K) (df : list R) : list R :=
  drop_duplicates_from eqb key [] df.

(** [s.isin(values)]; a null matches a null. *)
Definition isin (c : idcell) (values : list idcell) : bool :=
  existsb (idcell_eqb c) values.

Definition isna (c : idcell) : bool :=
  match c with INull => true | _ => false end.

(** [s.dropna()] and [s.unique()] on an identifier column. *)
Definition dropna (s : list idcell) : list idcell :=
  filter (fun c => negb (isna c)) s.

Definition unique (s : list idcell) : list idcell :=
  drop_duplicates idcell_eqb (fun c => c) s.

Definition fillna (v : string) (c : text) : text :=
  match c with
  | None => Some v
  | Some _ => c
  end.

Definition str_strip (c : text) : text := option_map Str.strip c.
Definition str_title (c : text) : text := option_map Str.title c.

(** [s.isin(valid)] on a text column: a null is in no list of strings. *)
Definition text_isin (c : text) (valid : list string) : bool :=
  match c with
  | Some s => existsb (String.eqb s) valid
  | None => false
  end.

(** [s >= n] on an integer column with nulls. *)
Definition int_ge (c : option Z) (n : Z) : bool :=
  match c with
  | Some z => (n <=? z)%Z
  | None => false
  end.

(** [s >= n] and [a >= b] on float columns; a comparison with NaN is
    [False]. *)
Definition float_ge_Z (c : option float64) (n : Z) : bool :=
  match c with
  | Some f => negb (is_Lt (float_cmp_Z f n))
  | None => false
  end.

Definition float_ge (a b : option float64) : bool :=
  match a, b with
  | Some x, Some y => negb (is_Lt (float_cmp x y))
  | _, _ => false
  end.

(** Timestamp columns after [pd.to_datetime]. *)
Definition ts_isna (c : tscell) : bool :=
  match c with NaT => true | _ => false end.
Definition ts_notna (c : tscell) : bool := negb (ts_isna c).

Definition ts_ge (a b : tscell) : bool :=
  match a, b with
  | Timestamp x, Timestamp y => (y <=? x)%Z
  | _, _ => false
  end.

Definition df_replace_space_runs (c : cell) : cell :=
  match c with
  | CStr s => CStr (Str.replace_space_runs s)
  | _ => c
  end.

Section WithParsers.
Context {P : Parsers}.

(** [pd.to_datetime(s, errors='coerce')] *)
Definition to_datetime (c : tscell) : tscell :=
  match c with
  | NaT => NaT
  | Timestamp t => Timestamp t
  | TStr s =>
      match to_datetime_str s with
      | Some t => Timestamp t
      | None => NaT
      end
  end.

(** [pd.to_numeric(s, errors='coerce').astype('Int64')]: the cast
    refuses a float that is not an integer. *)
Definition to_Int64 (c : idcell) : result idcell :=
  match c with
  | INull => Ok INull
  | IInt z => Ok (IInt z)
  | IStr s =>
      match to_numeric_str s with
      | None => Ok INull
      | Some (PyInt n) => Ok (IInt n)
      | Some (PyFloat (FInf _)) => Raise TypeError
      | Some (PyFloat (FFin x)) =>
          if is_Eq (fin_cmp_Z x (fin_trunc x))
          then Ok (IInt (fin_trunc x))
          else Raise TypeError
      end
  end.
End WithParsers.

End Pandas.

(** ** Table schemas

    One record per table: the columns the scripts name, and [extra] for
    the remaining columns of the row, which cleaning carries along. *)

Module Users.
Record row : Set := {
  id : idcell;
  first_name : text;
  last_name : text;
  email : text;
  age : option Z;
  city : text;
  country : text;
  created_at : tscell;
  extra : list cell
}.
Definition with_id v r :=
  Build_row v (first_name r) (last_name r) (email r) (age r) (city r)
            (country r) (created_at r) (extra r).
Definition with_first_name v r :=
  Build_row (id r) v (last_name r) (email r) (age r) (city r)
            (country r) (created_at r) (extra r).
Definition with_last_name v r :=
  Build_row (id r) (first_name r) v (email r) (age r) (city r)
            (country r) (created_at r) (extra r).
Definition with_city v r :=
  Build_row (id r) (first_name r) (last_name r) (email r) (age r) v
            (country r) (created_at r) (extra r).
Definition with_country v r :=
  Build_row (id r) (first_name r) (last_name r) (email r) (age r) (city r)
            v (created_at r) (extra r).
Definition with_created_at v r :=
  Build_row (id r) (first_name r) (last_name r) (email r) (age r) (city r)
            (country r) v (extra r).
End Users.

Module Products.
Record row : Set := {
  id : idcell;
  cost : option float64;
  retail_price : option float64;
  name : text;
  brand : text;
  category : text;
  department : text;
  extra : list cell
}.
Definition with_id v r :=
  Build_row v (cost r) (retail_price r) (name r) (brand r) (category r)
            (department r) (extra r).
Definition with_name v r :=
  Build_row (id r) (cost r) (retail_price r) v (brand r) (category r)
            (department r) (extra r).
Definition with_brand v r :=
  Build_row (id r) (cost r) (retail_price r) (name r) v (category r)
            (department r) (extra r).
Definition with_category v r :=
  Build_row (id r) (cost r) (retail_price r) (name r) (brand r) v
            (department r) (extra r).
Definition with_department v r :=
  Build_row (id r) (cost r) (retail_price r) (name r) (brand r) (category r)
            v (extra r).
End Products.

Module Orders.
Record row : Set := {
  order_id : idcell;
  user_id : idcell;
  status : text;
  created_at : tscell;
  shipped_at : tscell;
  delivered_at : tscell;
  returned_at : tscell;
  extra : list cell
}.
Definition with_order_id v r :=
  Build_row v (user_id r) (status r) (created_at r) (shipped_at r)
            (delivered_at r) (returned_at r) (extra r).
Definition with_user_id v r :=
  Build_row (order_id r) v (status r) (created_at r) (shipped_at r)
            (delivered_at r) (returned_at r) (extra r).
Definition with_timestamps (f : tscell -> tscell) r :=
  Build_row (order_id r) (user_id r) (status r) (f (created_at r))
            (f (shipped_at r)) (f (delivered_at r)) (f (returned_at r))
            (extra r).
End Orders.

Module OrderItems.
Record row : Set := {
  id : idcell;
  order_id : idcell;
  product_id : idcell;
  sale_price : option float64;
  status : text;
  created_at : tscell;
  shipped_at : tscell;
  delivered_at : tscell;
  returned_at : tscell;
  extra : list cell
}.
Definition with_ids i o p r :=
  Build_row i o p (sale_price r) (status r) (created_at r) (shipped_at r)
            (delivered_at r) (returned_at r) (extra r).
Definition with_timestamps (f : tscell -> tscell) r :=
  Build_row (id r) (order_id r) (product_id r) (sale_price r) (status r)
            (f (created_at r)) (f (shipped_at r)) (f (delivered_at r))
            (f (returned_at r)) (extra r).
End OrderItems.

Module InventoryItems.
Record row : Set := {
  id : idcell;
  product_id : idcell;
  cost : option float64;
  product_retail_price : option float64;
  created_at : tscell;
  sold_at : tscell;
  product_name : text;
  product_brand : text;
  extra : list cell
}.
Definition with_ids i p r :=
  Build_row i p (cost r) (product_retail_price r) (created_at r) (sold_at r)
            (product_name r) (product_brand r) (extra r).
Definition with_created_at v r :=
  Build_row (id r) (product_id r) (cost r) (product_retail_price r) v
            (sold_at r) (product_name r) (product_brand r) (extra r).
Definition with_sold_at v r :=
  Build_row (id r) (product_id r) (cost r) (product_retail_price r)
            (created_at r) v (product_name r) (product_brand r) (extra r).
Definition with_product_name v r :=
  Build_row (id r) (product_id r) (cost r) (product_retail_price r)
            (created_at r) (sold_at r) v (product_brand r) (extra r).
Definition with_product_brand v r :=
  Build_row (id r) (product_id r) (cost r) (product_retail_price r)
            (created_at r) (sold_at r) (product_name r) v (extra r).
End InventoryItems.

Module Events.
Record row : Set := {
  id : idcell;
  user_id : idcell;
  sequence_number : idcell;
  created_at : tscell;
  city : text;
  extra : list cell
}.
Definition with_ids i u s r :=
  Build_row i u s (created_at r) (city r) (extra r).
Definition with_created_at v r :=
  Build_row (id r) (user_id r) (sequence_number r) v (city r) (extra r).
Definition with_city v r :=
  Build_row (id r) (user_id r) (sequence_number r) (created_at r) v (extra r).
Definition with_extra v r :=
  Build_row (id r) (user_id r) (sequence_number r) (created_at r) (city r) v.
End Events.

Module DistributionCenters.
Record row : Set := {
  id : idcell;
  name : text;
  extra : list cell
}.
Definition with_id v r := Build_row v (name r) (extra r).
Definition with_name v r := Build_row (id r) v (extra r).
End DistributionCenters.

(** ** [data_cleaning.py]: the per-table cleaning functions *)

Module DataCleaning.
Import Pandas.
Local Open Scope result_scope.
Local Open Scope string_scope.

(** Each cleaning function but [clean_distribution_centers] ends with a
    report line that evaluates
    [(original_rows - clean_rows) / original_rows * 100] on Python
    integers; only whether the division succeeds matters here. *)
Definition removed_percent (original_rows clean_rows : nat) : result unit :=
  if Nat.eqb original_rows 0 then Raise ZeroDivisionError else Ok tt.

Section WithParsers.
Context {P : Parsers}.

Definition clean_users (df : list Users.row) : result (list Users.row) :=
  let original_rows := List.length df in
  let df := drop_duplicates text_eqb Users.email df in
  let df := filter (fun r => int_ge (Users.age r) 18) df in
  let df := map (fun r => Users.with_city (fillna "Unknown" (Users.city r)) r) df in
  let df := map (fun r => Users.with_first_name
                            (str_title (str_strip (Users.first_name r))) r) df in
  let df := map (fun r => Users.with_last_name
                            (str_title (str_strip (Users.last_name r))) r) df in
  let df := map (fun r => Users.with_country
                            (str_title (str_strip (Users.country r))) r) df in
  let df := map (fun r => Users.with_city (str_strip (Users.city r)) r) df in
  let df := filter (fun r => match Users.email r with
                             | Some x => EMAIL_RE x
                             | None => false
                             end) df in
  let df := map (fun r => Users.with_created_at
                            (to_datetime (Users.created_at r)) r) df in
  let df := filter (fun r => ts_notna (Users.created_at r)) df in
  df <- mapM (fun r => i <- to_Int64 (Users.id r) ;;
                       Ok (Users.with_id i r)) df ;;
  let clean_rows := List.length df in
  removed_percent original_rows clean_rows ;;;
  Ok df.

Definition clean_products (df : list Products.row)
  : result (list Products.row) :=
  let original_rows := List.length df in
  let df := drop_duplicates idcell_eqb Products.id df in
  let df := filter (fun r => float_ge_Z (Products.cost r) 0) df in
  let df := filter (fun r => float_ge (Products.retail_price r)
                                      (Products.cost r)) df in
  let df := map (fun r => Products.with_name
                            (fillna "Unknown Product" (Products.name r)) r) df in
  let df := map (fun r => Products.with_brand
                            (fillna "Generic" (Products.brand r)) r) df in
  let df := map (fun r => Products.with_category
                            (fillna "Uncategorized" (Products.category r)) r) df in
  let df := map (fun r => Products.with_name (str_strip (Products.name r)) r) df in
  let df := map (fun r => Products.with_brand (str_strip (Products.brand r)) r) df in
  let df := map (fun r => Products.with_category
                            (str_title (str_strip (Products.category r))) r) df in
  let df := map (fun r => Products.with_department
                            (str_strip (Products.department r)) r) df in
  df <- mapM (fun r => i <- to_Int64 (Products.id r) ;;
                       Ok (Products.with_id i r)) df ;;
  let clean_rows := List.length df in
  removed_percent original_rows clean_rows ;;;
  Ok df.

Definition orders_valid_statuses : list string :=
  ["Completed"; "Cancelled"; "Processing"; "Shipped"; "Returned"].

Definition clean_orders (df : list Orders.row) : result (list Orders.row) :=
  let original_rows := List.length df in
  let df := drop_duplicates idcell_eqb Orders.order_id df in
  let df := map (Orders.with_timestamps to_datetime) df in
  let df := filter (fun r => text_isin (Orders.status r)
                                       orders_valid_statuses) df in
  let df := filter (fun r => ts_isna (Orders.shipped_at r)
                             || ts_isna (Orders.created_at r)
                             || ts_ge (Orders.shipped_at r)
                                      (Orders.created_at r)) df in
  let df := filter (fun r => ts_isna (Orders.delivered_at r)
                             || ts_isna (Orders.shipped_at r)
                             || ts_ge (Orders.delivered_at r)
                                      (Orders.shipped_at r)) df in
  df <- mapM (fun r => i <- to_Int64 (Orders.order_id r) ;;
                       Ok (Orders.with_order_id i r)) df ;;
  df <- mapM (fun r => i <- to_Int64 (Orders.user_id r) ;;
                       Ok (Orders.with_user_id i r)) df ;;
  let clean_rows := List.length df in
  removed_percent original_rows clean_rows ;;;
  Ok df.

Definition order_items_valid_statuses : list string :=
  ["Complete"; "Cancelled"; "Processing"; "Shipped"; "Returned"].

Definition clean_order_items (df : list OrderItems.row)
  : result (list OrderItems.row) :=
  let original_rows := List.length df in
  let df := drop_duplicates idcell_eqb OrderItems.id df in
  let df := filter (fun r => float_ge_Z (OrderItems.sale_price r) 0) df in
  let df := map (OrderItems.with_timestamps to_datetime) df in
  let df := filter (fun r => text_isin (OrderItems.status r)
                                       order_items_valid_statuses) df in
  df <- mapM (fun r => i <- to_Int64 (OrderItems.id r) ;;
                       Ok (OrderItems.with_ids i (OrderItems.order_id r)
                             (OrderItems.product_id r) r)) df ;;
  df <- mapM (fun r => o <- to_Int64 (OrderItems.order_id r) ;;
                       Ok (OrderItems.with_ids (OrderItems.id r) o
                             (OrderItems.product_id r) r)) df ;;
  df <- mapM (fun r => p <- to_Int64 (OrderItems.product_id r) ;;
                       Ok (OrderItems.with_ids (OrderItems.id r)
                             (OrderItems.order_id r) p r)) df ;;
  let clean_rows := List.length df in
  removed_percent original_rows clean_rows ;;;
  Ok df.

Definition clean_inventory_items (df : list InventoryItems.row)
  : result (list InventoryItems.row) :=
  let original_rows := List.length df in
  let df := drop_duplicates idcell_eqb InventoryItems.id df in
  let df := filter (fun r => float_ge_Z (InventoryItems.cost r) 0) df in
  let df := filter (fun r => float_ge_Z
                               (InventoryItems.product_retail_price r) 0) df in
  let df := map (fun r => InventoryItems.with_created_at
                            (to_datetime (InventoryItems.created_at r)) r) df in
  let df := map (fun r => InventoryItems.with_sold_at
                            (to_datetime (InventoryItems.sold_at r)) r) df in
  let df := filter (fun r => ts_isna (InventoryItems.sold_at r)
                             || ts_ge (InventoryItems.sold_at r)
                                      (InventoryItems.created_at r)) df in
  let df := map (fun r => InventoryItems.with_product_name
                            (fillna "Unknown Product"
                                    (InventoryItems.product_name r)) r) df in
  let df := map (fun r => InventoryItems.with_product_brand
                            (fillna "Generic"
                                    (InventoryItems.product_brand r)) r) df in
  df <- mapM (fun r => i <- to_Int64 (InventoryItems.id r) ;;
                       Ok (InventoryItems.with_ids i
                             (InventoryItems.product_id r) r)) df ;;
  df <- mapM (fun r => p <- to_Int64 (InventoryItems.product_id r) ;;
                       Ok (InventoryItems.with_ids (InventoryItems.id r)
                             p r)) df ;;
  let clean_rows := List.length df in
  removed_percent original_rows clean_rows ;;;
  Ok df.

Definition clean_events (df : list Events.row) : result (list Events.row) :=
  let original_rows := List.length df in
  let df := drop_duplicates idcell_eqb Events.id df in
  let df := map (fun r => Events.with_created_at
                            (to_datetime (Events.created_at r)) r) df in
  let df := filter (fun r => ts_notna (Events.created_at r)) df in
  let df := map (fun r => Events.with_city
                            (fillna "Unknown" (Events.city r)) r) df in
  df <- mapM (fun r => i <- to_Int64 (Events.id r) ;;
                       Ok (Events.with_ids i (Events.user_id r)
                             (Events.sequence_number r) r)) df ;;
  df <- mapM (fun r => u <- to_Int64 (Events.user_id r) ;;
                       Ok (Events.with_ids (Events.id r) u
                             (Events.sequence_number r) r)) df ;;
  df <- mapM (fun r => s <- to_Int64 (Events.sequence_number r) ;;
                       Ok (Events.with_ids (Events.id r) (Events.user_id r)
                             s r)) df ;;
  (* df.replace('  +', '', regex=True): every text cell of the frame *)
  let df := map (fun r =>
                   Events.with_extra
                     (map df_replace_space_runs (Events.extra r))
                     (Events.with_city
                        (option_map Str.replace_space_runs (Events.city r))
                        r)) df in
  let clean_rows := List.length df in
  removed_percent original_rows clean_rows ;;;
  Ok df.

Definition clean_distribution_centers (df : list DistributionCenters.row)
  : result (list DistributionCenters.row) :=
  let df := drop_duplicates idcell_eqb DistributionCenters.id df in
  let df := map (fun r => DistributionCenters.with_name
                            (str_strip (DistributionCenters.name r)) r) df in
  df <- mapM (fun r => i <- to_Int64 (DistributionCenters.id r) ;;
                       Ok (DistributionCenters.with_id i r)) df ;;
  Ok df.

End WithParsers.
End DataCleaning.

(** ** [data_cleaning.py]: [main], cleaning stage and referential integrity *)

Module Pipeline.
Import Pandas DataCleaning.
Local Open Scope result_scope.
Local Open Scope string_scope.

(** A directory of the seven CSV files; [None] is a file that does not
    exist.  A cleaned file read back holds the rows that were written. *)
Record files : Type := {
  users_csv : option (list Users.row);
  products_csv : option (list Products.row);
  orders_csv : option (list Orders.row);
  order_items_csv : option (list OrderItems.row);
  inventory_items_csv : option (list InventoryItems.row);
  events_csv : option (list Events.row);
  distribution_centers_csv : option (list DistributionCenters.row)
}.

(** [data/violations]: the selected columns of the dropped rows. *)
Record violation_files : Type := {
  orphan_orders : option (list (idcell * idcell));
  oi_missing_orders : option (list (idcell * idcell * idcell));
  oi_missing_products : option (list (idcell * idcell * idcell));
  orphan_events : option (list (idcell * idcell * tscell))
}.

Record filesystem : Type := {
  raw : files;
  processed : files;
  violations : violation_files
}.

(** One entry of [cleaning_summary] (the rounded percentage is left out). *)
Record summary_row : Set := {
  table : string;
  original_rows : nat;
  clean_rows : nat;
  removed_rows : Z;
  clean_rows_after_RI : option nat
}.

Definition exists_ {A : Type} (f : option A) : bool :=
  match f with Some _ => true | None => false end.

Definition with_orders v (p : files) : files :=
  Build_files (users_csv p) (products_csv p) v (order_items_csv p)
              (inventory_items_csv p) (events_csv p)
              (distribution_centers_csv p).
Definition with_order_items v (p : files) : files :=
  Build_files (users_csv p) (products_csv p) (orders_csv p) v
              (inventory_items_csv p) (events_csv p)
              (distribution_centers_csv p).
Definition with_events v (p : files) : files :=
  Build_files (users_csv p) (products_csv p) (orders_csv p)
              (order_items_csv p) (inventory_items_csv p) v
              (distribution_centers_csv p).

(** The body of the loop over [files_to_clean]. *)
Definition clean_file {R : Type} (name : string)
           (cleaning_func : list R -> result (list R))
           (raw_file cleaned_file : option (list R))
           (cleaning_summary : list summary_row)
  : result (option (list R) * list summary_row) :=
  match raw_file with
  | None => Ok (cleaned_file, cleaning_summary)
  | Some df_raw =>
      let original_rows := List.length df_raw in
      df_clean <- cleaning_func df_raw ;;
      let clean_rows := List.length df_clean in
      Ok (Some df_clean,
          (cleaning_summary ++
             [ {| table := name;
                  original_rows := original_rows;
                  clean_rows := clean_rows;
                  removed_rows :=
                    (Z.of_nat original_rows - Z.of_nat clean_rows)%Z;
                  clean_rows_after_RI := None |} ])%list)
  end.

(** [row["clean_rows_after_RI"] = n] for the rows of one table. *)
Definition set_after_RI (name : string) (n : nat)
           (cleaning_summary : list summary_row) : list summary_row :=
  map (fun row =>
         if String.eqb (table row) name
         then {| table := table row;
                 original_rows := original_rows row;
                 clean_rows := clean_rows row;
                 removed_rows := removed_rows row;
                 clean_rows_after_RI := Some n |}
         else row) cleaning_summary.

(** A violations file is written only when there is a violation. *)
Definition to_csv_unless_empty {A : Type} (old : option (list A))
           (df : list A) : option (list A) :=
  match df with
  | [] => old
  | _ => Some df
  end.

(** *** The three referential-integrity blocks *)

(** orders.user_id -> users.id *)
Definition orders_users (users_df : list Users.row)
           (orders_df : list Orders.row)
  : list Orders.row * list (idcell * idcell) :=
  let mask_valid_user :=
    fun r => isin (Orders.user_id r) (map Users.id users_df) in
  let orphan_orders_df :=
    map (fun r => (Orders.order_id r, Orders.user_id r))
        (filter (fun r => negb (mask_valid_user r)) orders_df) in
  (filter mask_valid_user orders_df, orphan_orders_df).

(** order_items.order_id -> orders.order_id and
    order_items.product_id -> products.id *)
Definition oi_columns (r : OrderItems.row) : idcell * idcell * idcell :=
  (OrderItems.id r, OrderItems.order_id r, OrderItems.product_id r).

Definition order_items_orders_products (orders_df : list Orders.row)
           (prods_df : list Products.row) (oitems_df : list OrderItems.row)
  : list OrderItems.row
    * list (idcell * idcell * idcell) * list (idcell * idcell * idcell) :=
  let mask_order_ok :=
    fun r => isin (OrderItems.order_id r) (map Orders.order_id orders_df) in
  let oi_missing_orders :=
    map oi_columns (filter (fun r => negb (mask_order_ok r)) oitems_df) in
  let mask_product_ok :=
    fun r => isin (OrderItems.product_id r) (map Products.id prods_df) in
  let oi_missing_products :=
    map oi_columns (filter (fun r => negb (mask_product_ok r)) oitems_df) in
  (filter (fun r => mask_order_ok r && mask_product_ok r) oitems_df,
   oi_missing_orders, oi_missing_products).

(** events.user_id -> users.id, nullable *)
Definition events_columns (r : Events.row) : idcell * idcell * tscell :=
  (Events.id r, Events.user_id r, Events.created_at r).

Definition events_users (users_df : list Users.row)
           (events_df : list Events.row)
  : list Events.row * list (idcell * idcell * tscell) :=
  let valid_user_ids := unique (dropna (map Users.id users_df)) in
  let mask_valid :=
    fun r => isna (Events.user_id r)
             || isin (Events.user_id r) valid_user_ids in
  let orphan_events_df :=
    map events_columns (filter (fun r => negb (mask_valid r)) events_df) in
  (filter mask_valid events_df, orphan_events_df).

(** The state [main] threads through the RI blocks. *)
Record state : Type := {
  st_processed : files;
  st_violations : violation_files;
  st_summary : list summary_row
}.

Definition ri_orders (st : state) : state :=
  match users_csv (st_processed st), orders_csv (st_processed st) with
  | Some users_df, Some orders_df =>
      let '(orders_df, orphan_orders_df) := orders_users users_df orders_df in
      let v := st_violations st in
      {| st_processed := with_orders (Some orders_df) (st_processed st);
         st_violations :=
           Build_violation_files
             (to_csv_unless_empty (orphan_orders v) orphan_orders_df)
             (oi_missing_orders v) (oi_missing_products v) (orphan_events v);
         st_summary :=
           set_after_RI "orders" (List.length orders_df) (st_summary st) |}
  | _, _ => st
  end.

Definition ri_events (st : state) : state :=
  match users_csv (st_processed st), events_csv (st_processed st) with
  | Some users_df, Some events_df =>
      let '(events_df, orphan_events_df) := events_users users_df events_df in
      let v := st_violations st in
      {| st_processed := with_events (Some events_df) (st_processed st);
         st_violations :=
           Build_violation_files
             (orphan_orders v) (oi_missing_orders v) (oi_missing_products v)
             (to_csv_unless_empty (orphan_events v) orphan_events_df);
         st_summary :=
           set_after_RI "events" (List.length events_df) (st_summary st) |}
  | _, _ => st
  end.

(** The order_items block; the events block sits inside its [if]. *)
Definition ri_order_items (st : state) : state :=
  match orders_csv (st_processed st), products_csv (st_processed st),
        order_items_csv (st_processed st) with
  | Some orders_df, Some prods_df, Some oitems_df =>
      let '(oitems_df, missing_orders, missing_products) :=
        order_items_orders_products orders_df prods_df oitems_df in
      let v := st_violations st in
      let st :=
        {| st_processed :=
             with_order_items (Some oitems_df) (st_processed st);
           st_violations :=
             Build_violation_files
               (orphan_orders v)
               (to_csv_unless_empty (oi_missing_orders v) missing_orders)
               (to_csv_unless_empty (oi_missing_products v) missing_products)
               (orphan_events v);
           st_summary :=
             set_after_RI "order_items" (List.length oitems_df)
                          (st_summary st) |} in
      ri_events st
  | _, _, _ => st
  end.

Section WithParsers.
Context {P : Parsers}.

(** The loop over [files_to_clean], in the dictionary's order. *)
Definition clean_all (fs : filesystem) : result state :=
  let r := raw fs in
  let p := processed fs in
  '(users', s) <- clean_file "users" clean_users
                    (users_csv r) (users_csv p) [] ;;
  '(products', s) <- clean_file "products" clean_products
                       (products_csv r) (products_csv p) s ;;
  '(orders', s) <- clean_file "orders" clean_orders
                     (orders_csv r) (orders_csv p) s ;;
  '(order_items', s) <- clean_file "order_items" clean_order_items
                          (order_items_csv r) (order_items_csv p) s ;;
  '(inventory_items', s) <- clean_file "inventory_items" clean_inventory_items
                              (inventory_items_csv r)
                              (inventory_items_csv p) s ;;
  '(events', s) <- clean_file "events" clean_events
                     (events_csv r) (events_csv p) s ;;
  '(distribution_centers', s) <-
    clean_file "distribution_centers" clean_distribution_centers
               (distribution_centers_csv r) (distribution_centers_csv p) s ;;
  Ok {| st_processed :=
          Build_files users' products' orders' order_items'
                      inventory_items' events' distribution_centers';
        st_violations := violations fs;
        st_summary := s |}.

(** [main]: returns the file system it leaves and [cleaning_summary].
    The final statistics index the summary frame by column, which
    raises [KeyError] when no table was cleaned. *)
Definition main (fs : filesystem)
  : result (filesystem * list summary_row) :=
  st <- clean_all fs ;;
  let st := ri_orders st in
  let st := ri_order_items st in
  match st_summary st with
  | [] => Raise KeyError
  | _ =>
      Ok ({| raw := raw fs;
             processed := st_processed st;
             violations := st_violations st |},
          st_summary st)
  end.

End WithParsers.
End Pipeline.

(** ** [big_int_validator.py]: [BigintValidator] *)

Module BigintValidator.
Local Open Scope string_scope.

Definition BIGINT_MIN : Z := (-9223372036854775808)%Z.
Definition BIGINT_MAX : Z := 9223372036854775807%Z.

Inductive error_type : Set :=
| NON_NUMERIC
| UNDERFLOW
| OVERFLOW
| PRECISION_LOSS.

(** One dictionary of [self.violations] (the formatted message is left
    out).  ['value'] is the original cell for [NON_NUMERIC] and the
    numeric value otherwise. *)
Inductive reported : Set :=
| Original (c : cell)
| Numeric (v : pynum).

Record Violation : Set := {
  row : nat;
  column : string;
  value : reported;
  error : error_type
}.

(** A frame as [pd.read_csv] returns it: named columns, in file order. *)
Definition DataFrame : Set := list (string * list cell).

Definition columns (df : DataFrame) : list string := map fst df.

Fixpoint getitem (df : DataFrame) (col : string) : list cell :=
  match df with
  | [] => []
  | (name, cells) :: df' =>
      if String.eqb name col then cells else getitem df' col
  end.

(** What is at [csv_path]. *)
Inductive file : Set :=
| Missing
| Unreadable
| Csv (df : DataFrame).

(** The attributes of the instance ([self.stats] is write-only and is
    left out). *)
Record validator : Set := {
  csv_path : string;
  numeric_columns : option (list string);
  violations : list Violation
}.

Definition init (csv_path : string) (numeric_columns : option (list string))
  : validator :=
  {| csv_path := csv_path;
     numeric_columns := numeric_columns;
     violations := [] |}.

(** Methods mutate [self] and may raise: a state monad over the
    instance whose state survives an exception. *)
Definition M (A : Type) : Type := validator -> validator * result A.

Definition ret {A : Type} (a : A) : M A := fun self => (self, Ok a).

Definition raise {A : Type} (e : exn) : M A := fun self => (self, Raise e).

Definition mbind {A B : Type} (c : M A) (k : A -> M B) : M B :=
  fun self =>
    match c self with
    | (self', Ok a) => k a self'
    | (self', Raise e) => (self', Raise e)
    end.

Declare Scope method_scope.
Delimit Scope method_scope with method.
Notation "x <- c ;; k" := (mbind c (fun x => k))
  (at level 61, c at next level, right associativity) : method_scope.
Notation "c ;;; k" := (mbind c (fun _ => k))
  (at level 61, right associativity) : method_scope.
Local Open Scope method_scope.

(** [self.violations.append(v)] *)
Definition append (v : Violation) : M unit :=
  fun self =>
    ({| csv_path := csv_path self;
        numeric_columns := numeric_columns self;
        violations := (violations self ++ [v])%list |}, Ok tt).

Definition set_numeric_columns (cols : list string) : M unit :=
  fun self =>
    ({| csv_path := csv_path self;
        numeric_columns := Some cols;
        violations := violations self |}, Ok tt).

Definition get : M validator := fun self => (self, Ok self).

Definition lift {A : Type} (r : result A) : M A := fun self => (self, r).

Fixpoint for_each {A : Type} (l : list A) (body : A -> M unit) : M unit :=
  match l with
  | [] => ret tt
  | x :: xs => body x ;;; for_each xs body
  end.

Fixpoint enumerate_from {A : Type} (i : nat) (l : list A) : list (nat * A) :=
  match l with
  | [] => []
  | x :: xs => (i, x) :: enumerate_from (S i) xs
  end.

Definition enumerate {A : Type} (l : list A) : list (nat * A) :=
  enumerate_from 0 l.

Definition notna (c : cell) : bool :=
  match c with CNull => false | _ => true end.

(** The truth value of [str(original_value).strip()]: a number never
    prints as blank text. *)
Definition str_strip_truthy (c : cell) : bool :=
  match c with
  | CStr s => negb (Str.is_empty (Str.strip s))
  | _ => true
  end.

(** [value != int(value)] for a float. *)
Definition float_ne_int (f : float64) : result bool :=
  (n <- py_int (PyFloat f) ;;
   Ok (negb (is_Eq (float_cmp_Z f n))))%result.

Section WithParsers.
Context {P : Parsers}.

(** [pd.to_numeric(s, errors='coerce')], cell by cell; [None] is NaN. *)
Definition to_numeric (c : cell) : option pynum :=
  match c with
  | CNull => None
  | CInt z => Some (PyInt z)
  | CFloat f => Some (PyFloat f)
  | CStr s => to_numeric_str s
  end.

(** The body of the loop of [_validate_column]. *)
Definition validate_value (col : string) (column : list cell)
           (idx : nat) (value : option pynum) : M unit :=
  match value with
  | None =>
      let original_value := nth idx column CNull in
      if notna original_value && str_strip_truthy original_value
      then append {| row := idx + 2; column := col;
                     value := Original original_value;
                     error := NON_NUMERIC |}
      else ret tt
  | Some v =>
      (if py_lt_Z v BIGINT_MIN
       then append {| row := idx + 2; column := col;
                      value := Numeric v; error := UNDERFLOW |}
       else if py_gt_Z v BIGINT_MAX
       then append {| row := idx + 2; column := col;
                      value := Numeric v; error := OVERFLOW |}
       else ret tt) ;;;
      match v with
      | PyInt _ => ret tt
      | PyFloat f =>
          fractional <- lift (float_ne_int f) ;;
          if (fractional : bool)
          then append {| row := idx + 2; column := col;
                         value := Numeric v; error := PRECISION_LOSS |}
          else ret tt
      end
  end.

Definition _validate_column (df : DataFrame) (col : string) : M unit :=
  let column := getitem df col in
  let numeric_series := map to_numeric column in
  for_each (enumerate numeric_series)
           (fun '(idx, value) => validate_value col column idx value).

(** An int64 or float64 column has at least one row and no text. *)
Definition dtype_int64_float64 (column : list cell) : bool :=
  match column with
  | [] => false
  | _ => forallb (fun c => match c with CStr _ => false | _ => true end)
                 column
  end.

Definition _detect_numeric_columns (df : DataFrame) : list string :=
  map fst
      (filter (fun '(_, column) =>
                 dtype_int64_float64 column
                 || existsb (fun c => match to_numeric c with
                                      | Some _ => true
                                      | None => false
                                      end) column)
              df).

(** [validate]; the file at [self.csv_path] is the argument [f]. *)
Definition validate (f : file) : M (bool * list Violation) :=
  match f with
  | Missing => raise FileNotFoundError
  | Unreadable => raise ValueError
  | Csv df =>
      self <- get ;;
      (match numeric_columns self with
       | None => set_numeric_columns (_detect_numeric_columns df)
       | Some _ => ret tt
       end) ;;;
      self <- get ;;
      for_each (match numeric_columns self with
                | Some cols => cols
                | None => []
                end)
               (fun col =>
                  if existsb (String.eqb col) (columns df)
                  then _validate_column df col
                  else ret tt) ;;;
      self <- get ;;
      ret (Nat.eqb (List.length (violations self)) 0, violations self)
  end.

End WithParsers.
End BigintValidator.

(** ** The tables of [files_to_clean], generically *)

Module Tables.
Import DataCleaning Pipeline.
Local Open Scope string_scope.

Inductive table_name : Set :=
| users
| products
| orders
| order_items
| inventory_items
| events
| distribution_centers.

Definition row_of (t : table_name) : Set :=
  match t with
  | users => Users.row
  | products => Products.row
  | orders => Orders.row
  | order_items => OrderItems.row
  | inventory_items => InventoryItems.row
  | events => Events.row
  | distribution_centers => DistributionCenters.row
  end.

(** [files_to_clean]: the cleaning function of each file. *)
Definition files_to_clean {P : Parsers} (t : table_name)
  : list (row_of t) -> result (list (row_of t)) :=
  match t with
  | users => clean_users
  | products => clean_products
  | orders => clean_orders
  | order_items => clean_order_items
  | inventory_items => clean_inventory_items
  | events => clean_events
  | distribution_centers => clean_distribution_centers
  end.

Definition file_of (t : table_name) (f : files) : option (list (row_of t)) :=
  match t with
  | users => users_csv f
  | products => products_csv f
  | orders => orders_csv f
  | order_items => order_items_csv f
  | inventory_items => inventory_items_csv f
  | events => events_csv f
  | distribution_centers => distribution_centers_csv f
  end.

(** The primary-key column of each table. *)
Definition primary_key (t : table_name) : row_of t -> idcell :=
  match t with
  | users => Users.id
  | products => Products.id
  | orders => Orders.order_id
  | order_items => OrderItems.id
  | inventory_items => InventoryItems.id
  | events => Events.id
  | distribution_centers => DistributionCenters.id
  end.

(** The summary's name of each table: the file name without [.csv]. *)
Definition name_of (t : table_name) : string :=
  match t with
  | users => "users"
  | products => "products"
  | orders => "orders"
  | order_items => "order_items"
  | inventory_items => "inventory_items"
  | events => "events"
  | distribution_centers => "distribution_centers"
  end.

Definition table_name_eq_dec (a b : table_name) : {a = b} + {a <> b}.
Proof. decide equality. Defined.

(** An identifier cell that holds no text. *)
Definition is_numeric (c : idcell) : bool :=
  match c with
  | IStr _ => false
  | _ => true
  end.

End Tables.

(** ** Concrete parsers for the worked examples

    Decimal integer literals for [pd.to_numeric] and ISO calendar dates
    ([YYYY-MM-DD], midnight UTC) for [pd.to_datetime]. *)

Module Demo.
Import Str.

Fixpoint digits (acc : Z) (s : string) : option Z :=
  match s with
  | EmptyString => Some acc
  | String c s' =>
      if isdigit c
      then digits (acc * 10 + (Z.of_N (code c) - 48)) s'
      else None
  end.

Definition natural (s : string) : option Z :=
  match s with
  | EmptyString => None
  | _ => digits 0 s
  end.

Definition decimal (s : string) : option pynum :=
  match s with
  | String "-" s' => option_map (fun n => PyInt (- n)) (natural s')
  | _ => option_map PyInt (natural s)
  end.

Definition is_leap (y : Z) : bool :=
  ((y mod 4 =? 0) && negb (y mod 100 =? 0) || (y mod 400 =? 0))%Z.

Definition days_in_month (y m : Z) : Z :=
  if (m =? 2)%Z then (if is_leap y then 29 else 28)%Z
  else if ((m =? 4) || (m =? 6) || (m =? 9) || (m =? 11))%Z then 30%Z
  else 31%Z.

(** Days from 1970-01-01 to the civil date [y]-[m]-[d]. *)
Definition days_from_civil (y m d : Z) : Z :=
  let y := (if m <=? 2 then y - 1 else y)%Z in
  let era := (y / 400)%Z in
  let yoe := (y - era * 400)%Z in
  let doy := ((153 * (if m >? 2 then m - 3 else m + 9) + 2) / 5 + d - 1)%Z in
  let doe := (yoe * 365 + yoe / 4 - yoe / 100 + doy)%Z in
  (era * 146097 + doe - 719468)%Z.

Definition iso_date (s : string) : option Z :=
  if negb (String.length s =? 10)%nat then None
  else
    match natural (substring 0 4 s), natural (substring 5 2 s),
          natural (substring 8 2 s) with
    | Some y, Some m, Some d =>
        if (String.eqb (substring 4 1 s) "-")
           && (String.eqb (substring 7 1 s) "-")
           && (1 <=? m)%Z && (m <=? 12)%Z
           && (1 <=? d)%Z && (d <=? days_in_month y m)%Z
        then Some (days_from_civil y m d * 86400 * 1000000000)%Z
        else None
    | _, _, _ => None
    end.

Definition parsers : Parsers :=
  {| to_numeric_str := decimal; to_datetime_str := iso_date |}.

(** A finite float from its significand and exponent. *)
Definition f64 (m e : Z)
           (ok : ((Z.abs m <? 2 ^ 53) && (-1074 <=? e) && (e <=? 971))%Z = true)
  : float64 :=
  FFin {| mant := m; expo := e; finite64_ok := ok |}.

End Demo.

(** ** Worked data *)

Module Scenarios.
Import Pipeline.
Local Open Scope string_scope.

Definition user (i : Z) (email : string) (age : Z) : Users.row :=
  {| Users.id := IInt i;
     Users.first_name := Some " ann ";
     Users.last_name := Some "LEE";
     Users.email := Some email;
     Users.age := Some age;
     Users.city := None;
     Users.country := Some "france";
     Users.created_at := TStr "2021-03-01";
     Users.extra := [] |}.

Definition five : float64 := Demo.f64 5 0 eq_refl.
Definition ten : float64 := Demo.f64 10 0 eq_refl.

Definition product (i : Z) (cost price : float64) : Products.row :=
  {| Products.id := IInt i;
     Products.cost := Some cost;
     Products.retail_price := Some price;
     Products.name := Some "Scarf";
     Products.brand := None;
     Products.category := Some "accessories";
     Products.department := Some "Women";
     Products.extra := [] |}.

Definition order (i u : Z) (created shipped : tscell) : Orders.row :=
  {| Orders.order_id := IInt i;
     Orders.user_id := IInt u;
     Orders.status := Some "Shipped";
     Orders.created_at := created;
     Orders.shipped_at := shipped;
     Orders.delivered_at := NaT;
     Orders.returned_at := NaT;
     Orders.extra := [] |}.

Definition order_item (i o p : Z) : OrderItems.row :=
  {| OrderItems.id := IInt i;
     OrderItems.order_id := IInt o;
     OrderItems.product_id := IInt p;
     OrderItems.sale_price := Some five;
     OrderItems.status := Some "Shipped";
     OrderItems.created_at := TStr "2021-03-02";
     OrderItems.shipped_at := NaT;
     OrderItems.delivered_at := NaT;
     OrderItems.returned_at := NaT;
     OrderItems.extra := [] |}.

Definition event (i : Z) (u : idcell) : Events.row :=
  {| Events.id := IInt i;
     Events.user_id := u;
     Events.sequence_number := IInt 1;
     Events.created_at := TStr "2021-03-03";
     Events.city := Some "Sao  Paulo";
     Events.extra := [CStr "Chrome"] |}.

Definition no_files : files :=
  {| users_csv := None; products_csv := None; orders_csv := None;
     order_items_csv := None; inventory_items_csv := None;
     events_csv := None; distribution_centers_csv := None |}.

Definition no_violations : violation_files :=
  {| orphan_orders := None; oi_missing_orders := None;
     oi_missing_products := None; orphan_events := None |}.

(** Two users with one id and two emails. *)
Definition same_id_users : list Users.row :=
  [user 1 "ann@example.org" 30; user 1 "bob@example.org" 41].

(** A first run on users and events only; event 11 refers to no user. *)
Definition users_and_events : filesystem :=
  {| raw :=
       {| users_csv := Some [user 1 "ann@example.org" 30];
          products_csv := None; orders_csv := None;
          order_items_csv := None; inventory_items_csv := None;
          events_csv := Some [event 10 (IInt 1); event 11 (IInt 99);
                              event 12 INull];
          distribution_centers_csv := None |};
     processed := no_files;
     violations := no_violations |}.

(** A first run on five tables. *)
Definition five_tables : filesystem :=
  {| raw :=
       {| users_csv := Some [user 1 "ann@example.org" 30;
                             user 2 "kid@example.org" 17];
          products_csv := Some [product 7 ten ten; product 8 ten five];
          orders_csv :=
            Some [order 100 1 (TStr "2021-03-01") NaT;
                  order 101 2 (TStr "2021-03-01") (TStr "2021-03-02");
                  order 102 1 (TStr "2021-03-05") (TStr "2021-03-04")];
          order_items_csv := Some [order_item 1000 100 7;
                                   order_item 1001 101 8;
                                   order_item 1002 100 8];
          inventory_items_csv := None;
          events_csv := Some [event 10 (IInt 1); event 11 (IInt 99);
                              event 12 INull];
          distribution_centers_csv := None |};
     processed := no_files;
     violations := no_violations |}.

(** The orders of [five_tables], and what [clean_orders] makes of them. *)
Definition raw_orders : list Orders.row :=
  [order 100 1 (TStr "2021-03-01") NaT;
   order 101 2 (TStr "2021-03-01") (TStr "2021-03-02");
   order 102 1 (TStr "2021-03-05") (TStr "2021-03-04")].


(** Two products whose ids are text that is no number. *)
Definition text_id_products : list Products.row :=
  [ {| Products.id := IStr "abc"; Products.cost := Some five;
       Products.retail_price := Some ten; Products.name := Some "Scarf";
       Products.brand := Some "Acme"; Products.category := Some "Accessories";
       Products.department := Some "Women"; Products.extra := [] |};
    {| Products.id := IStr "xyz"; Products.cost := Some five;
       Products.retail_price := Some ten; Products.name := Some "Hat";
       Products.brand := Some "Acme"; Products.category := Some "Accessories";
       Products.department := Some "Men"; Products.extra := [] |} ].

(** One product that retails below its cost (scenario B). *)
Definition underpriced_product : list Products.row :=
  [ {| Products.id := IInt 8; Products.cost := Some ten;
       Products.retail_price := Some five; Products.name := Some "Scarf";
       Products.brand := Some "Acme"; Products.category := Some "Accessories";
       Products.department := Some "Women"; Products.extra := [] |} ].

End Scenarios.

(** ** Vocabulary of the statements *)

Module Spec.
Import BigintValidator Pipeline Tables.

(** A string that does not begin with white space. *)
Definition no_lead (s : string) : bool :=
  match s with
  | EmptyString => true
  | String c _ => negb (Str.isspace c)
  end.

(** A string with no two adjacent spaces. *)
Fixpoint no_adjacent_blanks (s : string) : bool :=
  match s with
  | EmptyString => true
  | String c s' =>
      negb (Str.is_blank c && Str.starts_blank s') && no_adjacent_blanks s'
  end.

(** The files of [p'] are cut, row by row, from those of [p]. *)
Definition cut_from (p p' : files) : Prop :=
  forall t l, file_of t p = Some l ->
              exists mask, file_of t p' = Some (filter mask l).

(** The state of [main] keeps track of table [t], cleaned from [df] to
    [out]: its file is cut from [out], and the summary rows of [t] carry
    the lengths of [df], of [out] and, once a referential-integrity block
    has rewritten the file, of the file. *)
Definition tracked (t : table_name) (df out : list (row_of t))
           (st : state) : Prop :=
  exists final,
    file_of t (st_processed st) = Some final
    /\ (exists mask, final = filter mask out)
    /\ In (name_of t) (map table (st_summary st))
    /\ (forall row, In row (st_summary st) -> table row = name_of t ->
                    original_rows row = List.length df
                    /\ clean_rows row = List.length out
                    /\ (clean_rows_after_RI row = None
                        \/ clean_rows_after_RI row = Some (List.length final))).

(** The column each cleaning function deduplicates on has no duplicate:
    [email] for users, the primary key for the other tables. *)
Definition dedup_column_unique (t : table_name) : list (row_of t) -> Prop :=
  match t with
  | users => fun df => NoDup (map Users.email df)
  | products => fun df => NoDup (map Products.id df)
  | orders => fun df => NoDup (map Orders.order_id df)
  | order_items => fun df => NoDup (map OrderItems.id df)
  | inventory_items => fun df => NoDup (map InventoryItems.id df)
  | events => fun df => NoDup (map Events.id df)
  | distribution_centers => fun df => NoDup (map DistributionCenters.id df)
  end.

(** No primary-key cell of the frame is text. *)
Definition keys_numeric (t : table_name) (df : list (row_of t)) : Prop :=
  Forall (fun c => is_numeric c = true) (map (primary_key t) df).

(** The keys of a frame are distinct and all satisfy [Q]. *)
Definition keys_ok {R K : Type} (key : R -> K) (Q : K -> Prop)
           (df : list R) : Prop :=
  NoDup (map key df) /\ Forall Q (map key df).

(** [r'] is the row [clean_orders] makes of the raw row [r]: timestamps
    parsed, identifiers cast. *)
Definition cleaned_order {P : Parsers} (r r' : Orders.row) : Prop :=
  exists o u,
    Pandas.to_Int64 (Orders.order_id r) = Ok o
    /\ Pandas.to_Int64 (Orders.user_id r) = Ok u
    /\ r' = Orders.with_user_id u
              (Orders.with_order_id o
                 (Orders.with_timestamps Pandas.to_datetime r)).

(** What each error type says about the cell it is reported for:
    [value] is the cell's numeric value ([None]: NaN) and [original] the
    cell as read. *)
Definition justified (value : option pynum) (original : cell)
           (e : error_type) : Prop :=
  match e with
  | NON_NUMERIC => value = None /\ original <> CNull
  | UNDERFLOW => exists v, value = Some v /\ py_lt_Z v BIGINT_MIN = true
  | OVERFLOW => exists v, value = Some v /\ py_gt_Z v BIGINT_MAX = true
  | PRECISION_LOSS =>
      exists f, value = Some (PyFloat f) /\ float_ne_int f = Ok true
  end.

End Spec.

(** ** Further vocabulary and worked data *)

Module Terms.
Import Pandas DataCleaning BigintValidator Pipeline Tables.
Local Open Scope string_scope.

(** The keys of [files_to_clean], in the order [main] walks them. *)
Definition all_tables : list table_name :=
  [users; products; orders; order_items; inventory_items; events;
   distribution_centers].

(** The raw file of table [t] exists. *)
Definition has_raw (fs : filesystem) (t : table_name) : bool :=
  exists_ (file_of t (raw fs)).

(** What [EMAIL_RE] is written to accept: a local part, "@", a domain,
    ".", a top-level domain of two letters or more and, as [$] allows,
    one final newline. *)
Definition email_shape (s : list ascii) : Prop :=
  exists local domain tld tail,
    s = (local ++ "@"%char :: domain ++ "."%char :: tld ++ tail)%list
    /\ (tail = [] \/ tail = ["010"%char])
    /\ local <> [] /\ forallb EmailRe.local_char local = true
    /\ domain <> [] /\ forallb EmailRe.domain_char domain = true
    /\ 2 <= List.length tld /\ forallb Str.isalpha tld = true.

(** A timestamp cell that is null or a parsed [Timestamp], not text. *)
Definition parsed (c : tscell) : bool :=
  match c with
  | TStr _ => false
  | _ => true
  end.

(** A text cell that is not null, and one that carries no white space at
    either end. *)
Definition filled (c : text) : bool :=
  match c with Some _ => true | None => false end.

Definition trimmed (c : text) : Prop :=
  forall s, c = Some s -> Str.strip s = s.

Definition title_cased (c : text) : Prop :=
  forall s, c = Some s -> Str.title s = s.

(** A float cell that holds a number not below [z], or not below the
    number of another cell. *)
Definition at_least_Z (c : option float64) (z : Z) : Prop :=
  exists f, c = Some f /\ float_cmp_Z f z <> Lt.

Definition at_least (a b : option float64) : Prop :=
  exists x y, a = Some x /\ b = Some y /\ float_cmp x y <> Lt.



(** The rows [clean_products] keeps, and what it makes of a kept row. *)
Definition keep_product (r : Products.row) : bool :=
  float_ge_Z (Products.cost r) 0
  && float_ge (Products.retail_price r) (Products.cost r).

Definition cleaned_product {P : Parsers} (r r' : Products.row) : Prop :=
  exists i,
    to_Int64 (Products.id r) = Ok i
    /\ r' = {| Products.id := i;
               Products.cost := Products.cost r;
               Products.retail_price := Products.retail_price r;
               Products.name :=
                 str_strip (fillna "Unknown Product" (Products.name r));
               Products.brand :=
                 str_strip (fillna "Generic" (Products.brand r));
               Products.category :=
                 str_title
                   (str_strip (fillna "Uncategorized" (Products.category r)));
               Products.department := str_strip (Products.department r);
               Products.extra := Products.extra r |}.

(** What [clean_distribution_centers] makes of a row. *)
Definition cleaned_center {P : Parsers} (r r' : DistributionCenters.row)
  : Prop :=
  exists i,
    to_Int64 (DistributionCenters.id r) = Ok i
    /\ r' = {| DistributionCenters.id := i;
               DistributionCenters.name :=
                 str_strip (DistributionCenters.name r);
               DistributionCenters.extra := DistributionCenters.extra r |}.

(** A returned order with no return date and no shipping date. *)
Definition returned_order (i u : Z) : Orders.row :=
  {| Orders.order_id := IInt i;
     Orders.user_id := IInt u;
     Orders.status := Some "Returned";
     Orders.created_at := TStr "2021-03-01";
     Orders.shipped_at := NaT;
     Orders.delivered_at := NaT;
     Orders.returned_at := NaT;
     Orders.extra := [] |}.

(** Two distribution centers with one id. *)
Definition centers : list DistributionCenters.row :=
  [ {| DistributionCenters.id := IInt 1;
       DistributionCenters.name := Some " Memphis TN ";
       DistributionCenters.extra := [] |};
    {| DistributionCenters.id := IInt 1;
       DistributionCenters.name := Some "Chicago IL";
       DistributionCenters.extra := [] |} ].


(** An inventory item sold the day after it came in. *)
Definition inventory_item (i p : Z) : InventoryItems.row :=
  {| InventoryItems.id := IInt i;
     InventoryItems.product_id := IInt p;
     InventoryItems.cost := Some Scenarios.five;
     InventoryItems.product_retail_price := Some Scenarios.ten;
     InventoryItems.created_at := TStr "2021-03-01";
     InventoryItems.sold_at := TStr "2021-03-02";
     InventoryItems.product_name := None;
     InventoryItems.product_brand := Some "Acme";
     InventoryItems.extra := [] |}.

(** The instance [self] with the violations [pre] of earlier calls in
    front of its own. *)
Definition after_earlier (pre : list Violation) (self : validator)
  : validator :=
  {| csv_path := csv_path self;
     numeric_columns := numeric_columns self;
     BigintValidator.violations :=
       (pre ++ BigintValidator.violations self)%list |}.


(** A frame with a fractional sequence number in its second row, and a
    frame every bigint cell of which fits. *)
Definition fractional_frame : DataFrame :=
  [("id", [CInt 1; CInt 2]);
   ("city", [CStr "Paris"; CNull]);
   ("sequence_number", [CInt 1; CFloat (Demo.f64 3 (-1) eq_refl)])].


(** A second run on users and events only, after a run that reported
    an orphan event. *)
Definition stale_report : filesystem :=
  {| raw := raw Scenarios.users_and_events;
     processed := Scenarios.no_files;
     violations :=
       {| orphan_orders := None; oi_missing_orders := None;
          oi_missing_products := None;
          orphan_events := Some [(IInt 3, IInt 4, Timestamp 0)] |} |}.

End Terms.

(** * Properties *)

(** Sanity checks of the string functions and the parsers. *)
Example strip_example : Str.strip "  New  York "%string = "New  York"%string.
Proof. reflexivity. Qed.

Example title_example :
  Str.title "o'neil mcDONALD"%string = "O'Neil Mcdonald"%string.
Proof. reflexivity. Qed.

Example replace_space_runs_example :
  Str.replace_space_runs "a  b c   d "%string = "ab cd "%string.
Proof. reflexivity. Qed.

Example email_examples :
  EMAIL_RE "ann.lee+x@mail.example.org"%string = true
  /\ EMAIL_RE "ann@example"%string = false
  /\ EMAIL_RE "ann@@example.org"%string = false
  /\ EMAIL_RE "@example.org"%string = false
  /\ EMAIL_RE "ann@example.o"%string = false
  /\ EMAIL_RE "ann@.org"%string = false.
Proof. repeat split; reflexivity. Qed.

Example iso_date_examples :
  Demo.iso_date "1970-01-02"%string = Some 86400000000000%Z
  /\ Demo.iso_date "2021-03-01"%string = Some 1614556800000000000%Z
  /\ Demo.iso_date "2021-02-30"%string = None.
Proof. repeat split; reflexivity. Qed.

(** ** The text normalisations are idempotent *)

Module StrFacts.
Import Str Spec.

Ltac each_char c := destruct c as [[] [] [] [] [] [] [] []].

Lemma case_of_letter (c : ascii) :
  isalpha c = true ->
  isalpha (upper c) = true /\ isalpha (lower c) = true
  /\ upper (upper c) = upper c /\ lower (lower c) = lower c
  /\ isspace (upper c) = false /\ isspace (lower c) = false.
Proof.
  each_char c; intros H; try discriminate H; repeat split.
Qed.

Lemma letter_not_space (c : ascii) : isalpha c = true -> isspace c = false.
Proof. each_char c; intros H; try discriminate H; reflexivity. Qed.

Lemma title_from_idempotent (s : string) :
  forall b, title_from b (title_from b s) = title_from b s.
Proof.
  induction s as [| c s IH]; intros b; cbn; [reflexivity |].
  destruct (isalpha c) eqn:Hc; cbn.
  - destruct (case_of_letter c Hc) as (Hu & Hl & Huu & Hll & _).
    destruct b; [rewrite Hl, Hll | rewrite Hu, Huu]; rewrite IH; reflexivity.
  - rewrite Hc, IH. reflexivity.
Qed.

Lemma title_idempotent (s : string) : title (title s) = title s.
Proof. apply title_from_idempotent. Qed.

Lemma lstrip_no_lead (s : string) : no_lead (lstrip s) = true.
Proof.
  induction s as [| c s IH]; cbn; [reflexivity |].
  destruct (isspace c) eqn:Hc; [exact IH |]. cbn. rewrite Hc. reflexivity.
Qed.

Lemma no_lead_lstrip (s : string) : no_lead s = true -> lstrip s = s.
Proof.
  destruct s as [| c s]; cbn; [reflexivity |].
  destruct (isspace c); [discriminate | reflexivity].
Qed.

Lemma rstrip_no_lead (s : string) :
  no_lead s = true -> no_lead (rstrip s) = true.
Proof.
  destruct s as [| c s]; cbn; [reflexivity |].
  destruct (isspace c) eqn:Hc; [discriminate |]. cbn. rewrite Hc. reflexivity.
Qed.

Lemma rstrip_idempotent (s : string) : rstrip (rstrip s) = rstrip s.
Proof.
  induction s as [| c s IH]; cbn; [reflexivity |].
  destruct (isspace c && is_empty (rstrip s)) eqn:E; cbn; [reflexivity |].
  rewrite IH, E. reflexivity.
Qed.

Lemma strip_idempotent (s : string) : strip (strip s) = strip s.
Proof.
  unfold strip.
  rewrite (no_lead_lstrip (rstrip (lstrip s))).
  - apply rstrip_idempotent.
  - apply rstrip_no_lead, lstrip_no_lead.
Qed.

Lemma title_from_is_empty (b : bool) (s : string) :
  is_empty (title_from b s) = is_empty s.
Proof. destruct s as [| c s]; cbn; [| destruct (isalpha c)]; reflexivity. Qed.

Lemma rstrip_title_from (s : string) :
  forall b, rstrip (title_from b s) = title_from b (rstrip s).
Proof.
  induction s as [| c s IH]; intros b; cbn; [reflexivity |].
  destruct (isalpha c) eqn:Hc; cbn.
  - destruct (case_of_letter c Hc) as (_ & _ & _ & _ & Hsu & Hsl).
    rewrite (letter_not_space c Hc).
    destruct b; [rewrite Hsl | rewrite Hsu]; cbn; rewrite Hc, IH; reflexivity.
  - rewrite IH, title_from_is_empty.
    destruct (isspace c && is_empty (rstrip s)); cbn; [reflexivity |].
    rewrite Hc. reflexivity.
Qed.

Lemma title_from_no_lead (b : bool) (s : string) :
  no_lead s = true -> no_lead (title_from b s) = true.
Proof.
  destruct s as [| c s]; cbn; [reflexivity |].
  destruct (isalpha c) eqn:Hc; cbn; [| tauto].
  destruct (case_of_letter c Hc) as (_ & _ & _ & _ & Hsu & Hsl).
  intros _. destruct b; [rewrite Hsl | rewrite Hsu]; reflexivity.
Qed.

(** Title-casing a trimmed string leaves it trimmed. *)
Lemma strip_title_strip (s : string) :
  strip (title (strip s)) = title (strip s).
Proof.
  unfold strip at 1. unfold title.
  rewrite no_lead_lstrip.
  - rewrite rstrip_title_from. f_equal.
    unfold strip. apply rstrip_idempotent.
  - apply title_from_no_lead. unfold strip.
    apply rstrip_no_lead, lstrip_no_lead.
Qed.

(** [.str.strip().str.title()] applied twice. *)
Lemma title_strip_idempotent (s : string) :
  title (strip (title (strip s))) = title (strip s).
Proof. rewrite strip_title_strip. apply title_idempotent. Qed.

Lemma drop_runs_starts_blank (b : bool) (s : string) :
  starts_blank s = false -> starts_blank (drop_runs b s) = false.
Proof.
  destruct s as [| c s]; cbn; [reflexivity |].
  intros Hc. rewrite Hc. cbn. exact Hc.
Qed.

Lemma drop_runs_no_adjacent (s : string) :
  forall b, no_adjacent_blanks (drop_runs b s) = true.
Proof.
  induction s as [| c s IH]; intros b; cbn; [reflexivity |].
  destruct (is_blank c) eqn:Hc.
  - destruct (b || starts_blank s) eqn:E; [apply IH |].
    apply orb_false_elim in E as [_ Hs].
    cbn. rewrite Hc, (drop_runs_starts_blank false s Hs), IH. reflexivity.
  - cbn. rewrite Hc, IH. reflexivity.
Qed.

Lemma drop_runs_fixed (s : string) :
  no_adjacent_blanks s = true -> drop_runs false s = s.
Proof.
  induction s as [| c s IH]; cbn; [reflexivity |].
  intros H. apply andb_prop in H as [H1 H2].
  destruct (is_blank c); cbn in *.
  - apply negb_true_iff in H1. rewrite H1, (IH H2). reflexivity.
  - rewrite (IH H2). reflexivity.
Qed.

Lemma replace_space_runs_idempotent (s : string) :
  replace_space_runs (replace_space_runs s) = replace_space_runs s.
Proof.
  unfold replace_space_runs. apply drop_runs_fixed, drop_runs_no_adjacent.
Qed.

End StrFacts.

(** ** Finite floats against the 64-bit bounds *)

Section FloatFacts.
Import BigintValidator.
Local Open Scope Z_scope.

Lemma finite64_bounds (x : finite64) :
  Z.abs (mant x) < 2 ^ 53 /\ -1074 <= expo x <= 971.
Proof.
  pose proof (finite64_ok x) as H.
  apply andb_prop in H as [H H3].
  apply andb_prop in H as [H1 H2].
  apply Z.ltb_lt in H1. apply Z.leb_le in H2. apply Z.leb_le in H3.
  lia.
Qed.

Lemma pow2_ge_1 (k : Z) : 0 <= k -> 1 <= 2 ^ k.
Proof.
  intros Hk. pose proof (Z.pow_pos_nonneg 2 k). lia.
Qed.

(** A float with a non-negative exponent is an integer. *)
Lemma fin_cmp_trunc_nonneg (x : finite64) :
  0 <= expo x -> fin_cmp_Z x (fin_trunc x) = Eq.
Proof.
  intros He. unfold fin_cmp_Z, fin_trunc.
  apply Z.leb_le in He. rewrite He. apply Z.compare_refl.
Qed.

(** A float that differs from its truncation lies strictly inside the
    signed 64-bit range: its exponent is negative, so its magnitude is
    below that of its 53-bit significand. *)
Lemma fractional_in_range (x : finite64) :
  is_Eq (fin_cmp_Z x (fin_trunc x)) = false ->
  fin_cmp_Z x BIGINT_MIN = Gt /\ fin_cmp_Z x BIGINT_MAX = Lt.
Proof.
  intros Hfrac.
  destruct (Z.leb_spec 0 (expo x)) as [He | He].
  - rewrite (fin_cmp_trunc_nonneg x He) in Hfrac. discriminate.
  - pose proof (finite64_bounds x) as [Hm _].
    unfold fin_cmp_Z.
    destruct (Z.leb_spec 0 (expo x)) as [He' | _]; [lia |].
    assert (Hp : 1 <= 2 ^ (- expo x)) by (apply pow2_ge_1; lia).
    assert (H53 : 2 ^ 53 = 9007199254740992) by reflexivity.
    unfold BIGINT_MIN, BIGINT_MAX.
    split.
    + apply Z.compare_gt_iff. nia.
    + apply Z.compare_lt_iff. nia.
Qed.



End FloatFacts.

(** ** [BigintValidator]: one violation per cell, the 64-bit boundary *)

Module ValidatorFacts.
Import BigintValidator Spec.
Local Open Scope string_scope.

Section WithParsers.
Context {P : Parsers}.

(** The three ways the loop body leaves [self.violations]. *)
Lemma validate_value_emits col column idx value self :
  let self' := fst (validate_value col column idx value self) in
  csv_path self' = csv_path self
  /\ numeric_columns self' = numeric_columns self
  /\ (violations self' = violations self
      \/ exists val e,
          violations self' =
            (violations self
             ++ [ {| row := idx + 2; column := col; value := val; error := e |} ])%list
          /\ justified value (nth idx column CNull) e).
Proof.
  unfold validate_value.
  destruct value as [v |]; cbn.
  - unfold mbind, append, ret, lift.
    destruct (py_lt_Z v BIGINT_MIN) eqn:Hlt; cbn.
    + destruct v as [n | [neg | x]]; cbn.
      * repeat split; right; do 2 eexists; split; [reflexivity |].
        cbn. eexists; split; [reflexivity | exact Hlt].
      * repeat split; right; do 2 eexists; split; [reflexivity |].
        cbn. eexists; split; [reflexivity | exact Hlt].
      * destruct (is_Eq (fin_cmp_Z x (fin_trunc x))) eqn:Hfrac; cbn.
        -- repeat split; right; do 2 eexists; split; [reflexivity |].
           cbn. eexists; split; [reflexivity | exact Hlt].
        -- apply fractional_in_range in Hfrac as [Hmin _].
           cbn in Hlt. rewrite Hmin in Hlt. discriminate.
    + destruct (py_gt_Z v BIGINT_MAX) eqn:Hgt; cbn.
      * destruct v as [n | [neg | x]]; cbn.
        -- repeat split; right; do 2 eexists; split; [reflexivity |].
           cbn. eexists; split; [reflexivity | exact Hgt].
        -- repeat split; right; do 2 eexists; split; [reflexivity |].
           cbn. eexists; split; [reflexivity | exact Hgt].
        -- destruct (is_Eq (fin_cmp_Z x (fin_trunc x))) eqn:Hfrac; cbn.
           ++ repeat split; right; do 2 eexists; split; [reflexivity |].
              cbn. eexists; split; [reflexivity | exact Hgt].
           ++ apply fractional_in_range in Hfrac as [_ Hmax].
              cbn in Hgt. rewrite Hmax in Hgt. discriminate.
      * destruct v as [n | [neg | x]]; cbn.
        -- repeat split; left; reflexivity.
        -- repeat split; left; reflexivity.
        -- destruct (is_Eq (fin_cmp_Z x (fin_trunc x))) eqn:Hfrac; cbn.
           ++ repeat split; left; reflexivity.
           ++ repeat split; right; do 2 eexists; split; [reflexivity |].
              cbn. eexists; split; [reflexivity |].
              unfold float_ne_int. cbn. rewrite Hfrac. reflexivity.
  - destruct (notna (nth idx column CNull) && str_strip_truthy (nth idx column CNull))
      eqn:Hc; cbn.
    + repeat split; right; do 2 eexists; split; [reflexivity |].
      cbn. split; [reflexivity |].
      apply andb_prop in Hc as [Hn _].
      intros E. rewrite E in Hn. discriminate.
    + repeat split; left; reflexivity.
Qed.

Lemma filter_row_none (k : nat) (l : list Violation) :
  (forall v, In v l -> row v <> k) ->
  filter (fun v => Nat.eqb (row v) k) l = [].
Proof.
  induction l as [| v l IH]; intros H; [reflexivity |].
  cbn. destruct (Nat.eqb_spec (row v) k) as [E | _].
  - exfalso. apply (H v); [left; reflexivity | exact E].
  - apply IH. intros w Hw. apply H. right. exact Hw.
Qed.

Lemma for_each_cons {A : Type} (x : A) (xs : list A) (body : A -> M unit)
      (self : validator) :
  for_each (x :: xs) body self =
  match body x self with
  | (self', Ok _) => for_each xs body self'
  | (self', Raise e) => (self', Raise e)
  end.
Proof. reflexivity. Qed.

(** The loop of [_validate_column] from row [length prefix] onwards. *)
Lemma validate_suffix_emits col cells :
  forall suffix prefix self,
    cells = (prefix ++ suffix)%list ->
    let self' :=
      fst (for_each (enumerate_from (List.length prefix)
                                    (map to_numeric suffix))
                    (fun '(idx, value) => validate_value col cells idx value)
                    self) in
    csv_path self' = csv_path self
    /\ numeric_columns self' = numeric_columns self
    /\ exists new,
        violations self' = (violations self ++ new)%list
        /\ (forall v, In v new ->
                      column v = col
                      /\ exists idx,
                          row v = idx + 2
                          /\ List.length prefix <= idx < List.length cells
                          /\ justified (to_numeric (nth idx cells CNull))
                                       (nth idx cells CNull) (error v))
        /\ (forall k,
               List.length (filter (fun v => Nat.eqb (row v) k) new) <= 1).
Proof.
  induction suffix as [| c rest IH]; intros prefix self Hcells.
  - cbn. split; [reflexivity |]. split; [reflexivity |].
    exists []. rewrite app_nil_r. split; [reflexivity |].
    split; [intros v [] | intros k; cbn; lia].
  - assert (Hnth : nth (List.length prefix) cells CNull = c).
    { rewrite Hcells, app_nth2, Nat.sub_diag by lia. reflexivity. }
    assert (Hlen : List.length prefix < List.length cells).
    { rewrite Hcells, length_app. cbn. lia. }
    pose proof (validate_value_emits col cells (List.length prefix)
                  (to_numeric c) self) as Hbody.
    cbn in Hbody. destruct Hbody as (Hp & Hn & Hbody).
    assert (Hcells' : cells = ((prefix ++ [c]) ++ rest)%list).
    { rewrite <- app_assoc. exact Hcells. }
    cbn [map enumerate_from]. rewrite for_each_cons.
    destruct (validate_value col cells (List.length prefix) (to_numeric c) self)
      as [self1 [[] | e]] eqn:Hrun; cbn [fst] in *.
    + specialize (IH (prefix ++ [c])%list self1 Hcells').
      replace (List.length (prefix ++ [c])) with (S (List.length prefix)) in IH
        by (rewrite length_app; cbn; lia).
      cbn in IH. destruct IH as (Hp' & Hn' & new & Hv & Hin & Hcount).
      split; [congruence |]. split; [congruence |].
      destruct Hbody as [Hsame | (val & e & Hone & Hj)].
      * exists new. split; [congruence |]. split; [| exact Hcount].
        intros v Hv'. destruct (Hin v Hv') as (Hc & idx & Hr & Hrange & Hjust).
        split; [exact Hc |]. exists idx. repeat split; try assumption; lia.
      * exists ({| row := List.length prefix + 2; column := col;
                   value := val; error := e |} :: new).
        split; [rewrite Hv, Hone, <- app_assoc; reflexivity |]. split.
        -- intros v [Hv' | Hv'].
           ++ subst v. cbn. split; [reflexivity |].
              exists (List.length prefix). rewrite Hnth in *.
              repeat split; try assumption; lia.
           ++ destruct (Hin v Hv') as (Hc & idx & Hr & Hrange & Hjust).
              split; [exact Hc |]. exists idx.
              repeat split; try assumption; lia.
        -- intros k. cbn.
           destruct (Nat.eqb_spec (List.length prefix + 2) k) as [Hk | Hk].
           ++ rewrite filter_row_none; [cbn; lia |].
              intros v Hv'. destruct (Hin v Hv') as (_ & idx & Hr & Hrange & _).
              lia.
           ++ apply Hcount.
    + split; [exact Hp |]. split; [exact Hn |].
      destruct Hbody as [Hsame | (val & e' & Hone & Hj)].
      * exists []. rewrite app_nil_r. split; [exact Hsame |].
        split; [intros v [] | intros k; cbn; lia].
      * eexists. split; [exact Hone |]. split.
        -- intros v [Hv' | []]. subst v. cbn. split; [reflexivity |].
           exists (List.length prefix). rewrite Hnth in *.
           repeat split; try assumption; lia.
        -- intros k. cbn. destruct (Nat.eqb _ k); cbn; lia.
Qed.



(** Scenario F on a two-row column of an unsigned 64-bit frame. *)
Example scenario_F :
  violations
    (fst (_validate_column
            [("id", [CInt 9223372036854775807; CInt 9223372036854775808])]
            "id" (init "events_cleaned.csv" (Some ["id"]))))
  = [ {| row := 3; column := "id";
         value := Numeric (PyInt 9223372036854775808);
         error := OVERFLOW |} ].
Proof. reflexivity. Qed.

(** [validate] on a missing and on an unreadable file. *)
Lemma validate_missing (self : validator) :
  validate Missing self = (self, Raise FileNotFoundError).
Proof. reflexivity. Qed.

Lemma validate_unreadable (self : validator) :
  validate Unreadable self = (self, Raise ValueError).
Proof. reflexivity. Qed.

(** When [validate] returns, the flag says whether the list is empty, and
    the list is [self.violations]. *)
Lemma validate_returns (f : file) (self self' : validator) (ok : bool)
      (vs : list Violation) :
  validate f self = (self', Ok (ok, vs)) ->
  vs = violations self' /\ (ok = true <-> vs = []).
Proof.
  destruct f as [| | df]; cbn; try discriminate.
  unfold mbind, get, ret. intros H.
  repeat match type of H with
         | (let (_, _) := ?c in _) = _ =>
             destruct c as [? [[] | ?]]; try discriminate H
         end.
  injection H as <- <- <-. split; [reflexivity |].
  destruct (violations _); cbn; split; intros; congruence.
Qed.

End WithParsers.

(** C10. A column with an infinite cell: [validate] neither returns nor
    raises [FileNotFoundError] or [ValueError]; [int(value)] raises
    [OverflowError] out of the loop of [_validate_column], after the
    OVERFLOW violation of that cell has been appended. *)
Theorem validate_raises_on_infinity :
  let df := [("sequence_number",
              [CFloat (Demo.f64 1 0 eq_refl); CFloat (FInf false)])] in
  let self := init "data/processed/events_cleaned.csv"
                   (Some ["sequence_number"]) in
  snd (validate (P := Demo.parsers) (Csv df) self) = Raise OverflowError
  /\ violations (fst (validate (P := Demo.parsers) (Csv df) self))
     = [ {| row := 3; column := "sequence_number";
            value := Numeric (PyFloat (FInf false));
            error := OVERFLOW |} ].
Proof. split; reflexivity. Qed.

End ValidatorFacts.

(** ** Lists, the error monad and [drop_duplicates] *)

Module ListFacts.
Import Pandas.

Lemma bind_Ok_inv {A B : Type} (c : result A) (k : A -> result B) (b : B) :
  bind c k = Ok b -> exists a, c = Ok a /\ k a = Ok b.
Proof.
  destruct c as [a | e]; cbn; [| discriminate].
  intros H. exists a. split; [reflexivity | exact H].
Qed.

Lemma mapM_Forall2 {A B : Type} (f : A -> result B) (l : list A) :
  forall l', mapM f l = Ok l' -> Forall2 (fun x y => f x = Ok y) l l'.
Proof.
  induction l as [| x xs IH]; cbn; intros l' H.
  - injection H as <-. constructor.
  - apply bind_Ok_inv in H as (y & Hy & H).
    apply bind_Ok_inv in H as (ys & Hys & H).
    injection H as <-. constructor; [exact Hy | apply IH; exact Hys].
Qed.

Lemma Forall2_mapM {A B : Type} (f : A -> result B) (l : list A) (l' : list B) :
  Forall2 (fun x y => f x = Ok y) l l' -> mapM f l = Ok l'.
Proof.
  induction 1 as [| x y xs ys Hxy _ IH]; cbn; [reflexivity |].
  rewrite Hxy. cbn. rewrite IH. reflexivity.
Qed.

Lemma mapM_length {A B : Type} (f : A -> result B) (l : list A) (l' : list B) :
  mapM f l = Ok l' -> List.length l' = List.length l.
Proof.
  intros H. apply mapM_Forall2 in H.
  induction H; cbn; congruence.
Qed.

(** Columns of the result of a row-wise [mapM]. *)
Lemma Forall2_map_eq {A B C : Type} (R : A -> B -> Prop)
      (g : A -> C) (h : B -> C) (l : list A) (l' : list B) :
  Forall2 R l l' -> (forall x y, In x l -> R x y -> h y = g x) ->
  map h l' = map g l.
Proof.
  induction 1 as [| x y xs ys Hxy _ IH]; intros Hgh; cbn; [reflexivity |].
  f_equal.
  - apply Hgh; [left; reflexivity | exact Hxy].
  - apply IH. intros a b Ha. apply Hgh. right. exact Ha.
Qed.

Lemma Forall2_In_r {A B : Type} (R : A -> B -> Prop) (l : list A) (l' : list B) :
  Forall2 R l l' -> forall y, In y l' -> exists x, In x l /\ R x y.
Proof.
  induction 1 as [| x y xs ys Hxy _ IH]; intros b Hb; [destruct Hb |].
  destruct Hb as [-> | Hb].
  - exists x. split; [left; reflexivity | exact Hxy].
  - destruct (IH b Hb) as (a & Ha & Hab). exists a. split; [right |]; assumption.
Qed.

Lemma Forall2_In_l {A B : Type} (R : A -> B -> Prop) (l : list A) (l' : list B) :
  Forall2 R l l' -> forall x, In x l -> exists y, In y l' /\ R x y.
Proof.
  induction 1 as [| x y xs ys Hxy _ IH]; intros a Ha; [destruct Ha |].
  destruct Ha as [-> | Ha].
  - exists y. split; [left; reflexivity | exact Hxy].
  - destruct (IH a Ha) as (b & Hb & Hab). exists b. split; [right |]; assumption.
Qed.

(** *** Equality tests *)

Lemma idcell_eqb_eq (a b : idcell) : idcell_eqb a b = true <-> a = b.
Proof.
  destruct a as [| x | s], b as [| y | t]; cbn;
    try (split; [discriminate | discriminate]);
    try (split; reflexivity).
  - rewrite Z.eqb_eq. split; congruence.
  - rewrite String.eqb_eq. split; congruence.
Qed.

Lemma text_eqb_eq (a b : text) : text_eqb a b = true <-> a = b.
Proof.
  destruct a as [s |], b as [t |]; cbn;
    try (split; [discriminate | discriminate]);
    try (split; reflexivity).
  rewrite String.eqb_eq. split; congruence.
Qed.

Lemma isin_In (c : idcell) (values : list idcell) :
  isin c values = true <-> In c values.
Proof.
  unfold isin. rewrite existsb_exists. split.
  - intros (x & Hx & E). apply idcell_eqb_eq in E. subst x. exact Hx.
  - intros H. exists c. split; [exact H | apply idcell_eqb_eq; reflexivity].
Qed.

(** *** [drop_duplicates] *)

Section DropDuplicates.
Context {R K : Type} (eqb : K -> K -> bool) (key : R -> K).
Hypothesis eqb_eq : forall a b, eqb a b = true <-> a = b.

Lemma seen_In (k : K) (seen : list K) :
  existsb (eqb k) seen = true <-> In k seen.
Proof.
  rewrite existsb_exists. split.
  - intros (x & Hx & E). apply eqb_eq in E. subst x. exact Hx.
  - intros H. exists k. split; [exact H | apply eqb_eq; reflexivity].
Qed.

Lemma drop_duplicates_from_length (seen : list K) (df : list R) :
  List.length (drop_duplicates_from eqb key seen df) <= List.length df.
Proof.
  revert seen. induction df as [| r rest IH]; intros seen; cbn; [lia |].
  destruct (existsb (eqb (key r)) seen); cbn.
  - specialize (IH seen). lia.
  - specialize (IH (key r :: seen)). lia.
Qed.

Lemma drop_duplicates_from_In (seen : list K) (df : list R) (r : R) :
  In r (drop_duplicates_from eqb key seen df) ->
  In r df /\ ~ In (key r) seen.
Proof.
  revert seen. induction df as [| x rest IH]; intros seen; cbn; [tauto |].
  destruct (existsb (eqb (key x)) seen) eqn:E.
  - intros H. destruct (IH _ H). tauto.
  - intros [-> | H].
    + split; [left; reflexivity |]. intros Hin.
      apply seen_In in Hin. congruence.
    + destruct (IH _ H) as [Hr Hk]. split; [right; exact Hr |].
      intros Hin. apply Hk. right. exact Hin.
Qed.

Lemma drop_duplicates_from_NoDup (seen : list K) (df : list R) :
  NoDup (map key (drop_duplicates_from eqb key seen df)).
Proof.
  revert seen. induction df as [| x rest IH]; intros seen; cbn; [constructor |].
  destruct (existsb (eqb (key x)) seen) eqn:E; [apply IH |].
  cbn. constructor; [| apply IH].
  intros Hin. apply in_map_iff in Hin as (r & Hk & Hr).
  apply drop_duplicates_from_In in Hr as [_ Hr].
  apply Hr. left. symmetry. exact Hk.
Qed.

(** A frame whose keys are already distinct is left as it is. *)
Lemma drop_duplicates_from_id (seen : list K) (df : list R) :
  NoDup (map key df) -> (forall r, In r df -> ~ In (key r) seen) ->
  drop_duplicates_from eqb key seen df = df.
Proof.
  revert seen. induction df as [| x rest IH]; intros seen Hnd Hseen; cbn;
    [reflexivity |].
  inversion Hnd as [| ? ? Hx Hrest]; subst.
  destruct (existsb (eqb (key x)) seen) eqn:E.
  - apply seen_In in E. exfalso. apply (Hseen x); [left; reflexivity | exact E].
  - f_equal. apply IH; [exact Hrest |].
    intros r Hr [Hk | Hk].
    + apply Hx. rewrite Hk. apply in_map. exact Hr.
    + apply (Hseen r); [right; exact Hr | exact Hk].
Qed.

(** The first row of a key survives. *)
Lemma drop_duplicates_from_first (seen : list K) (before after : list R) (r : R) :
  ~ In (key r) seen -> ~ In (key r) (map key before) ->
  In r (drop_duplicates_from eqb key seen (before ++ r :: after)).
Proof.
  revert seen. induction before as [| x rest IH]; intros seen Hseen Hbefore; cbn.
  - destruct (existsb (eqb (key r)) seen) eqn:E.
    + apply seen_In in E. contradiction.
    + left. reflexivity.
  - cbn in Hbefore.
    destruct (existsb (eqb (key x)) seen) eqn:E.
    + apply IH; tauto.
    + right. apply IH; [| tauto].
      intros [Hk | Hk]; [apply Hbefore; left; exact Hk | contradiction].
Qed.

(** Every key of the frame is still there. *)
Lemma drop_duplicates_from_keys (seen : list K) (df : list R) (k : K) :
  In k (map key df) ->
  In k seen \/ In k (map key (drop_duplicates_from eqb key seen df)).
Proof.
  revert seen. induction df as [| x rest IH]; intros seen; cbn; [tauto |].
  intros [Hk | Hk].
  - destruct (existsb (eqb (key x)) seen) eqn:E.
    + left. apply seen_In in E. rewrite <- Hk. exact E.
    + right. left. exact Hk.
  - destruct (existsb (eqb (key x)) seen) eqn:E.
    + apply IH. exact Hk.
    + destruct (IH (key x :: seen) Hk) as [[Hx | Hs] | Hr].
      * right. left. exact Hx.
      * left. exact Hs.
      * right. right. exact Hr.
Qed.

Lemma drop_duplicates_length (df : list R) :
  List.length (drop_duplicates eqb key df) <= List.length df.
Proof. apply drop_duplicates_from_length. Qed.

Lemma drop_duplicates_In (df : list R) (r : R) :
  In r (drop_duplicates eqb key df) -> In r df.
Proof. intros H. apply drop_duplicates_from_In in H. tauto. Qed.

Lemma drop_duplicates_NoDup (df : list R) :
  NoDup (map key (drop_duplicates eqb key df)).
Proof. apply drop_duplicates_from_NoDup. Qed.

Lemma drop_duplicates_id (df : list R) :
  NoDup (map key df) -> drop_duplicates eqb key df = df.
Proof. intros H. apply drop_duplicates_from_id; [exact H | intros r _ []]. Qed.

End DropDuplicates.

(** *** Columns under [filter] and [map] *)

Lemma NoDup_map_filter {A B : Type} (k : A -> B) (f : A -> bool) (l : list A) :
  NoDup (map k l) -> NoDup (map k (filter f l)).
Proof.
  induction l as [| x xs IH]; cbn; intros H; [constructor |].
  inversion H as [| ? ? Hx Hxs]; subst.
  destruct (f x); cbn; [| apply IH; exact Hxs].
  constructor; [| apply IH; exact Hxs].
  intros Hin. apply Hx. apply in_map_iff in Hin as (y & Hk & Hy).
  apply filter_In in Hy as [Hy _]. rewrite <- Hk. apply in_map. exact Hy.
Qed.

Lemma map_map_key {A B : Type} (k : A -> B) (g : A -> A) (l : list A) :
  (forall x, k (g x) = k x) -> map k (map g l) = map k l.
Proof.
  intros H. rewrite map_map. apply map_ext. exact H.
Qed.

Lemma filter_filter {A : Type} (f g : A -> bool) (l : list A) :
  filter f (filter g l) = filter (fun x => g x && f x) l.
Proof.
  induction l as [| x xs IH]; cbn; [reflexivity |].
  destruct (g x); cbn; [destruct (f x) |]; rewrite IH; reflexivity.
Qed.

Lemma unique_In (c : idcell) (s : list idcell) :
  In c (unique s) <-> In c s.
Proof.
  unfold unique, drop_duplicates. split.
  - intros H.
    apply (@drop_duplicates_from_In _ _ idcell_eqb (fun c => c)
             idcell_eqb_eq [] s c) in H.
    tauto.
  - intros H.
    destruct (@drop_duplicates_from_keys _ _ idcell_eqb (fun c => c)
                idcell_eqb_eq [] s c)
      as [[] | Hr].
    + rewrite map_id. exact H.
    + rewrite map_id in Hr. exact Hr.
Qed.

Lemma dropna_In (c : idcell) (s : list idcell) :
  In c (dropna s) <-> In c s /\ c <> INull.
Proof.
  unfold dropna. rewrite filter_In. destruct c; cbn; split; intros [H1 H2];
    split; try assumption; try discriminate; try reflexivity.
  contradiction.
Qed.

(** Two row-wise passes, the first over a mapped frame. *)
Lemma Forall2_two_steps {A B C D : Type} (g : A -> B)
      (f1 : B -> result C) (f2 : C -> result D) (R : A -> D -> Prop)
      (l : list A) (l1 : list C) (l2 : list D) :
  Forall2 (fun x y => f1 x = Ok y) (map g l) l1 ->
  Forall2 (fun x y => f2 x = Ok y) l1 l2 ->
  (forall r m r', f1 (g r) = Ok m -> f2 m = Ok r' -> R r r') ->
  Forall2 R l l2.
Proof.
  intros H1 H2 HR. revert l1 l2 H1 H2.
  induction l as [| r l IH]; cbn; intros l1 l2 H1 H2.
  - inversion H1; subst. inversion H2; subst. constructor.
  - inversion H1 as [| ? m ? ms Hm Hms]; subst.
    inversion H2 as [| ? r' ? rs Hr' Hrs]; subst.
    constructor; [apply (HR r m r'); assumption | apply (IH ms rs); assumption].
Qed.

End ListFacts.

(** ** The cleaning functions *)

Module CleaningFacts.
Import Pandas DataCleaning Pipeline Tables Spec ListFacts.
Local Open Scope string_scope.

(** Peel the binds of a cleaning function that returned. *)
Ltac invert_binds H :=
  repeat match type of H with
         | bind _ _ = Ok _ =>
             let x := fresh "df" in
             let Hx := fresh "Hstep" in
             apply bind_Ok_inv in H as (x & Hx & H)
         end;
  match type of H with
  | Ok _ = Ok _ => injection H as H
  | _ => idtac
  end.

(** Bound the length of a frame by that of the frame it was cut from. *)
Ltac length_chain :=
  repeat first
    [ rewrite length_map
    | match goal with
      | Hm : mapM _ _ = Ok ?l |- List.length ?l <= _ =>
          rewrite (mapM_length _ _ Hm)
      | |- List.length (filter _ _) <= _ =>
          etransitivity; [apply filter_length_le |]
      | |- List.length (drop_duplicates _ _ _) <= _ =>
          apply drop_duplicates_length
      end ].

Lemma removed_percent_Ok (original_rows clean_rows : nat) :
  removed_percent original_rows clean_rows = Ok tt <-> original_rows <> 0.
Proof.
  unfold removed_percent. destruct (Nat.eqb_spec original_rows 0); split;
    congruence.
Qed.

Lemma removed_percent_inv (original_rows clean_rows : nat) (u : unit) :
  removed_percent original_rows clean_rows = Ok u -> original_rows <> 0.
Proof. destruct u. apply removed_percent_Ok. Qed.

(** *** The deduplicated column through the later steps *)

Section Keys.
Context {R K : Type} (key : R -> K) (Q : K -> Prop).

Lemma keys_ok_filter (f : R -> bool) (df : list R) :
  keys_ok key Q df -> keys_ok key Q (filter f df).
Proof.
  intros [Hnd Hq]. split; [apply NoDup_map_filter; exact Hnd |].
  rewrite Forall_forall in *. intros k Hk.
  apply in_map_iff in Hk as (r & <- & Hr). apply filter_In in Hr as [Hr _].
  apply Hq. apply in_map. exact Hr.
Qed.

Lemma keys_ok_map (g : R -> R) (df : list R) :
  (forall r, key (g r) = key r) ->
  keys_ok key Q df -> keys_ok key Q (map g df).
Proof.
  intros Hg [Hnd Hq]. unfold keys_ok. rewrite (map_map_key key g df Hg).
  split; assumption.
Qed.

Lemma keys_ok_mapM (f : R -> result R) (df df' : list R) :
  mapM f df = Ok df' ->
  (forall x y, Q (key x) -> f x = Ok y -> key y = key x) ->
  keys_ok key Q df -> keys_ok key Q df'.
Proof.
  intros Hm Hf [Hnd Hq]. apply mapM_Forall2 in Hm.
  assert (E : map key df' = map key df).
  { apply (Forall2_map_eq (R := fun x y => f x = Ok y)); [exact Hm |].
    intros x y Hx Hxy. apply Hf; [| exact Hxy].
    rewrite Forall_forall in Hq. apply Hq. apply in_map. exact Hx. }
  unfold keys_ok. rewrite E. split; assumption.
Qed.

Lemma keys_ok_drop_duplicates (eqb : K -> K -> bool) (df : list R) :
  (forall a b, eqb a b = true <-> a = b) ->
  Forall Q (map key df) ->
  keys_ok key Q (drop_duplicates eqb key df).
Proof.
  intros Heq Hq. split; [apply drop_duplicates_NoDup; exact Heq |].
  rewrite Forall_forall in *. intros k Hk.
  apply in_map_iff in Hk as (r & <- & Hr).
  apply (drop_duplicates_In _ _ Heq) in Hr. apply Hq. apply in_map. exact Hr.
Qed.

End Keys.

(** A normalisation step leaves the deduplicated column as it is: a
    numeric cell is its own [Int64] value, and the other columns are not
    touched. *)
Ltac same_key :=
  let x := fresh "x" in
  let y := fresh "y" in
  let Hq := fresh "Hq" in
  let Hf := fresh "Hf" in
  let i := fresh "i" in
  let Hi := fresh "Hi" in
  intros x y Hq Hf; cbv beta in Hf;
  apply bind_Ok_inv in Hf as (i & Hi & Hf);
  injection Hf as <-; cbn;
  first
    [ reflexivity
    | match type of Hi with
      | to_Int64 ?c = Ok _ =>
          destruct c; cbn in Hi, Hq;
          first [discriminate Hq | injection Hi as <-; reflexivity]
      end ].

Ltac keys_chain Hnum eqb_eq :=
  repeat first
    [ match goal with
      | Hm : mapM _ ?l = Ok ?l' |- keys_ok _ _ ?l' =>
          eapply keys_ok_mapM; [exact Hm | same_key |]; clear Hm
      end
    | apply keys_ok_filter
    | apply keys_ok_map; [intros; reflexivity |]
    | apply keys_ok_drop_duplicates; [exact eqb_eq | exact Hnum] ].

Section WithParsers.
Context {P : Parsers}.

Lemma clean_users_length df out :
  clean_users df = Ok out -> List.length out <= List.length df.
Proof.
  unfold clean_users. intros H. invert_binds H. subst out.
  length_chain.
Qed.

Lemma clean_products_length df out :
  clean_products df = Ok out -> List.length out <= List.length df.
Proof.
  unfold clean_products. intros H. invert_binds H. subst out.
  length_chain.
Qed.

Lemma clean_orders_length df out :
  clean_orders df = Ok out -> List.length out <= List.length df.
Proof.
  unfold clean_orders. intros H. invert_binds H. subst out.
  length_chain.
Qed.

Lemma clean_order_items_length df out :
  clean_order_items df = Ok out -> List.length out <= List.length df.
Proof.
  unfold clean_order_items. intros H. invert_binds H. subst out.
  length_chain.
Qed.

Lemma clean_inventory_items_length df out :
  clean_inventory_items df = Ok out -> List.length out <= List.length df.
Proof.
  unfold clean_inventory_items. intros H. invert_binds H. subst out.
  length_chain.
Qed.

Lemma clean_events_length df out :
  clean_events df = Ok out -> List.length out <= List.length df.
Proof.
  unfold clean_events. intros H. invert_binds H. subst out.
  length_chain.
Qed.

Lemma clean_distribution_centers_length df out :
  clean_distribution_centers df = Ok out -> List.length out <= List.length df.
Proof.
  unfold clean_distribution_centers. intros H. invert_binds H. subst out.
  length_chain.
Qed.

(** Cleaning never adds a row. *)
Lemma files_to_clean_length (t : table_name) (df out : list (row_of t)) :
  files_to_clean t df = Ok out -> List.length out <= List.length df.
Proof.
  destruct t; cbn.
  - apply clean_users_length.
  - apply clean_products_length.
  - apply clean_orders_length.
  - apply clean_order_items_length.
  - apply clean_inventory_items_length.
  - apply clean_events_length.
  - apply clean_distribution_centers_length.
Qed.

(** *** The deduplicated column of each cleaned frame *)

Lemma clean_users_email_unique df out :
  clean_users df = Ok out -> NoDup (map Users.email out).
Proof.
  unfold clean_users. intros H. invert_binds H. subst out.
  assert (Hq : Forall (fun _ : text => True) (map Users.email df))
    by (apply Forall_forall; trivial).
  enough (Hk : keys_ok Users.email (fun _ => True) df0) by apply Hk.
  keys_chain Hq text_eqb_eq.
Qed.

Lemma clean_products_id_unique df out :
  clean_products df = Ok out -> keys_numeric products df ->
  NoDup (map Products.id out).
Proof.
  unfold clean_products, keys_numeric. cbn. intros H Hq.
  invert_binds H. subst out.
  enough (Hk : keys_ok Products.id (fun c => is_numeric c = true) df0)
    by apply Hk.
  keys_chain Hq idcell_eqb_eq.
Qed.

Lemma clean_orders_id_unique df out :
  clean_orders df = Ok out -> keys_numeric orders df ->
  NoDup (map Orders.order_id out).
Proof.
  unfold clean_orders, keys_numeric. cbn. intros H Hq.
  invert_binds H. subst out.
  enough (Hk : keys_ok Orders.order_id (fun c => is_numeric c = true) df1)
    by apply Hk.
  keys_chain Hq idcell_eqb_eq.
Qed.

Lemma clean_order_items_id_unique df out :
  clean_order_items df = Ok out -> keys_numeric order_items df ->
  NoDup (map OrderItems.id out).
Proof.
  unfold clean_order_items, keys_numeric. cbn. intros H Hq.
  invert_binds H. subst out.
  enough (Hk : keys_ok OrderItems.id (fun c => is_numeric c = true) df2)
    by apply Hk.
  keys_chain Hq idcell_eqb_eq.
Qed.

Lemma clean_inventory_items_id_unique df out :
  clean_inventory_items df = Ok out -> keys_numeric inventory_items df ->
  NoDup (map InventoryItems.id out).
Proof.
  unfold clean_inventory_items, keys_numeric. cbn. intros H Hq.
  invert_binds H. subst out.
  enough (Hk : keys_ok InventoryItems.id (fun c => is_numeric c = true) df1)
    by apply Hk.
  keys_chain Hq idcell_eqb_eq.
Qed.

Lemma clean_events_id_unique df out :
  clean_events df = Ok out -> keys_numeric events df ->
  NoDup (map Events.id out).
Proof.
  unfold clean_events, keys_numeric. cbn. intros H Hq.
  invert_binds H. subst out.
  match goal with
  | |- NoDup (map Events.id ?l) =>
      enough (Hk : keys_ok Events.id (fun c => is_numeric c = true) l)
        by apply Hk
  end.
  keys_chain Hq idcell_eqb_eq.
Qed.

Lemma clean_distribution_centers_id_unique df out :
  clean_distribution_centers df = Ok out ->
  keys_numeric distribution_centers df ->
  NoDup (map DistributionCenters.id out).
Proof.
  unfold clean_distribution_centers, keys_numeric. cbn. intros H Hq.
  invert_binds H. subst out.
  enough (Hk : keys_ok DistributionCenters.id
                       (fun c => is_numeric c = true) df0)
    by apply Hk.
  keys_chain Hq idcell_eqb_eq.
Qed.

(** C1, as amended.  The column a cleaning function deduplicates on has no
    duplicate in its output, nor in any selection of rows of its output
    (which is what a referential-integrity block leaves): for users that
    column is email; for each other table it is the primary key, provided
    no primary-key cell of the raw frame is text. *)
Theorem dedup_column_has_no_duplicates (t : table_name)
        (df out : list (row_of t)) (mask : row_of t -> bool) :
  files_to_clean t df = Ok out ->
  (t <> users -> keys_numeric t df) ->
  dedup_column_unique t (filter mask out).
Proof.
  intros H Hnum.
  destruct t; cbn in *; apply NoDup_map_filter.
  - eapply clean_users_email_unique; exact H.
  - eapply clean_products_id_unique; [exact H | apply Hnum; discriminate].
  - eapply clean_orders_id_unique; [exact H | apply Hnum; discriminate].
  - eapply clean_order_items_id_unique; [exact H | apply Hnum; discriminate].
  - eapply clean_inventory_items_id_unique; [exact H | apply Hnum; discriminate].
  - eapply clean_events_id_unique; [exact H | apply Hnum; discriminate].
  - eapply clean_distribution_centers_id_unique; [exact H | apply Hnum; discriminate].
Qed.

(** *** [clean_orders]: the date rules *)

(** The rows of the output are the cleaned rows of the frame the two date
    filters leave, in order. *)
Lemma clean_orders_rows df out :
  clean_orders df = Ok out ->
  Forall2 cleaned_order
    (filter (fun r => ts_isna (to_datetime (Orders.delivered_at r))
                      || ts_isna (to_datetime (Orders.shipped_at r))
                      || ts_ge (to_datetime (Orders.delivered_at r))
                               (to_datetime (Orders.shipped_at r)))
       (filter (fun r => ts_isna (to_datetime (Orders.shipped_at r))
                         || ts_isna (to_datetime (Orders.created_at r))
                         || ts_ge (to_datetime (Orders.shipped_at r))
                                  (to_datetime (Orders.created_at r)))
          (filter (fun r => text_isin (Orders.status r) orders_valid_statuses)
             (drop_duplicates idcell_eqb Orders.order_id df))))
    out.
Proof.
  unfold clean_orders. intros H. invert_binds H. subst out.
  apply mapM_Forall2 in Hstep, Hstep0.
  rewrite !filter_map_swap in Hstep.
  eapply Forall2_two_steps; [exact Hstep | exact Hstep0 |].
  intros r m1 r' Hm Hr'.
  apply bind_Ok_inv in Hm as (o & Ho & Hm). injection Hm as <-.
  apply bind_Ok_inv in Hr' as (u & Hu & Hr'). injection Hr' as <-.
  exists o, u. cbn in Ho, Hu. repeat split; assumption.
Qed.

Lemma cleaned_order_columns (r r' : Orders.row) :
  cleaned_order r r' ->
  Orders.created_at r' = to_datetime (Orders.created_at r)
  /\ Orders.shipped_at r' = to_datetime (Orders.shipped_at r)
  /\ Orders.delivered_at r' = to_datetime (Orders.delivered_at r)
  /\ Orders.status r' = Orders.status r
  /\ Orders.extra r' = Orders.extra r.
Proof.
  intros (o & u & _ & _ & ->). repeat split.
Qed.



End WithParsers.
End CleaningFacts.

(** ** [main]: what it leaves on disk *)

Module PipelineFacts.
Import Pandas DataCleaning Pipeline Tables Spec ListFacts CleaningFacts.
Local Open Scope string_scope.

Lemma clean_file_inv {R : Type} (name : string)
      (cleaning_func : list R -> result (list R))
      (raw_file cleaned_file new_file : option (list R))
      (s s' : list summary_row) :
  clean_file name cleaning_func raw_file cleaned_file s = Ok (new_file, s') ->
  (raw_file = None -> new_file = cleaned_file /\ s' = s)
  /\ (forall df_raw, raw_file = Some df_raw ->
      exists df_clean,
        cleaning_func df_raw = Ok df_clean
        /\ new_file = Some df_clean
        /\ s' = (s ++ [ {| table := name;
                           original_rows := List.length df_raw;
                           clean_rows := List.length df_clean;
                           removed_rows :=
                             (Z.of_nat (List.length df_raw)
                              - Z.of_nat (List.length df_clean))%Z;
                           clean_rows_after_RI := None |} ])%list).
Proof.
  unfold clean_file. destruct raw_file as [df_raw |].
  - intros H. apply bind_Ok_inv in H as (df_clean & Hc & H).
    injection H as <- <-. split; [discriminate |].
    intros df E. injection E as <-. exists df_clean. repeat split. exact Hc.
  - intros H. injection H as <- <-. split; [tauto | discriminate].
Qed.

Lemma cut_from_refl (p : files) : cut_from p p.
Proof.
  intros t l H. exists (fun _ => true). rewrite filter_true. exact H.
Qed.

Lemma cut_from_trans (p q r : files) :
  cut_from p q -> cut_from q r -> cut_from p r.
Proof.
  intros Hpq Hqr t l H.
  destruct (Hpq t l H) as (m1 & H1). destruct (Hqr t _ H1) as (m2 & H2).
  exists (fun x => m1 x && m2 x). rewrite <- filter_filter. exact H2.
Qed.

Lemma ri_orders_cut (st : state) :
  cut_from (st_processed st) (st_processed (ri_orders st)).
Proof.
  unfold ri_orders.
  destruct (users_csv (st_processed st)) as [users_df |] eqn:Hu;
    [| apply cut_from_refl].
  destruct (orders_csv (st_processed st)) as [orders_df |] eqn:Ho;
    [| apply cut_from_refl].
  intros t l H. destruct t; cbn in *;
    try (exists (fun _ => true); rewrite filter_true; exact H).
  rewrite Ho in H. injection H as <-. eexists. reflexivity.
Qed.

Lemma ri_events_cut (st : state) :
  cut_from (st_processed st) (st_processed (ri_events st)).
Proof.
  unfold ri_events.
  destruct (users_csv (st_processed st)) as [users_df |] eqn:Hu;
    [| apply cut_from_refl].
  destruct (events_csv (st_processed st)) as [events_df |] eqn:He;
    [| apply cut_from_refl].
  intros t l H. destruct t; cbn in *;
    try (exists (fun _ => true); rewrite filter_true; exact H).
  rewrite He in H. injection H as <-. eexists. reflexivity.
Qed.

Lemma ri_order_items_cut (st : state) :
  cut_from (st_processed st) (st_processed (ri_order_items st)).
Proof.
  unfold ri_order_items.
  destruct (orders_csv (st_processed st)) as [orders_df |] eqn:Ho;
    [| apply cut_from_refl].
  destruct (products_csv (st_processed st)) as [prods_df |] eqn:Hp;
    [| apply cut_from_refl].
  destruct (order_items_csv (st_processed st)) as [oitems_df |] eqn:Hi;
    [| apply cut_from_refl].
  cbn. eapply cut_from_trans; [| apply ri_events_cut].
  intros t l H. destruct t; cbn in *;
    try (exists (fun _ => true); rewrite filter_true; exact H).
  rewrite Hi in H. injection H as <-. eexists. reflexivity.
Qed.

Lemma name_of_inj (t t' : table_name) : name_of t = name_of t' -> t = t'.
Proof. destruct t, t'; cbn; intros H; try reflexivity; discriminate. Qed.

Lemma set_after_RI_tables (name : string) (n : nat) (s : list summary_row) :
  map table (set_after_RI name n s) = map table s.
Proof.
  unfold set_after_RI. rewrite map_map. apply map_ext.
  intros row. destruct (String.eqb (table row) name); reflexivity.
Qed.

Lemma set_after_RI_In (name : string) (n : nat) (s : list summary_row)
      (row' : summary_row) :
  In row' (set_after_RI name n s) ->
  exists row,
    In row s
    /\ table row' = table row
    /\ original_rows row' = original_rows row
    /\ clean_rows row' = clean_rows row
    /\ (if String.eqb (table row) name
        then clean_rows_after_RI row' = Some n
        else row' = row).
Proof.
  unfold set_after_RI. intros H. apply in_map_iff in H as (row & <- & Hin).
  exists row. split; [exact Hin |].
  destruct (String.eqb (table row) name); cbn; repeat split; reflexivity.
Qed.

(** A block that rewrites the file of [tX] and the summary rows of [tX]
    keeps every table tracked. *)
Lemma tracked_update (tX : table_name) (old : list (row_of tX))
      (mask : row_of tX -> bool) (st : state) (p' : files)
      (v' : violation_files) (t : table_name) (df out : list (row_of t)) :
  file_of tX (st_processed st) = Some old ->
  file_of tX p' = Some (filter mask old) ->
  (forall t', t' <> tX -> file_of t' p' = file_of t' (st_processed st)) ->
  tracked t df out st ->
  tracked t df out
          {| st_processed := p';
             st_violations := v';
             st_summary :=
               set_after_RI (name_of tX) (List.length (filter mask old))
                            (st_summary st) |}.
Proof.
  intros Hold Hnew Hother (final & Hfile & (m & Hm) & Hname & Hrows).
  destruct (table_name_eq_dec t tX) as [E | E].
  - subst t. rewrite Hold in Hfile. injection Hfile as ->.
    exists (filter mask final). cbn [st_processed st_summary].
    split; [exact Hnew |]. split.
    { exists (fun x => m x && mask x). rewrite Hm. apply filter_filter. }
    split; [rewrite set_after_RI_tables; exact Hname |].
    intros row' Hin' Hname'.
    apply set_after_RI_In in Hin' as (row & Hin & Ht & Ho & Hc & Hif).
    rewrite Ht in Hname'. destruct (Hrows row Hin Hname') as (A & B & C).
    rewrite Hname', String.eqb_refl in Hif.
    repeat split; try congruence. right. exact Hif.
  - exists final. cbn [st_processed st_summary].
    split; [rewrite (Hother t E); exact Hfile |].
    split; [exists m; exact Hm |].
    split; [rewrite set_after_RI_tables; exact Hname |].
    intros row' Hin' Hname'.
    apply set_after_RI_In in Hin' as (row & Hin & Ht & Ho & Hc & Hif).
    rewrite Ht in Hname'.
    assert (Hneq : String.eqb (table row) (name_of tX) = false).
    { apply String.eqb_neq. rewrite Hname'. intros Hn.
      apply E. apply name_of_inj. exact Hn. }
    rewrite Hneq in Hif. subst row'. apply Hrows; assumption.
Qed.

Lemma ri_orders_tracked (st : state) t (df out : list (row_of t)) :
  tracked t df out st -> tracked t df out (ri_orders st).
Proof.
  intros H. unfold ri_orders.
  destruct (users_csv (st_processed st)) as [users_df |] eqn:Hu; [| exact H].
  destruct (orders_csv (st_processed st)) as [orders_df |] eqn:Ho; [| exact H].
  cbn. apply (@tracked_update orders orders_df _ st); try assumption.
  - reflexivity.
  - intros t' Ht'. destruct t'; try reflexivity. contradiction.
Qed.

Lemma ri_events_tracked (st : state) t (df out : list (row_of t)) :
  tracked t df out st -> tracked t df out (ri_events st).
Proof.
  intros H. unfold ri_events.
  destruct (users_csv (st_processed st)) as [users_df |] eqn:Hu; [| exact H].
  destruct (events_csv (st_processed st)) as [events_df |] eqn:He; [| exact H].
  cbn. apply (@tracked_update events events_df _ st); try assumption.
  - reflexivity.
  - intros t' Ht'. destruct t'; try reflexivity. contradiction.
Qed.

Lemma ri_order_items_tracked (st : state) t (df out : list (row_of t)) :
  tracked t df out st -> tracked t df out (ri_order_items st).
Proof.
  intros H. unfold ri_order_items.
  destruct (orders_csv (st_processed st)) as [orders_df |] eqn:Ho; [| exact H].
  destruct (products_csv (st_processed st)) as [prods_df |] eqn:Hp; [| exact H].
  destruct (order_items_csv (st_processed st)) as [oitems_df |] eqn:Hi;
    [| exact H].
  cbn. apply ri_events_tracked.
  apply (@tracked_update order_items oitems_df _ st); try assumption.
  - reflexivity.
  - intros t' Ht'. destruct t'; try reflexivity. contradiction.
Qed.

(** What one turn of the cleaning loop does to the summary. *)
Lemma clean_file_rows {R : Type} (name : string)
      (cleaning_func : list R -> result (list R))
      (raw_file cleaned_file new_file : option (list R))
      (s s' : list summary_row) :
  clean_file name cleaning_func raw_file cleaned_file s = Ok (new_file, s') ->
  (forall row, In row s' ->
               In row s
               \/ (table row = name
                   /\ clean_rows_after_RI row = None
                   /\ exists df out,
                       raw_file = Some df /\ cleaning_func df = Ok out
                       /\ original_rows row = List.length df
                       /\ clean_rows row = List.length out))
  /\ (forall df, raw_file = Some df ->
                 In name (map table s')
                 /\ exists out, cleaning_func df = Ok out
                                /\ new_file = Some out)
  /\ (forall n, In n (map table s) -> In n (map table s')).
Proof.
  intros H. apply clean_file_inv in H as [Hnone Hsome].
  destruct raw_file as [df |].
  - destruct (Hsome df eq_refl) as (out & Hc & -> & ->).
    split; [| split; [| intros n Hn; rewrite map_app; apply in_or_app;
                        left; exact Hn]].
    + intros row Hin. apply in_app_or in Hin as [Hin | [<- | []]].
      * left. exact Hin.
      * right. cbn. repeat split. exists df, out. repeat split. exact Hc.
    + intros df' E. injection E as <-. split.
      * rewrite map_app. apply in_or_app. right. left. reflexivity.
      * exists out. split; [exact Hc | reflexivity].
  - destruct (Hnone eq_refl) as [-> ->].
    split; [| split; [| intros n Hn; exact Hn]].
    + intros row Hin. left. exact Hin.
    + discriminate.
Qed.

Section WithParsers.
Context {P : Parsers}.

(** After the cleaning loop every table with a raw file is tracked. *)
Lemma clean_all_tracked (fs : filesystem) (st : state) :
  clean_all fs = Ok st ->
  forall t df, file_of t (raw fs) = Some df ->
               exists out, files_to_clean t df = Ok out
                           /\ tracked t df out st.
Proof.
  unfold clean_all. intros H.
  repeat match type of H with
         | bind _ _ = Ok _ =>
             let x := fresh "x" in
             let Hx := fresh "Hfile" in
             apply bind_Ok_inv in H as (x & Hx & H);
             destruct x as [? ?];
             apply clean_file_rows in Hx as (? & ? & ?)
         end.
  injection H as <-.
  intros t df Hraw.
  destruct t; cbn in Hraw;
    match goal with
    | Hs : forall df, _ = Some df -> _ /\ _ |- _ =>
        destruct (Hs df Hraw) as (Hname & out & Hc & ->); clear Hs
    end;
    exists out; (split; [exact Hc |]);
    exists out; cbn [st_processed st_summary file_of name_of];
    (split; [reflexivity |]);
    (split; [exists (fun _ => true); rewrite filter_true; reflexivity |]).
  all: split;
    [ let rec climb :=
        first [ exact Hname
              | match goal with
                | Hm : forall n, In n (map table ?a) -> In n (map table ?b)
                  |- In _ (map table ?b) => apply Hm; climb
                end ] in
      climb
    | intros row Hin Ht;
      repeat match goal with
             | Hr : forall row, In row ?b -> In row ?a \/ _,
               Hin : In ?row ?b |- _ =>
                 destruct (Hr row Hin)
                   as [? | (Hn & Hnone & df' & out' & Hraw' & Hc' & Ho & Hcl)];
                 clear Hin;
                 [| try (rewrite Ht in Hn; discriminate Hn)]
             end;
      try match goal with Hin : In _ [] |- _ => destruct Hin end;
      rewrite Hraw in Hraw'; injection Hraw' as <-;
      rewrite Hc in Hc'; injection Hc' as <-;
      repeat split; try assumption; left; exact Hnone ].
Qed.

Lemma main_tracked (fs fs' : filesystem) (s : list summary_row) :
  main fs = Ok (fs', s) ->
  forall t df, file_of t (raw fs) = Some df ->
               exists out,
                 files_to_clean t df = Ok out
                 /\ tracked t df out
                            {| st_processed := processed fs';
                               st_violations := violations fs';
                               st_summary := s |}.
Proof.
  unfold main. intros H t df Hraw.
  apply bind_Ok_inv in H as (st & Hclean & H).
  destruct (clean_all_tracked fs Hclean t Hraw) as (out & Hc & Ht).
  exists out. split; [exact Hc |].
  apply ri_orders_tracked, ri_order_items_tracked in Ht.
  destruct (st_summary (ri_order_items (ri_orders st))) eqn:Hs;
    [discriminate |].
  injection H as <- <-. cbn [processed violations]. rewrite <- Hs.
  destruct (ri_order_items (ri_orders st)). exact Ht.
Qed.

(** C2. For every table with a raw file, when [main] completes: the
    cleaning function returned [out] for the raw frame [df], the file
    [main] leaves for the table is cut from [out], and
    post-RI length <= cleaned length <= original length.  The summary has a
    row for the table, and each such row records the original and cleaned
    lengths and, when a referential-integrity block rewrote the file, the
    length left afterwards. *)
Theorem row_counts_monotone (fs fs' : filesystem) (s : list summary_row)
        (t : table_name) (df : list (row_of t)) :
  main fs = Ok (fs', s) ->
  file_of t (raw fs) = Some df ->
  exists out final,
    files_to_clean t df = Ok out
    /\ file_of t (processed fs') = Some final
    /\ List.length final <= List.length out <= List.length df
    /\ In (name_of t) (map table s)
    /\ (forall row, In row s -> table row = name_of t ->
                    original_rows row = List.length df
                    /\ clean_rows row = List.length out
                    /\ clean_rows row <= original_rows row
                    /\ (clean_rows_after_RI row = None
                        \/ clean_rows_after_RI row = Some (List.length final))
                    /\ (forall n, clean_rows_after_RI row = Some n ->
                                  n <= clean_rows row)).
Proof.
  intros Hmain Hraw.
  destruct (main_tracked fs Hmain t Hraw)
    as (out & Hc & final & Hfile & (mask & Hmask) & Hname & Hrows).
  cbn [st_processed st_summary] in *.
  assert (Hfinal : List.length final <= List.length out)
    by (rewrite Hmask; apply filter_length_le).
  pose proof Hc as Hout. apply files_to_clean_length in Hout.
  exists out, final. repeat split; try assumption.
  - apply (Hrows row); assumption.
  - apply (Hrows row); assumption.
  - destruct (Hrows row H H0) as (-> & -> & _). exact Hout.
  - apply (Hrows row); assumption.
  - intros n Hn. destruct (Hrows row H H0) as (_ & -> & [E | E]);
      rewrite E in Hn; [discriminate | injection Hn as <-; exact Hfinal].
Qed.

(** X21. The files [main] leaves keep the deduplicated column free of
    duplicates. *)
Lemma final_files_unique (fs fs' : filesystem) (s : list summary_row)
      (t : table_name) (df : list (row_of t)) :
  main fs = Ok (fs', s) ->
  file_of t (raw fs) = Some df ->
  (t <> users -> keys_numeric t df) ->
  exists final,
    file_of t (processed fs') = Some final /\ dedup_column_unique t final.
Proof.
  intros Hmain Hraw Hnum.
  destruct (main_tracked fs Hmain t Hraw)
    as (out & Hc & final & Hfile & (mask & Hmask) & _).
  cbn [st_processed] in Hfile. exists final. split; [exact Hfile |].
  subst final. destruct t; cbn in *; apply NoDup_map_filter.
  - eapply clean_users_email_unique; exact Hc.
  - eapply clean_products_id_unique; [exact Hc | apply Hnum; discriminate].
  - eapply clean_orders_id_unique; [exact Hc | apply Hnum; discriminate].
  - eapply clean_order_items_id_unique; [exact Hc | apply Hnum; discriminate].
  - eapply clean_inventory_items_id_unique;
      [exact Hc | apply Hnum; discriminate].
  - eapply clean_events_id_unique; [exact Hc | apply Hnum; discriminate].
  - eapply clean_distribution_centers_id_unique;
      [exact Hc | apply Hnum; discriminate].
Qed.

End WithParsers.
End PipelineFacts.

(** ** The referential-integrity blocks *)

Module IntegrityFacts.
Import Pandas Pipeline Tables ListFacts.
Local Open Scope string_scope.

Lemma to_csv_unless_empty_In {A : Type} (old : option (list A))
      (df : list A) (x : A) :
  In x df -> exists vs, to_csv_unless_empty old df = Some vs /\ In x vs.
Proof.
  destruct df as [| y df]; [intros [] |].
  intros H. exists (y :: df). split; [reflexivity | exact H].
Qed.

(** The events block rewrites neither the order_items file nor the two
    order_items violation files. *)
Lemma ri_events_order_items (st : state) :
  order_items_csv (st_processed (ri_events st))
  = order_items_csv (st_processed st)
  /\ oi_missing_orders (st_violations (ri_events st))
     = oi_missing_orders (st_violations st)
  /\ oi_missing_products (st_violations (ri_events st))
     = oi_missing_products (st_violations st).
Proof.
  unfold ri_events.
  destruct (users_csv (st_processed st)); [| repeat split].
  destruct (events_csv (st_processed st)); repeat split.
Qed.

(** C4. In the order_items block, with the three files present: a row of
    order_items is kept exactly when its order_id is an order_id of the
    orders file as the orders block left it and its product_id is an id of
    the products file; a row whose order_id is missing is written to
    [oi_missing_orders.csv], a row whose product_id is missing is written
    to [oi_missing_products.csv], each whatever the other check says, so a
    row that fails both is in both files. *)
Theorem order_items_retention (st : state)
        (orders_df : list Orders.row) (prods_df : list Products.row)
        (oitems_df : list OrderItems.row) (r : OrderItems.row) :
  orders_csv (st_processed st) = Some orders_df ->
  products_csv (st_processed st) = Some prods_df ->
  order_items_csv (st_processed st) = Some oitems_df ->
  In r oitems_df ->
  exists kept,
    order_items_csv (st_processed (ri_order_items st)) = Some kept
    /\ (In r kept <->
        In (OrderItems.order_id r) (map Orders.order_id orders_df)
        /\ In (OrderItems.product_id r) (map Products.id prods_df))
    /\ (~ In (OrderItems.order_id r) (map Orders.order_id orders_df) ->
        exists vs,
          oi_missing_orders (st_violations (ri_order_items st)) = Some vs
          /\ In (OrderItems.id r, OrderItems.order_id r,
                 OrderItems.product_id r) vs)
    /\ (~ In (OrderItems.product_id r) (map Products.id prods_df) ->
        exists vs,
          oi_missing_products (st_violations (ri_order_items st)) = Some vs
          /\ In (OrderItems.id r, OrderItems.order_id r,
                 OrderItems.product_id r) vs).
Proof.
  intros Ho Hp Hi Hr. unfold ri_order_items. rewrite Ho, Hp, Hi. cbn.
  match goal with
  | |- context [ri_events ?s] =>
      destruct (ri_events_order_items s) as (-> & -> & ->)
  end.
  cbn. eexists. split; [reflexivity |]. split; [| split].
  - rewrite filter_In, andb_true_iff, !isin_In. tauto.
  - intros Hmiss. apply to_csv_unless_empty_In.
    apply (in_map oi_columns). apply filter_In. split; [exact Hr |].
    apply negb_true_iff. apply not_true_is_false.
    rewrite isin_In. exact Hmiss.
  - intros Hmiss. apply to_csv_unless_empty_In.
    apply (in_map oi_columns). apply filter_In. split; [exact Hr |].
    apply negb_true_iff. apply not_true_is_false.
    rewrite isin_In. exact Hmiss.
Qed.

(** C5. In the events block, with the users and events files present: a
    row of events is kept exactly when its user_id is null or is an id of
    the users file; a row that is not kept is written, with its id and
    user_id (and created_at), to [orphan_events.csv]. *)
Theorem events_retention (st : state)
        (users_df : list Users.row) (events_df : list Events.row)
        (r : Events.row) :
  users_csv (st_processed st) = Some users_df ->
  events_csv (st_processed st) = Some events_df ->
  In r events_df ->
  exists kept,
    events_csv (st_processed (ri_events st)) = Some kept
    /\ (In r kept <->
        Events.user_id r = INull
        \/ In (Events.user_id r) (map Users.id users_df))
    /\ (~ In r kept ->
        exists vs,
          orphan_events (st_violations (ri_events st)) = Some vs
          /\ In (Events.id r, Events.user_id r, Events.created_at r) vs).
Proof.
  intros Hu He Hr. unfold ri_events. rewrite Hu, He. cbn.
  eexists. split; [reflexivity |].
  assert (Hmask : forall x : Events.row,
             isna (Events.user_id x)
             || isin (Events.user_id x) (unique (dropna (map Users.id users_df)))
             = true
             <-> Events.user_id x = INull
                 \/ In (Events.user_id x) (map Users.id users_df)).
  { intros x. rewrite orb_true_iff, isin_In, unique_In, dropna_In.
    destruct (Events.user_id x) as [| z | t]; cbn.
    - split; intros _; left; reflexivity.
    - split.
      + intros [H | [H _]]; [discriminate H | right; exact H].
      + intros [H | H]; [discriminate H |].
        right. split; [exact H | discriminate].
    - split.
      + intros [H | [H _]]; [discriminate H | right; exact H].
      + intros [H | H]; [discriminate H |].
        right. split; [exact H | discriminate]. }
  split.
  - rewrite filter_In, Hmask. tauto.
  - intros Hdrop. apply to_csv_unless_empty_In.
    apply (in_map events_columns). apply filter_In. split; [exact Hr |].
    apply negb_true_iff. apply not_true_is_false.
    intros Hm. apply Hdrop. apply filter_In. split; [exact Hr | exact Hm].
Qed.

End IntegrityFacts.

(** ** The claims on the worked data *)

Module Worked.
Import Pandas DataCleaning Pipeline Tables Spec Scenarios.
Import CleaningFacts PipelineFacts IntegrityFacts.
Local Open Scope string_scope.

(** C1, as stated, fails for users: [clean_users] deduplicates on email,
    so two users with one id and two emails are both kept. *)
Lemma users_primary_key_duplicated :
  exists out,
    clean_users (P := Demo.parsers) same_id_users = Ok out
    /\ map Users.id out = [IInt 1; IInt 1]
    /\ ~ NoDup (map (primary_key users) out).
Proof.
  eexists. split; [vm_compute; reflexivity |]. split; [reflexivity |].
  cbn. intros H. inversion H as [| ? ? Hin _]; subst.
  apply Hin. left. reflexivity.
Qed.

(** Three products, two of them with id 7. *)
Lemma dedup_column_has_no_duplicates_witness :
  exists out,
    files_to_clean (P := Demo.parsers) products
                   [product 7 ten ten; product 7 five ten; product 8 ten ten]
    = Ok out
    /\ dedup_column_unique products (filter (fun _ => true) out).
Proof.
  eexists. split; [vm_compute; reflexivity |].
  apply (@dedup_column_has_no_duplicates Demo.parsers products
           [product 7 ten ten; product 7 five ten; product 8 ten ten]).
  - vm_compute. reflexivity.
  - intros _. repeat constructor.
Defined.

(** The orders of the five-table run: three raw rows, two cleaned, one
    after the orders block. *)
Lemma row_counts_monotone_witness :
  exists fs' s,
    main (P := Demo.parsers) five_tables = Ok (fs', s)
    /\ exists out final,
        files_to_clean (P := Demo.parsers) orders
                       [order 100 1 (TStr "2021-03-01") NaT;
                        order 101 2 (TStr "2021-03-01") (TStr "2021-03-02");
                        order 102 1 (TStr "2021-03-05") (TStr "2021-03-04")]
        = Ok out
        /\ file_of orders (processed fs') = Some final
        /\ List.length final <= List.length out <= 3
        /\ In "orders" (map table s)
        /\ (forall row, In row s -> table row = "orders" ->
                        original_rows row = 3
                        /\ clean_rows row = List.length out
                        /\ clean_rows row <= original_rows row
                        /\ (clean_rows_after_RI row = None
                            \/ clean_rows_after_RI row
                               = Some (List.length final))
                        /\ (forall n, clean_rows_after_RI row = Some n ->
                                      n <= clean_rows row)).
Proof.
  do 2 eexists. split; [vm_compute; reflexivity |].
  apply (@row_counts_monotone Demo.parsers five_tables).
  - vm_compute. reflexivity.
  - reflexivity.
Defined.

(** C3. A first run with the users and events files and no products
    file: both sides of events.user_id -> users.id are present, event 11
    refers to user 99, which is no user, and yet [main] leaves the events
    file as cleaning wrote it, writes no [orphan_events.csv] and sets no
    [clean_rows_after_RI]: the events block sits inside the [if] of the
    order_items block, which asks for the orders, products and order_items
    files. *)
Theorem events_check_skipped_without_products :
  exists fs' s cleaned,
    main (P := Demo.parsers) users_and_events = Ok (fs', s)
    /\ clean_events (P := Demo.parsers)
                    [event 10 (IInt 1); event 11 (IInt 99); event 12 INull]
       = Ok cleaned
    /\ map Users.id
           (match users_csv (processed fs') with Some l => l | None => [] end)
       = [IInt 1]
    /\ events_csv (processed fs') = Some cleaned
    /\ map Events.user_id cleaned = [IInt 1; IInt 99; INull]
    /\ orphan_events (violations fs') = None
    /\ map clean_rows_after_RI s = [None; None].
Proof.
  do 3 eexists. split; [vm_compute; reflexivity |].
  split; [vm_compute; reflexivity |].
  repeat split.
Qed.

(** The same run with the three other files in place: the events block is
    reached and event 11 is dropped and reported. *)
Example events_check_with_products :
  exists fs' s,
    main (P := Demo.parsers) five_tables = Ok (fs', s)
    /\ map Events.id
           (match events_csv (processed fs') with Some l => l | None => [] end)
       = [IInt 10; IInt 12]
    /\ orphan_events (violations fs')
       = Some [(IInt 11, IInt 99, Timestamp 1614729600000000000)].
Proof.
  do 2 eexists. split; [vm_compute; reflexivity |]. split; reflexivity.
Qed.

(** In general the order_items block, and the events block inside it, do
    nothing when the products file is missing. *)
Lemma ri_order_items_without_products (st : state) :
  products_csv (st_processed st) = None -> ri_order_items st = st.
Proof.
  intros H. unfold ri_order_items. rewrite H.
  destruct (orders_csv (st_processed st)); reflexivity.
Qed.

(** An order item whose order and product are both missing. *)
Lemma order_items_retention_witness :
  let st := {| st_processed :=
                 {| users_csv := None;
                    products_csv := Some [product 7 ten ten];
                    orders_csv := Some [order 100 1 NaT NaT];
                    order_items_csv := Some [order_item 1000 100 7;
                                             order_item 1001 101 8];
                    inventory_items_csv := None;
                    events_csv := None;
                    distribution_centers_csv := None |};
               st_violations := no_violations;
               st_summary := [] |} in
  exists kept,
    order_items_csv (st_processed (ri_order_items st)) = Some kept
    /\ ~ In (order_item 1001 101 8) kept
    /\ (exists vs,
          oi_missing_orders (st_violations (ri_order_items st)) = Some vs
          /\ In (IInt 1001, IInt 101, IInt 8) vs)
    /\ (exists vs,
          oi_missing_products (st_violations (ri_order_items st)) = Some vs
          /\ In (IInt 1001, IInt 101, IInt 8) vs).
Proof.
  intros st.
  destruct (@order_items_retention st
              [order 100 1 NaT NaT] [product 7 ten ten]
              [order_item 1000 100 7; order_item 1001 101 8]
              (order_item 1001 101 8)
              eq_refl eq_refl eq_refl (or_intror (or_introl eq_refl)))
    as (kept & Hkept & Hiff & Horders & Hproducts).
  assert (Hno_order : ~ In (IInt 101) (map Orders.order_id [order 100 1 NaT NaT])).
  { cbn. intros [H | []]. discriminate H. }
  assert (Hno_product : ~ In (IInt 8) (map Products.id [product 7 ten ten])).
  { cbn. intros [H | []]. discriminate H. }
  exists kept. split; [exact Hkept |]. split; [| split].
  - intros Hin. apply Hiff in Hin as [Hin _]. exact (Hno_order Hin).
  - apply Horders. exact Hno_order.
  - apply Hproducts. exact Hno_product.
Defined.

(** An anonymous event is kept; an event of user 99 is reported. *)
Lemma events_retention_witness :
  let st := {| st_processed :=
                 {| users_csv := Some [user 1 "ann@example.org" 30];
                    products_csv := None;
                    orders_csv := None;
                    order_items_csv := None;
                    inventory_items_csv := None;
                    events_csv := Some [event 10 (IInt 1); event 11 (IInt 99);
                                        event 12 INull];
                    distribution_centers_csv := None |};
               st_violations := no_violations;
               st_summary := [] |} in
  exists kept,
    events_csv (st_processed (ri_events st)) = Some kept
    /\ In (event 12 INull) kept
    /\ (~ In (event 11 (IInt 99)) kept ->
        exists vs,
          orphan_events (st_violations (ri_events st)) = Some vs
          /\ In (IInt 11, IInt 99, TStr "2021-03-03") vs).
Proof.
  intros st.
  destruct (@events_retention st
              [user 1 "ann@example.org" 30]
              [event 10 (IInt 1); event 11 (IInt 99); event 12 INull]
              (event 12 INull)
              eq_refl eq_refl
              (or_intror (or_intror (or_introl eq_refl))))
    as (kept & Hkept & Hiff & _).
  destruct (@events_retention st
              [user 1 "ann@example.org" 30]
              [event 10 (IInt 1); event 11 (IInt 99); event 12 INull]
              (event 11 (IInt 99))
              eq_refl eq_refl
              (or_intror (or_introl eq_refl)))
    as (kept' & Hkept' & _ & Hdrop).
  rewrite Hkept in Hkept'. injection Hkept' as <-.
  exists kept. split; [exact Hkept |]. split.
  - apply Hiff. left. reflexivity.
  - exact Hdrop.
Defined.


(** C9. [clean_products] is not idempotent on this frame: its one
    product retails below its cost, the output is the empty frame, and on
    the empty frame the report line divides by [original_rows = 0]. *)
Theorem clean_products_fails_on_its_empty_output :
  clean_products (P := Demo.parsers) underpriced_product = Ok []
  /\ clean_products (P := Demo.parsers) [] = Raise ZeroDivisionError.
Proof. split; vm_compute; reflexivity. Qed.

(** The same report line ends [clean_orders], [clean_order_items],
    [clean_inventory_items] and [clean_events] (and [clean_users]); only
    [clean_distribution_centers] has none. *)
Lemma cleaning_raises_on_empty_frame {P : Parsers} :
  clean_products [] = Raise ZeroDivisionError
  /\ clean_orders [] = Raise ZeroDivisionError
  /\ clean_order_items [] = Raise ZeroDivisionError
  /\ clean_inventory_items [] = Raise ZeroDivisionError
  /\ clean_events [] = Raise ZeroDivisionError
  /\ clean_distribution_centers [] = Ok [].
Proof. repeat split. Qed.

(** Deduplication comes before the identifier cast: two text ids that are
    no numbers are distinct on the first pass and both null on the
    second. *)
Example clean_products_text_ids :
  exists out first,
    clean_products (P := Demo.parsers) text_id_products = Ok out
    /\ map Products.id out = [INull; INull]
    /\ clean_products (P := Demo.parsers) out = Ok [first].
Proof.
  do 2 eexists. split; [vm_compute; reflexivity |].
  split; vm_compute; reflexivity.
Qed.

End Worked.

(** ** Idempotence of the cleaning functions, where it holds *)

Module IdempotenceFacts.
Import Pandas DataCleaning Tables Spec ListFacts CleaningFacts StrFacts.
Local Open Scope string_scope.

Lemma filter_fixed {A : Type} (p : A -> bool) (l : list A) :
  (forall r, In r l -> p r = true) -> filter p l = l.
Proof.
  intros H. apply forallb_filter_id. apply forallb_forall. exact H.
Qed.

Lemma map_fixed {A : Type} (g : A -> A) (l : list A) :
  (forall r, In r l -> g r = r) -> map g l = l.
Proof.
  intros H. rewrite <- (map_id l) at 2. apply map_ext_in. exact H.
Qed.

Lemma mapM_fixed {A : Type} (h : A -> result A) (l : list A) :
  (forall r, In r l -> h r = Ok r) -> mapM h l = Ok l.
Proof.
  induction l as [| x xs IH]; intros H; cbn; [reflexivity |].
  rewrite (H x (or_introl eq_refl)). cbn.
  rewrite IH; [reflexivity |]. intros r Hr. apply H. right. exact Hr.
Qed.

Lemma removed_percent_nonempty {A : Type} (l : list A) (n : nat) :
  l <> [] -> removed_percent (List.length l) n = Ok tt.
Proof.
  intros H. apply removed_percent_Ok. destruct l; [contradiction | discriminate].
Qed.

(** *** Cells *)

Lemma str_strip_idempotent (c : text) : str_strip (str_strip c) = str_strip c.
Proof. destruct c; cbn; [rewrite strip_idempotent |]; reflexivity. Qed.

Lemma str_title_strip_idempotent (c : text) :
  str_title (str_strip (str_title (str_strip c))) = str_title (str_strip c).
Proof. destruct c; cbn; [rewrite title_strip_idempotent |]; reflexivity. Qed.

Lemma fillna_strip_fillna (v : string) (c : text) :
  fillna v (str_strip (fillna v c)) = str_strip (fillna v c).
Proof. destruct c; reflexivity. Qed.

Lemma fillna_title_strip_fillna (v : string) (c : text) :
  fillna v (str_title (str_strip (fillna v c)))
  = str_title (str_strip (fillna v c)).
Proof. destruct c; reflexivity. Qed.

Lemma fillna_fillna (v : string) (c : text) :
  fillna v (fillna v c) = fillna v c.
Proof. destruct c; reflexivity. Qed.

Lemma ts_notna_to_datetime {P : Parsers} (c : tscell) :
  to_datetime (to_datetime c) = to_datetime c.
Proof.
  destruct c as [| s | t]; cbn; try reflexivity.
  destruct (to_datetime_str s); reflexivity.
Qed.

Lemma to_Int64_fixed {P : Parsers} (c i : idcell) :
  to_Int64 c = Ok i -> to_Int64 i = Ok i.
Proof.
  destruct c as [| z | s]; cbn.
  - intros H. injection H as <-. reflexivity.
  - intros H. injection H as <-. reflexivity.
  - destruct (to_numeric_str s) as [[n | [neg | x]] |]; try discriminate.
    + intros H. injection H as <-. reflexivity.
    + destruct (is_Eq (fin_cmp_Z x (fin_trunc x))); [| discriminate].
      intros H. injection H as <-. reflexivity.
    + intros H. injection H as <-. reflexivity.
Qed.

(** Follow a row of the output back through the steps that made it. *)
Ltac unwind H :=
  repeat
    match type of H with
    | In _ (map _ _) =>
        let x := fresh "m" in
        apply in_map_iff in H as (x & <- & H)
    | In _ (filter _ _) =>
        let Hp := fresh "Hpass" in
        apply filter_In in H as [H Hp]
    | In ?r ?l =>
        match goal with
        | Hm : mapM _ _ = Ok l |- _ =>
            let x := fresh "m" in
            let Hx := fresh "Hin" in
            let Hf := fresh "Hcast" in
            let i := fresh "i" in
            let Hi := fresh "Hi" in
            destruct (Forall2_In_r (mapM_Forall2 _ _ Hm) r H)
              as (x & Hx & Hf);
            cbv beta in Hf;
            apply bind_Ok_inv in Hf as (i & Hi & Hf);
            injection Hf as <-;
            clear H; rename Hx into H
        end
    end.

(** Carry out the column assignments on a row given by its cells. *)
Ltac assign_columns :=
  cbv beta iota delta
      [Users.with_id Users.with_first_name Users.with_last_name
       Users.with_city Users.with_country Users.with_created_at
       Products.with_id Products.with_name Products.with_brand
       Products.with_category Products.with_department
       Orders.with_order_id Orders.with_user_id Orders.with_timestamps
       OrderItems.with_ids OrderItems.with_timestamps
       InventoryItems.with_ids InventoryItems.with_created_at
       InventoryItems.with_sold_at InventoryItems.with_product_name
       InventoryItems.with_product_brand
       Events.with_ids Events.with_created_at Events.with_city
       Events.with_extra
       DistributionCenters.with_id DistributionCenters.with_name] in *;
  cbn in *.

(** The side condition of a step that leaves every row as it is. *)
Ltac row_side Hrows :=
  let r := fresh "r" in
  let Hr := fresh "Hr" in
  let Hs := fresh "Hs" in
  intros r Hr; pose proof (Hrows r Hr) as Hs; decompose [and] Hs; clear Hs;
  destruct r; assign_columns;
  first
    [ assumption
    | congruence
    | repeat match goal with
             | Hc : to_Int64 _ = Ok _ |- _ => rewrite Hc; clear Hc
             end;
      reflexivity ].

(** Run a cleaning function over its own output, step by step. *)
Ltac fix_stages Hrows out :=
  repeat first
    [ rewrite (filter_fixed _ out) by row_side Hrows
    | rewrite (map_fixed _ out) by row_side Hrows
    | rewrite (mapM_fixed _ out) by row_side Hrows; cbn [bind] ].

Ltac close_rows :=
  repeat split; try assumption; try reflexivity;
  try (eapply to_Int64_fixed; eassumption).

Lemma replace_fillna (v : string) (c : text) :
  fillna v (option_map Str.replace_space_runs (fillna v c))
  = option_map Str.replace_space_runs (fillna v c).
Proof. destruct c; reflexivity. Qed.

Lemma replace_city_idempotent (c : text) :
  option_map Str.replace_space_runs (option_map Str.replace_space_runs c)
  = option_map Str.replace_space_runs c.
Proof.
  destruct c; cbn; [rewrite replace_space_runs_idempotent |]; reflexivity.
Qed.

Lemma replace_extra_idempotent (l : list cell) :
  map df_replace_space_runs (map df_replace_space_runs l)
  = map df_replace_space_runs l.
Proof.
  rewrite map_map. apply map_ext. intros c.
  destruct c; cbn; [| | | rewrite replace_space_runs_idempotent]; reflexivity.
Qed.

Section WithParsers.
Context {P : Parsers}.

(** What every row of a cleaned users frame satisfies. *)
Lemma clean_users_rows df out :
  clean_users df = Ok out ->
  forall r, In r out ->
    int_ge (Users.age r) 18 = true
    /\ fillna "Unknown" (Users.city r) = Users.city r
    /\ str_title (str_strip (Users.first_name r)) = Users.first_name r
    /\ str_title (str_strip (Users.last_name r)) = Users.last_name r
    /\ str_title (str_strip (Users.country r)) = Users.country r
    /\ str_strip (Users.city r) = Users.city r
    /\ match Users.email r with Some x => EMAIL_RE x | None => false end = true
    /\ to_datetime (Users.created_at r) = Users.created_at r
    /\ ts_notna (Users.created_at r) = true
    /\ to_Int64 (Users.id r) = Ok (Users.id r).
Proof.
  unfold clean_users. intros H r Hr. invert_binds H. subst out.
  unwind Hr. cbn in *.
  rewrite fillna_strip_fillna, !str_title_strip_idempotent,
    str_strip_idempotent, ts_notna_to_datetime.
  repeat split; try assumption; try reflexivity.
  eapply to_Int64_fixed; eassumption.
Qed.

Lemma clean_users_idempotent df out :
  clean_users df = Ok out -> out <> [] -> clean_users out = Ok out.
Proof.
  intros H Hne.
  pose proof (clean_users_rows df H) as Hrows.
  pose proof (clean_users_email_unique df H) as Hnd.
  unfold clean_users. cbv zeta.
  rewrite (drop_duplicates_id text_eqb Users.email text_eqb_eq out Hnd).
  rewrite (filter_fixed _ out) by (intros r Hr; apply (Hrows r Hr)).
  repeat (rewrite (map_fixed _ out);
          [| intros r Hr; destruct (Hrows r Hr) as (A1 & A2 & A3 & A4 & A5 & A6 & _);
             destruct r; assign_columns; congruence ]).
  rewrite (filter_fixed _ out) by (intros r Hr; apply (Hrows r Hr)).
  rewrite (map_fixed _ out)
    by (intros r Hr; destruct (Hrows r Hr) as (_ & _ & _ & _ & _ & _ & _ & A8 & _);
        destruct r; assign_columns; congruence).
  rewrite (filter_fixed _ out) by (intros r Hr; apply (Hrows r Hr)).
  rewrite (mapM_fixed _ out).
  - cbn. rewrite (removed_percent_nonempty _ Hne). reflexivity.
  - intros r Hr.
    destruct (Hrows r Hr) as (_ & _ & _ & _ & _ & _ & _ & _ & _ & A10).
    rewrite A10. destruct r; reflexivity.
Qed.

Lemma clean_products_rows df out :
  clean_products df = Ok out ->
  forall r, In r out ->
    float_ge_Z (Products.cost r) 0 = true
    /\ float_ge (Products.retail_price r) (Products.cost r) = true
    /\ fillna "Unknown Product" (Products.name r) = Products.name r
    /\ fillna "Generic" (Products.brand r) = Products.brand r
    /\ fillna "Uncategorized" (Products.category r) = Products.category r
    /\ str_strip (Products.name r) = Products.name r
    /\ str_strip (Products.brand r) = Products.brand r
    /\ str_title (str_strip (Products.category r)) = Products.category r
    /\ str_strip (Products.department r) = Products.department r
    /\ to_Int64 (Products.id r) = Ok (Products.id r).
Proof.
  unfold clean_products. intros H r Hr. invert_binds H. subst out.
  unwind Hr. cbn in *.
  rewrite !fillna_strip_fillna, fillna_title_strip_fillna,
    !str_strip_idempotent, str_title_strip_idempotent.
  close_rows.
Qed.

Lemma clean_products_idempotent df out :
  clean_products df = Ok out -> out <> [] -> keys_numeric products df ->
  clean_products out = Ok out.
Proof.
  intros H Hne Hnum.
  pose proof (clean_products_rows df H) as Hrows.
  pose proof (clean_products_id_unique H Hnum) as Hnd.
  unfold clean_products. cbv zeta.
  rewrite (drop_duplicates_id idcell_eqb Products.id idcell_eqb_eq out Hnd).
  fix_stages Hrows out.
  rewrite (removed_percent_nonempty _ Hne). reflexivity.
Qed.

Lemma clean_orders_stable df out :
  clean_orders df = Ok out ->
  forall r, In r out ->
    to_datetime (Orders.created_at r) = Orders.created_at r
    /\ to_datetime (Orders.shipped_at r) = Orders.shipped_at r
    /\ to_datetime (Orders.delivered_at r) = Orders.delivered_at r
    /\ to_datetime (Orders.returned_at r) = Orders.returned_at r
    /\ text_isin (Orders.status r) orders_valid_statuses = true
    /\ ts_isna (Orders.shipped_at r) || ts_isna (Orders.created_at r)
       || ts_ge (Orders.shipped_at r) (Orders.created_at r) = true
    /\ ts_isna (Orders.delivered_at r) || ts_isna (Orders.shipped_at r)
       || ts_ge (Orders.delivered_at r) (Orders.shipped_at r) = true
    /\ to_Int64 (Orders.order_id r) = Ok (Orders.order_id r)
    /\ to_Int64 (Orders.user_id r) = Ok (Orders.user_id r).
Proof.
  unfold clean_orders. intros H r Hr. invert_binds H. subst out.
  unwind Hr. cbn in *.
  rewrite !ts_notna_to_datetime.
  close_rows.
Qed.

Lemma clean_orders_idempotent df out :
  clean_orders df = Ok out -> out <> [] -> keys_numeric orders df ->
  clean_orders out = Ok out.
Proof.
  intros H Hne Hnum.
  pose proof (clean_orders_stable df H) as Hrows.
  pose proof (clean_orders_id_unique H Hnum) as Hnd.
  unfold clean_orders. cbv zeta.
  rewrite (drop_duplicates_id idcell_eqb Orders.order_id idcell_eqb_eq out Hnd).
  fix_stages Hrows out.
  rewrite (removed_percent_nonempty _ Hne). reflexivity.
Qed.

Lemma clean_order_items_rows df out :
  clean_order_items df = Ok out ->
  forall r, In r out ->
    float_ge_Z (OrderItems.sale_price r) 0 = true
    /\ to_datetime (OrderItems.created_at r) = OrderItems.created_at r
    /\ to_datetime (OrderItems.shipped_at r) = OrderItems.shipped_at r
    /\ to_datetime (OrderItems.delivered_at r) = OrderItems.delivered_at r
    /\ to_datetime (OrderItems.returned_at r) = OrderItems.returned_at r
    /\ text_isin (OrderItems.status r) order_items_valid_statuses = true
    /\ to_Int64 (OrderItems.id r) = Ok (OrderItems.id r)
    /\ to_Int64 (OrderItems.order_id r) = Ok (OrderItems.order_id r)
    /\ to_Int64 (OrderItems.product_id r) = Ok (OrderItems.product_id r).
Proof.
  unfold clean_order_items. intros H r Hr. invert_binds H. subst out.
  unwind Hr. cbn in *.
  rewrite !ts_notna_to_datetime.
  close_rows.
Qed.

Lemma clean_order_items_idempotent df out :
  clean_order_items df = Ok out -> out <> [] -> keys_numeric order_items df ->
  clean_order_items out = Ok out.
Proof.
  intros H Hne Hnum.
  pose proof (clean_order_items_rows df H) as Hrows.
  pose proof (clean_order_items_id_unique H Hnum) as Hnd.
  unfold clean_order_items. cbv zeta.
  rewrite (drop_duplicates_id idcell_eqb OrderItems.id idcell_eqb_eq out Hnd).
  fix_stages Hrows out.
  rewrite (removed_percent_nonempty _ Hne). reflexivity.
Qed.

Lemma clean_inventory_items_rows df out :
  clean_inventory_items df = Ok out ->
  forall r, In r out ->
    float_ge_Z (InventoryItems.cost r) 0 = true
    /\ float_ge_Z (InventoryItems.product_retail_price r) 0 = true
    /\ to_datetime (InventoryItems.created_at r) = InventoryItems.created_at r
    /\ to_datetime (InventoryItems.sold_at r) = InventoryItems.sold_at r
    /\ ts_isna (InventoryItems.sold_at r)
       || ts_ge (InventoryItems.sold_at r) (InventoryItems.created_at r) = true
    /\ fillna "Unknown Product" (InventoryItems.product_name r)
       = InventoryItems.product_name r
    /\ fillna "Generic" (InventoryItems.product_brand r)
       = InventoryItems.product_brand r
    /\ to_Int64 (InventoryItems.id r) = Ok (InventoryItems.id r)
    /\ to_Int64 (InventoryItems.product_id r) = Ok (InventoryItems.product_id r).
Proof.
  unfold clean_inventory_items. intros H r Hr. invert_binds H. subst out.
  unwind Hr. cbn in *.
  rewrite !ts_notna_to_datetime, !fillna_fillna.
  close_rows.
Qed.

Lemma clean_inventory_items_idempotent df out :
  clean_inventory_items df = Ok out -> out <> [] ->
  keys_numeric inventory_items df ->
  clean_inventory_items out = Ok out.
Proof.
  intros H Hne Hnum.
  pose proof (clean_inventory_items_rows df H) as Hrows.
  pose proof (clean_inventory_items_id_unique H Hnum) as Hnd.
  unfold clean_inventory_items. cbv zeta.
  rewrite (drop_duplicates_id idcell_eqb InventoryItems.id idcell_eqb_eq out Hnd).
  fix_stages Hrows out.
  rewrite (removed_percent_nonempty _ Hne). reflexivity.
Qed.

Lemma clean_events_rows df out :
  clean_events df = Ok out ->
  forall r, In r out ->
    to_datetime (Events.created_at r) = Events.created_at r
    /\ ts_notna (Events.created_at r) = true
    /\ fillna "Unknown" (Events.city r) = Events.city r
    /\ to_Int64 (Events.id r) = Ok (Events.id r)
    /\ to_Int64 (Events.user_id r) = Ok (Events.user_id r)
    /\ to_Int64 (Events.sequence_number r) = Ok (Events.sequence_number r)
    /\ option_map Str.replace_space_runs (Events.city r) = Events.city r
    /\ map df_replace_space_runs (Events.extra r) = Events.extra r.
Proof.
  unfold clean_events. intros H r Hr. invert_binds H. subst out.
  unwind Hr. cbn in *.
  rewrite ts_notna_to_datetime, replace_fillna, replace_city_idempotent,
    replace_extra_idempotent.
  close_rows.
Qed.

Lemma clean_events_idempotent df out :
  clean_events df = Ok out -> out <> [] -> keys_numeric events df ->
  clean_events out = Ok out.
Proof.
  intros H Hne Hnum.
  pose proof (clean_events_rows df H) as Hrows.
  pose proof (clean_events_id_unique H Hnum) as Hnd.
  unfold clean_events. cbv zeta.
  rewrite (drop_duplicates_id idcell_eqb Events.id idcell_eqb_eq out Hnd).
  fix_stages Hrows out.
  rewrite (removed_percent_nonempty _ Hne). reflexivity.
Qed.

Lemma clean_distribution_centers_rows df out :
  clean_distribution_centers df = Ok out ->
  forall r, In r out ->
    str_strip (DistributionCenters.name r) = DistributionCenters.name r
    /\ to_Int64 (DistributionCenters.id r) = Ok (DistributionCenters.id r).
Proof.
  unfold clean_distribution_centers. intros H r Hr. invert_binds H. subst out.
  unwind Hr. cbn in *.
  rewrite str_strip_idempotent.
  close_rows.
Qed.

Lemma clean_distribution_centers_idempotent df out :
  clean_distribution_centers df = Ok out ->
  keys_numeric distribution_centers df ->
  clean_distribution_centers out = Ok out.
Proof.
  intros H Hnum.
  pose proof (clean_distribution_centers_rows df H) as Hrows.
  pose proof (clean_distribution_centers_id_unique H Hnum) as Hnd.
  unfold clean_distribution_centers. cbv zeta.
  rewrite (drop_duplicates_id idcell_eqb DistributionCenters.id
             idcell_eqb_eq out Hnd).
  fix_stages Hrows out.
  reflexivity.
Qed.

(** X20. Where the cleaning functions are idempotent: on a frame whose
    primary-key cells hold no text (any frame, for users) and whose cleaned
    form is not empty (or is that of distribution centers). *)
Lemma files_to_clean_idempotent (t : table_name) (df out : list (row_of t)) :
  files_to_clean t df = Ok out ->
  (t <> distribution_centers -> out <> []) ->
  (t <> users -> keys_numeric t df) ->
  files_to_clean t out = Ok out.
Proof.
  intros H Hne Hnum. destruct t; cbn in *.
  - eapply clean_users_idempotent; [exact H | apply Hne; discriminate].
  - eapply clean_products_idempotent;
      [exact H | apply Hne; discriminate | apply Hnum; discriminate].
  - eapply clean_orders_idempotent;
      [exact H | apply Hne; discriminate | apply Hnum; discriminate].
  - eapply clean_order_items_idempotent;
      [exact H | apply Hne; discriminate | apply Hnum; discriminate].
  - eapply clean_inventory_items_idempotent;
      [exact H | apply Hne; discriminate | apply Hnum; discriminate].
  - eapply clean_events_idempotent;
      [exact H | apply Hne; discriminate | apply Hnum; discriminate].
  - eapply clean_distribution_centers_idempotent;
      [exact H | apply Hnum; discriminate].
Qed.

End WithParsers.
End IdempotenceFacts.

Module WorkedValidator.
Import BigintValidator ValidatorFacts.
Local Open Scope string_scope.


End WorkedValidator.

(** ** The referential-integrity stage as a whole *)

Module ReferentialFacts.
Import Pandas DataCleaning Pipeline Tables Spec Terms ListFacts.
Import CleaningFacts PipelineFacts IntegrityFacts.
Local Open Scope string_scope.

Lemma filter_idem {A : Type} (f : A -> bool) (l : list A) :
  filter f (filter f l) = filter f l.
Proof.
  rewrite filter_filter. apply filter_ext. intros x. destruct (f x); reflexivity.
Qed.

Lemma filter_negb_filter {A : Type} (f : A -> bool) (l : list A) :
  filter (fun x => negb (f x)) (filter f l) = [].
Proof.
  rewrite filter_filter. induction l as [| x xs IH]; cbn; [reflexivity |].
  destruct (f x); cbn; exact IH.
Qed.

Lemma to_csv_unless_empty_cases {A : Type} (old : option (list A))
      (df : list A) :
  to_csv_unless_empty old df = old
  \/ exists l, to_csv_unless_empty old df = Some l /\ l <> [].
Proof.
  destruct df as [| x df]; [left; reflexivity |].
  right. exists (x :: df). split; [reflexivity | discriminate].
Qed.

(** The files each block leaves alone. *)
Lemma ri_orders_files (st : state) (t : table_name) :
  t <> orders ->
  file_of t (st_processed (ri_orders st)) = file_of t (st_processed st).
Proof.
  intros Ht. unfold ri_orders.
  destruct (users_csv (st_processed st)); [| reflexivity].
  destruct (orders_csv (st_processed st)); [| reflexivity].
  destruct t; try reflexivity. contradiction.
Qed.

Lemma ri_events_files (st : state) (t : table_name) :
  t <> events ->
  file_of t (st_processed (ri_events st)) = file_of t (st_processed st).
Proof.
  intros Ht. unfold ri_events.
  destruct (users_csv (st_processed st)); [| reflexivity].
  destruct (events_csv (st_processed st)); [| reflexivity].
  destruct t; try reflexivity. contradiction.
Qed.

Lemma ri_order_items_files (st : state) (t : table_name) :
  t <> order_items -> t <> events ->
  file_of t (st_processed (ri_order_items st)) = file_of t (st_processed st).
Proof.
  intros Ht Ht'. unfold ri_order_items.
  destruct (orders_csv (st_processed st)); [| reflexivity].
  destruct (products_csv (st_processed st)); [| reflexivity].
  destruct (order_items_csv (st_processed st)); [| reflexivity].
  cbn. rewrite ri_events_files by exact Ht'.
  destruct t; try reflexivity. contradiction.
Qed.

(** X1. In the orders block, with the users and orders files present: an
    order is kept exactly when its user_id is among the ids of the users
    file (pandas [isin]: a null matches a null); an order that is not kept
    is written, with its order_id and user_id, to [orphan_orders.csv]; and
    every summary row of the orders table records the number of orders
    kept. *)
Theorem orders_retention (st : state)
        (users_df : list Users.row) (orders_df : list Orders.row)
        (r : Orders.row) :
  users_csv (st_processed st) = Some users_df ->
  orders_csv (st_processed st) = Some orders_df ->
  In r orders_df ->
  exists kept,
    orders_csv (st_processed (ri_orders st)) = Some kept
    /\ (In r kept <-> In (Orders.user_id r) (map Users.id users_df))
    /\ (~ In r kept ->
        exists vs,
          orphan_orders (st_violations (ri_orders st)) = Some vs
          /\ In (Orders.order_id r, Orders.user_id r) vs)
    /\ (forall row, In row (st_summary (ri_orders st)) ->
                    table row = "orders" ->
                    clean_rows_after_RI row = Some (List.length kept)).
Proof.
  intros Hu Ho Hr. unfold ri_orders. rewrite Hu, Ho. cbn.
  eexists. split; [reflexivity |]. split; [| split].
  - rewrite filter_In, isin_In. tauto.
  - intros Hdrop. apply to_csv_unless_empty_In.
    apply (in_map (fun r => (Orders.order_id r, Orders.user_id r))).
    apply filter_In. split; [exact Hr |].
    apply negb_true_iff. apply not_true_is_false.
    intros Hm. apply Hdrop. apply filter_In. split; [exact Hr | exact Hm].
  - intros row Hin Ht.
    apply set_after_RI_In in Hin as (row0 & _ & Ht0 & _ & _ & Hif).
    rewrite <- Ht0, Ht in Hif. exact Hif.
Qed.


Lemma set_after_RI_again (name : string) (n : nat) (s : list summary_row) :
  (forall row, In row s -> table row = name ->
               clean_rows_after_RI row = Some n) ->
  set_after_RI name n s = s.
Proof.
  intros H. unfold set_after_RI. apply IdempotenceFacts.map_fixed.
  intros row Hin. destruct (String.eqb_spec (table row) name) as [E | E];
    [| reflexivity].
  specialize (H row Hin E). destruct row; cbn in *. congruence.
Qed.


Lemma filter_none {A : Type} (g f : A -> bool) (l : list A) :
  (forall x, f x = true -> g x = false) -> filter g (filter f l) = [].
Proof.
  intros H. rewrite filter_filter.
  induction l as [| x xs IH]; cbn; [reflexivity |].
  destruct (f x) eqn:E; cbn; [rewrite (H x E) |]; exact IH.
Qed.

Ltac passes_mask :=
  let x := fresh "x" in
  let Hx := fresh "Hx" in
  intros x Hx;
  first [ rewrite Hx; reflexivity
        | apply andb_true_iff in Hx as [? ?];
          match goal with
          | E : ?b = true |- negb ?b = false => rewrite E; reflexivity
          end ].

Ltac same_summary_row a b c :=
  let row := fresh "row" in
  let E1 := fresh "E" in
  let E2 := fresh "E" in
  let E3 := fresh "E" in
  unfold set_after_RI; rewrite !map_map; apply map_ext; intros row;
  destruct (String.eqb (table row) a) eqn:E1;
  destruct (String.eqb (table row) b) eqn:E2;
  destruct (String.eqb (table row) c) eqn:E3;
  repeat (progress
            (cbn [table original_rows clean_rows removed_rows
                  clean_rows_after_RI];
             rewrite ?E1, ?E2, ?E3));
  first [reflexivity | congruence].

(** Setting [clean_rows_after_RI] a second time, table by table in the
    same order and to the same numbers, changes nothing. *)
Lemma set_after_RI_settles_1 (a : string) (n : nat) (s : list summary_row) :
  set_after_RI a n (set_after_RI a n s) = set_after_RI a n s.
Proof. same_summary_row a a a. Qed.

Lemma set_after_RI_absorb_2 (a b : string) (n m : nat)
      (s : list summary_row) :
  set_after_RI b m (set_after_RI a n (set_after_RI b m s))
  = set_after_RI b m (set_after_RI a n s).
Proof. same_summary_row a b b. Qed.

Lemma set_after_RI_absorb_3 (a b c : string) (n m k : nat)
      (s : list summary_row) :
  set_after_RI c k (set_after_RI b m (set_after_RI a n (set_after_RI c k s)))
  = set_after_RI c k (set_after_RI b m (set_after_RI a n s)).
Proof. same_summary_row a b c. Qed.

Lemma set_after_RI_settles_2 (a b : string) (n m : nat)
      (s : list summary_row) :
  set_after_RI b m (set_after_RI a n (set_after_RI b m (set_after_RI a n s)))
  = set_after_RI b m (set_after_RI a n s).
Proof. rewrite set_after_RI_absorb_2, set_after_RI_settles_1. reflexivity. Qed.

Lemma set_after_RI_settles_3 (a b c : string) (n m k : nat)
      (s : list summary_row) :
  set_after_RI c k
    (set_after_RI b m
       (set_after_RI a n
          (set_after_RI c k (set_after_RI b m (set_after_RI a n s)))))
  = set_after_RI c k (set_after_RI b m (set_after_RI a n s)).
Proof.
  rewrite set_after_RI_absorb_3, set_after_RI_absorb_2, set_after_RI_settles_1.
  reflexivity.
Qed.

(** X3. The referential-integrity stage of [main] settles in one pass: run on
    the state it leaves, it changes no cleaned file, no violations file
    and no summary row. *)
Theorem ri_stage_settles (st : state) :
  ri_order_items (ri_orders (ri_order_items (ri_orders st)))
  = ri_order_items (ri_orders st).
Proof.
  destruct st as [[u p o i inv e dc] v s].
  destruct u as [u |], o as [o |], p as [p |], i as [i |], e as [e |];
    cbn -[set_after_RI]; try reflexivity.
  all: rewrite ?filter_idem.
  all: repeat rewrite filter_none by passes_mask.
  all: cbn [map to_csv_unless_empty].
  all: try reflexivity.
  all: f_equal.
  all: first [ apply set_after_RI_settles_3
             | apply set_after_RI_settles_2
             | apply set_after_RI_settles_1 ].
Qed.


Section WithParsers.
Context {P : Parsers}.

(** What a completed run of [main] is made of. *)
Lemma main_inv (fs fs' : filesystem) (s : list summary_row) :
  main fs = Ok (fs', s) ->
  exists st,
    clean_all fs = Ok st
    /\ raw fs' = raw fs
    /\ processed fs' = st_processed (ri_order_items (ri_orders st))
    /\ violations fs' = st_violations (ri_order_items (ri_orders st))
    /\ s = st_summary (ri_order_items (ri_orders st))
    /\ s <> [].
Proof.
  unfold main. intros H. apply bind_Ok_inv in H as (st & Hclean & H).
  exists st. split; [exact Hclean |].
  destruct (st_summary (ri_order_items (ri_orders st))) eqn:Hs;
    [discriminate |].
  injection H as <- <-. repeat split. discriminate.
Qed.

(** The cleaning loop writes the output of each cleaning function and
    leaves the other cleaned files, and the violations, as they were. *)
Lemma clean_all_files (fs : filesystem) (st : state) :
  clean_all fs = Ok st ->
  st_violations st = violations fs
  /\ forall t,
      (file_of t (raw fs) = None ->
       file_of t (st_processed st) = file_of t (processed fs))
      /\ (forall df, file_of t (raw fs) = Some df ->
                     exists out, files_to_clean t df = Ok out
                                 /\ file_of t (st_processed st) = Some out).
Proof.
  unfold clean_all. intros H.
  repeat match type of H with
         | bind _ _ = Ok _ =>
             let x := fresh "x" in
             let Hx := fresh "Hfile" in
             apply bind_Ok_inv in H as (x & Hx & H);
             destruct x as [? ?];
             apply clean_file_inv in Hx as (? & ?)
         end.
  injection H as <-. split; [reflexivity |].
  intros t. destruct t; cbn [file_of st_processed files_to_clean
                               users_csv products_csv orders_csv
                               order_items_csv inventory_items_csv
                               events_csv distribution_centers_csv].
  all: split;
    [ intros Hraw;
      match goal with
      | Hn : ?r = None -> _ /\ _, Hraw : ?r = None |- _ =>
          destruct (Hn Hraw) as [-> _]; reflexivity
      end
    | intros df Hraw;
      match goal with
      | Hs : forall d, ?r = Some d -> _, Hraw : ?r = Some _ |- _ =>
          destruct (Hs df Hraw) as (out & Hc & -> & _);
          exists out; split; [exact Hc | reflexivity]
      end ].
Qed.

(** X4. When [main] completes and leaves a users file and an orders file, no
    order of the orders file refers to a user that is not in the users
    file. *)
Theorem main_leaves_no_orphan_order (fs fs' : filesystem)
        (s : list summary_row)
        (users_df : list Users.row) (orders_df : list Orders.row) :
  main fs = Ok (fs', s) ->
  users_csv (processed fs') = Some users_df ->
  orders_csv (processed fs') = Some orders_df ->
  forall o, In o orders_df ->
            In (Orders.user_id o) (map Users.id users_df).
Proof.
  intros Hmain Hu Ho.
  apply main_inv in Hmain as (st & _ & _ & Hp & _).
  rewrite Hp in Hu, Ho.
  change (file_of users (st_processed (ri_order_items (ri_orders st)))
          = Some users_df) in Hu.
  change (file_of orders (st_processed (ri_order_items (ri_orders st)))
          = Some orders_df) in Ho.
  rewrite ri_order_items_files in Hu, Ho by discriminate.
  rewrite ri_orders_files in Hu by discriminate.
  cbn [file_of] in Hu, Ho. unfold ri_orders in Ho. rewrite Hu in Ho.
  destruct (orders_csv (st_processed st)) as [orders0 |] eqn:Ho0.
  - cbn in Ho. injection Ho as <-. intros o Hin.
    apply filter_In in Hin as [_ Hin]. apply isin_In. exact Hin.
  - rewrite Ho0 in Ho. discriminate Ho.
Qed.

(** X5. When [main] completes and leaves an orders file, a products file and
    an order_items file, every order item refers to an order of the orders
    file and to a product of the products file. *)
Theorem main_leaves_no_orphan_order_item (fs fs' : filesystem)
        (s : list summary_row)
        (orders_df : list Orders.row) (prods_df : list Products.row)
        (oitems_df : list OrderItems.row) :
  main fs = Ok (fs', s) ->
  orders_csv (processed fs') = Some orders_df ->
  products_csv (processed fs') = Some prods_df ->
  order_items_csv (processed fs') = Some oitems_df ->
  forall i, In i oitems_df ->
            In (OrderItems.order_id i) (map Orders.order_id orders_df)
            /\ In (OrderItems.product_id i) (map Products.id prods_df).
Proof.
  intros Hmain Ho Hp Hi.
  apply main_inv in Hmain as (st & _ & _ & Hfs & _).
  rewrite Hfs in Ho, Hp, Hi.
  change (file_of orders (st_processed (ri_order_items (ri_orders st)))
          = Some orders_df) in Ho.
  change (file_of products (st_processed (ri_order_items (ri_orders st)))
          = Some prods_df) in Hp.
  rewrite ri_order_items_files in Ho, Hp by discriminate.
  cbn [file_of] in Ho, Hp.
  unfold ri_order_items in Hi. rewrite Ho, Hp in Hi.
  destruct (order_items_csv (st_processed (ri_orders st)))
    as [oitems0 |] eqn:Hi0.
  - cbn in Hi.
    match type of Hi with
    | context [ri_events ?x] =>
        destruct (ri_events_order_items x) as (E & _); rewrite E in Hi
    end.
    cbn in Hi. injection Hi as <-. intros i Hin.
    apply filter_In in Hin as [_ Hin]. apply andb_true_iff in Hin.
    rewrite !isin_In in Hin. exact Hin.
  - rewrite Hi0 in Hi. discriminate Hi.
Qed.

(** X6. When [main] completes and leaves the users, orders, products,
    order_items and events files, every event has a null user_id or
    refers to a user of the users file. *)
Theorem main_leaves_no_orphan_event (fs fs' : filesystem)
        (s : list summary_row)
        (users_df : list Users.row) (events_df : list Events.row) :
  main fs = Ok (fs', s) ->
  users_csv (processed fs') = Some users_df ->
  events_csv (processed fs') = Some events_df ->
  exists_ (orders_csv (processed fs')) = true ->
  exists_ (products_csv (processed fs')) = true ->
  exists_ (order_items_csv (processed fs')) = true ->
  forall e, In e events_df ->
            Events.user_id e = INull
            \/ In (Events.user_id e) (map Users.id users_df).
Proof.
  intros Hmain Hu He Ho Hp Hi.
  apply main_inv in Hmain as (st & _ & _ & Hfs & _).
  rewrite Hfs in Hu, He, Ho, Hp, Hi. clear Hfs.
  remember (ri_orders st) as st1 eqn:Hst1. clear Hst1.
  unfold ri_order_items in *.
  destruct (orders_csv (st_processed st1)) as [orders0 |] eqn:Ho0;
    [| rewrite Ho0 in Ho; discriminate Ho].
  destruct (products_csv (st_processed st1)) as [prods0 |] eqn:Hp0;
    [| rewrite Hp0 in Hp; discriminate Hp].
  destruct (order_items_csv (st_processed st1)) as [oitems0 |] eqn:Hi0;
    [| rewrite Hi0 in Hi; discriminate Hi].
  cbn in Hu, He. clear Ho Hp Hi.
  match type of He with
  | context [ri_events ?x] => remember x as st2 eqn:Hst2
  end.
  assert (Hu0 : users_csv (st_processed st2) = users_csv (st_processed st1))
    by (subst st2; reflexivity).
  assert (He0 : events_csv (st_processed st2) = events_csv (st_processed st1))
    by (subst st2; reflexivity).
  clear Hst2.
  change (file_of users (st_processed (ri_events st2)) = Some users_df) in Hu.
  rewrite ri_events_files in Hu by discriminate. cbn [file_of] in Hu.
  unfold ri_events in He. rewrite Hu in He.
  destruct (events_csv (st_processed st2)) as [events0 |] eqn:Hev.
  - cbn in He. injection He as <-. intros e Hin.
    apply filter_In in Hin as [_ Hin]. apply orb_true_iff in Hin.
    rewrite isin_In, unique_In, dropna_In in Hin.
    destruct Hin as [Hin | [Hin _]]; [left | right; exact Hin].
    destruct (Events.user_id e); [reflexivity | discriminate | discriminate].
  - rewrite Hev in He. discriminate He.
Qed.

(** X7. [main] never removes and never empties a violations file: after a
    run, each of the four files is as it was before the run or holds at
    least one row.  So the report of an earlier run stays in place when
    the check finds no orphan, or is skipped. *)
Theorem main_keeps_violation_files (fs fs' : filesystem)
        (s : list summary_row) :
  main fs = Ok (fs', s) ->
  (orphan_orders (violations fs') = orphan_orders (violations fs)
   \/ exists l, orphan_orders (violations fs') = Some l /\ l <> [])
  /\ (oi_missing_orders (violations fs') = oi_missing_orders (violations fs)
      \/ exists l, oi_missing_orders (violations fs') = Some l /\ l <> [])
  /\ (oi_missing_products (violations fs')
      = oi_missing_products (violations fs)
      \/ exists l, oi_missing_products (violations fs') = Some l /\ l <> [])
  /\ (orphan_events (violations fs') = orphan_events (violations fs)
      \/ exists l, orphan_events (violations fs') = Some l /\ l <> []).
Proof.
  intros Hmain.
  apply main_inv in Hmain as (st & Hclean & _ & _ & Hv & _).
  apply clean_all_files in Hclean as [Hv0 _].
  rewrite Hv, <- Hv0. clear.
  destruct st as [[u p o i inv e dc] v s].
  destruct u as [u |], o as [o |], p as [p |], i as [i |], e as [e |];
    cbn; repeat split; try (left; reflexivity);
    apply to_csv_unless_empty_cases.
Qed.

(** X8. The referential-integrity stage rewrites the orders, order_items and
    events files only.  When [main] completes, the users, products,
    inventory_items and distribution_centers files are what the cleaning
    function returned for the raw file, or, without a raw file, what was
    in [data/processed] before the run. *)
Theorem main_leaves_other_tables_as_cleaned (fs fs' : filesystem)
        (s : list summary_row) (t : table_name) :
  main fs = Ok (fs', s) ->
  In t [users; products; inventory_items; distribution_centers] ->
  match file_of t (raw fs) with
  | Some df =>
      exists out,
        files_to_clean t df = Ok out
        /\ file_of t (processed fs') = Some out
  | None => file_of t (processed fs') = file_of t (processed fs)
  end.
Proof.
  intros Hmain Ht.
  apply main_inv in Hmain as (st & Hclean & _ & Hfs & _).
  apply clean_all_files in Hclean as [_ Hfiles].
  destruct (Hfiles t) as [Hnone Hsome]. rewrite Hfs.
  assert (Hsame : file_of t (st_processed (ri_order_items (ri_orders st)))
                  = file_of t (st_processed st)).
  { rewrite ri_order_items_files, ri_orders_files;
      [reflexivity | | |];
      intros ->; cbn in Ht; intuition discriminate. }
  rewrite Hsame.
  destruct (file_of t (raw fs)) as [df |].
  - apply Hsome. reflexivity.
  - apply Hnone. reflexivity.
Qed.

Lemma ri_summary_tables (st : state) :
  map table (st_summary (ri_order_items (ri_orders st)))
  = map table (st_summary st).
Proof.
  destruct st as [[u p o i inv e dc] v s].
  destruct u as [u |], o as [o |], p as [p |], i as [i |], e as [e |];
    cbn -[set_after_RI]; rewrite ?set_after_RI_tables; reflexivity.
Qed.

(** X9. [cleaning_summary] has one row for each raw file that exists, in the
    order of [files_to_clean], and no other row. *)
Theorem summary_lists_the_raw_files (fs fs' : filesystem)
        (s : list summary_row) :
  main fs = Ok (fs', s) ->
  map table s = map name_of (filter (has_raw fs) all_tables).
Proof.
  intros Hmain.
  apply main_inv in Hmain as (st & Hclean & _ & _ & _ & -> & _).
  rewrite ri_summary_tables.
  unfold clean_all in Hclean.
  repeat match type of Hclean with
         | bind _ _ = Ok _ =>
             let x := fresh "x" in
             let Hx := fresh "Hfile" in
             apply bind_Ok_inv in Hclean as (x & Hx & Hclean);
             destruct x as [? ?];
             apply clean_file_inv in Hx as (? & ?)
         end.
  injection Hclean as <-. cbn [st_summary].
  unfold has_raw, all_tables. cbn [filter file_of].
  repeat match goal with
         | Hn : ?r = None -> _ /\ _,
           Hs : forall d, ?r = Some d -> _ |- _ =>
             destruct r as [? |];
             [ destruct (Hs _ eq_refl) as (? & _ & _ & ->)
             | destruct (Hn eq_refl) as [_ ->] ];
             clear Hn Hs
         end.
  all: cbn [exists_ map name_of]; rewrite ?map_app; cbn; reflexivity.
Qed.

(** X10. Without any raw file [main] raises [KeyError]: the summary frame has
    no column, and the final statistics index it by column. *)
Theorem main_raises_without_raw_files (fs : filesystem) :
  (forall t, file_of t (raw fs) = None) ->
  main fs = Raise KeyError.
Proof.
  intros Hraw. unfold main.
  assert (Hc : clean_all fs
               = Ok {| st_processed := processed fs;
                       st_violations := violations fs;
                       st_summary := [] |}).
  { unfold clean_all.
    pose proof (Hraw users) as H1. pose proof (Hraw products) as H2.
    pose proof (Hraw orders) as H3. pose proof (Hraw order_items) as H4.
    pose proof (Hraw inventory_items) as H5. pose proof (Hraw events) as H6.
    pose proof (Hraw distribution_centers) as H7. cbn in *.
    rewrite H1, H2, H3, H4, H5, H6, H7. cbn.
    destruct (processed fs). reflexivity. }
  rewrite Hc. cbn [bind].
  match goal with
  | |- context [ri_order_items (ri_orders ?x)] =>
      pose proof (ri_summary_tables x) as Hs
  end.
  cbn [st_summary map] in Hs. apply map_eq_nil in Hs. rewrite Hs.
  reflexivity.
Qed.

(** X11. [main] does not complete when a raw file other than
    [distribution_centers.csv] has no row: the report line of its cleaning
    function divides by the number of rows. *)
Theorem main_needs_rows (fs fs' : filesystem) (s : list summary_row)
        (t : table_name) (df : list (row_of t)) :
  main fs = Ok (fs', s) ->
  file_of t (raw fs) = Some df ->
  t <> distribution_centers ->
  df <> [].
Proof.
  intros Hmain Hraw Ht ->.
  apply main_inv in Hmain as (st & Hclean & _).
  apply clean_all_files in Hclean as [_ Hfiles].
  destruct (Hfiles t) as [_ Hsome].
  destruct (Hsome [] Hraw) as (out & Hc & _).
  destruct t; cbn in Hc; try discriminate Hc. apply Ht. reflexivity.
Qed.


Lemma set_after_RI_other (name : string) (n : nat) (s : list summary_row)
      (row : summary_row) :
  In row (set_after_RI name n s) -> table row <> name -> In row s.
Proof.
  intros Hin Hname.
  apply set_after_RI_In in Hin as (row0 & Hin0 & Ht & _ & _ & Hif).
  destruct (String.eqb_spec (table row0) name) as [E | _].
  - exfalso. apply Hname. rewrite Ht. exact E.
  - subst row. exact Hin0.
Qed.

Lemma ri_summary_other (st : state) (row : summary_row) :
  In row (st_summary (ri_order_items (ri_orders st))) ->
  table row <> "orders" -> table row <> "order_items" ->
  table row <> "events" ->
  In row (st_summary st).
Proof.
  intros Hin H1 H2 H3.
  destruct st as [[u p o i inv e dc] v s].
  destruct u as [u |], o as [o |], p as [p |], i as [i |], e as [e |];
    cbn -[set_after_RI] in Hin |- *;
    repeat match type of Hin with
           | In _ (set_after_RI _ _ _) =>
               apply set_after_RI_other in Hin; [| assumption]
           end;
    exact Hin.
Qed.

(** X30. [clean_rows_after_RI] is set for the tables a
    referential-integrity block rewrites, and for no other: when [main]
    completes, every summary row of users, products, inventory_items and
    distribution_centers has no [clean_rows_after_RI]. *)
Theorem summary_after_RI_only_for_checked_tables (fs fs' : filesystem)
        (s : list summary_row) (row : summary_row) :
  main fs = Ok (fs', s) ->
  In row s ->
  In (table row)
     ["users"; "products"; "inventory_items"; "distribution_centers"] ->
  clean_rows_after_RI row = None.
Proof.
  intros Hmain Hin Ht.
  apply main_inv in Hmain as (st & Hclean & _ & _ & _ & -> & _).
  apply ri_summary_other in Hin;
    try (intros E; rewrite E in Ht; cbn in Ht; intuition discriminate).
  clear Ht. unfold clean_all in Hclean.
  repeat match type of Hclean with
         | bind _ _ = Ok _ =>
             let x := fresh "x" in
             let Hx := fresh "Hfile" in
             apply bind_Ok_inv in Hclean as (x & Hx & Hclean);
             destruct x as [? ?];
             apply clean_file_rows in Hx as (Hx & _ & _)
         end.
  injection Hclean as <-. cbn [st_summary] in Hin.
  repeat match goal with
         | Hr : forall row, In row ?b -> In row ?a \/ _,
           Hin : In ?row ?b |- _ =>
             destruct (Hr row Hin) as [? | (_ & Hnone & _)];
             clear Hin; [| exact Hnone]
         end.
  match goal with H : In _ [] |- _ => destruct H end.
Qed.


End WithParsers.
End ReferentialFacts.

(** ** The referential-integrity stage on the worked data *)

Module WorkedReferential.
Import Pandas DataCleaning Pipeline Tables Spec Terms Scenarios.
Import ReferentialFacts.
Local Open Scope string_scope.

(** Order 101 belongs to user 2, who is not in the users file. *)
Lemma orders_retention_witness :
  let st := {| st_processed :=
                 {| users_csv := Some [user 1 "ann@example.org" 30];
                    products_csv := None;
                    orders_csv := Some [order 100 1 NaT NaT;
                                        order 101 2 NaT NaT];
                    order_items_csv := None;
                    inventory_items_csv := None;
                    events_csv := None;
                    distribution_centers_csv := None |};
               st_violations := no_violations;
               st_summary := [] |} in
  exists kept,
    orders_csv (st_processed (ri_orders st)) = Some kept
    /\ ~ In (order 101 2 NaT NaT) kept
    /\ exists vs,
        orphan_orders (st_violations (ri_orders st)) = Some vs
        /\ In (IInt 101, IInt 2) vs.
Proof.
  intros st.
  destruct (@orders_retention st
              [user 1 "ann@example.org" 30]
              [order 100 1 NaT NaT; order 101 2 NaT NaT]
              (order 101 2 NaT NaT)
              eq_refl eq_refl (or_intror (or_introl eq_refl)))
    as (kept & Hkept & Hiff & Hdrop & _).
  assert (Hno : ~ In (order 101 2 NaT NaT) kept).
  { intros Hin. apply Hiff in Hin. cbn in Hin.
    destruct Hin as [H | []]. discriminate H. }
  exists kept. split; [exact Hkept |]. split; [exact Hno |].
  apply Hdrop. exact Hno.
Defined.

(** The five-table run leaves user 1 and order 100. *)
Lemma main_leaves_no_orphan_order_witness :
  exists fs' s users_df orders_df,
    main (P := Demo.parsers) five_tables = Ok (fs', s)
    /\ users_csv (processed fs') = Some users_df
    /\ orders_csv (processed fs') = Some orders_df
    /\ map Orders.order_id orders_df = [IInt 100]
    /\ forall o, In o orders_df ->
                 In (Orders.user_id o) (map Users.id users_df).
Proof.
  do 4 eexists. split; [vm_compute; reflexivity |].
  split; [reflexivity |]. split; [reflexivity |]. split; [reflexivity |].
  eapply (@main_leaves_no_orphan_order Demo.parsers five_tables).
  - vm_compute. reflexivity.
  - reflexivity.
  - reflexivity.
Defined.

(** Of the three order items of the five-table run only item 1000 has
    both its order and its product. *)
Lemma main_leaves_no_orphan_order_item_witness :
  exists fs' s orders_df prods_df oitems_df,
    main (P := Demo.parsers) five_tables = Ok (fs', s)
    /\ orders_csv (processed fs') = Some orders_df
    /\ products_csv (processed fs') = Some prods_df
    /\ order_items_csv (processed fs') = Some oitems_df
    /\ map OrderItems.id oitems_df = [IInt 1000]
    /\ forall i, In i oitems_df ->
                 In (OrderItems.order_id i) (map Orders.order_id orders_df)
                 /\ In (OrderItems.product_id i) (map Products.id prods_df).
Proof.
  do 5 eexists. split; [vm_compute; reflexivity |].
  split; [reflexivity |]. split; [reflexivity |]. split; [reflexivity |].
  split; [reflexivity |].
  eapply (@main_leaves_no_orphan_order_item Demo.parsers five_tables).
  - vm_compute. reflexivity.
  - reflexivity.
  - reflexivity.
  - reflexivity.
Defined.

(** The events of the five-table run: event 11, of user 99, is gone. *)
Lemma main_leaves_no_orphan_event_witness :
  exists fs' s users_df events_df,
    main (P := Demo.parsers) five_tables = Ok (fs', s)
    /\ users_csv (processed fs') = Some users_df
    /\ events_csv (processed fs') = Some events_df
    /\ map Events.id events_df = [IInt 10; IInt 12]
    /\ forall e, In e events_df ->
                 Events.user_id e = INull
                 \/ In (Events.user_id e) (map Users.id users_df).
Proof.
  do 4 eexists. split; [vm_compute; reflexivity |].
  split; [reflexivity |]. split; [reflexivity |]. split; [reflexivity |].
  eapply (@main_leaves_no_orphan_event Demo.parsers five_tables).
  - vm_compute. reflexivity.
  - reflexivity.
  - reflexivity.
  - reflexivity.
  - reflexivity.
  - reflexivity.
Defined.

(** A second run on users and events only: the report of orphan events
    of an earlier run is still there afterwards. *)
Lemma main_keeps_violation_files_witness :
  exists fs' s,
    main (P := Demo.parsers) stale_report = Ok (fs', s)
    /\ (orphan_events (violations fs')
        = Some [(IInt 3, IInt 4, Timestamp 0)]
        \/ exists l, orphan_events (violations fs') = Some l /\ l <> []).
Proof.
  do 2 eexists. split; [vm_compute; reflexivity |].
  eapply (@main_keeps_violation_files Demo.parsers stale_report).
  vm_compute. reflexivity.
Defined.

(** The products of the five-table run: the file is what
    [clean_products] returned. *)
Lemma main_leaves_other_tables_as_cleaned_witness :
  exists fs' s out,
    main (P := Demo.parsers) five_tables = Ok (fs', s)
    /\ files_to_clean (P := Demo.parsers) products
                      [product 7 ten ten; product 8 ten five] = Ok out
    /\ file_of products (processed fs') = Some out.
Proof.
  assert (Hmain : exists fs' s,
             main (P := Demo.parsers) five_tables = Ok (fs', s))
    by (do 2 eexists; vm_compute; reflexivity).
  destruct Hmain as (fs' & s & Hmain).
  destruct (@main_leaves_other_tables_as_cleaned
              Demo.parsers five_tables fs' s products Hmain
              (or_intror (or_introl eq_refl)))
    as (out & Hc & Hfile).
  exists fs', s, out. split; [exact Hmain |]. split; [exact Hc | exact Hfile].
Defined.

(** Five raw files, five summary rows. *)
Lemma summary_lists_the_raw_files_witness :
  exists fs' s,
    main (P := Demo.parsers) five_tables = Ok (fs', s)
    /\ map table s = ["users"; "products"; "orders"; "order_items"; "events"].
Proof.
  do 2 eexists. split; [vm_compute; reflexivity |].
  eapply (@summary_lists_the_raw_files Demo.parsers five_tables).
  vm_compute. reflexivity.
Defined.

(** Cleaned files of an earlier run and no raw file. *)
Lemma main_raises_without_raw_files_witness :
  main (P := Demo.parsers)
       {| raw := no_files;
          processed := raw five_tables;
          violations := no_violations |}
  = Raise KeyError.
Proof.
  apply (@main_raises_without_raw_files Demo.parsers).
  intros t. destruct t; reflexivity.
Defined.

(** The users file of the five-table run. *)
Lemma main_needs_rows_witness :
  exists fs' s,
    main (P := Demo.parsers) five_tables = Ok (fs', s)
    /\ [user 1 "ann@example.org" 30; user 2 "kid@example.org" 17] <> [].
Proof.
  do 2 eexists. split; [vm_compute; reflexivity |].
  eapply (@main_needs_rows Demo.parsers five_tables _ _ users).
  - vm_compute. reflexivity.
  - reflexivity.
  - discriminate.
Defined.

(** The users row of the five-table run. *)
Lemma summary_after_RI_only_for_checked_tables_witness :
  exists fs' s row,
    main (P := Demo.parsers) five_tables = Ok (fs', s)
    /\ In row s
    /\ table row = "users"
    /\ clean_rows_after_RI row = None.
Proof.
  do 3 eexists. split; [vm_compute; reflexivity |].
  split; [left; reflexivity |]. split; [reflexivity |].
  eapply (@summary_after_RI_only_for_checked_tables Demo.parsers five_tables).
  - vm_compute. reflexivity.
  - left. reflexivity.
  - left. reflexivity.
Defined.


End WorkedReferential.

(** ** What the cleaning functions guarantee of their output *)

Module OutputFacts.
Import Pandas DataCleaning Tables Spec Terms ListFacts StrFacts.
Import CleaningFacts IdempotenceFacts.
Local Open Scope string_scope.

Lemma title_strip_fixed (s : string) :
  Str.title (Str.strip s) = s -> Str.strip s = s /\ Str.title s = s.
Proof.
  intros H. assert (Hs : Str.strip s = s).
  { rewrite <- H at 1. rewrite strip_title_strip. exact H. }
  split; [exact Hs |]. rewrite <- Hs at 1. exact H.
Qed.

Lemma str_strip_fixed (c : text) : str_strip c = c -> trimmed c.
Proof. intros H s ->. cbn in H. injection H as H. exact H. Qed.

Lemma str_title_strip_fixed (c : text) :
  str_title (str_strip c) = c -> trimmed c /\ title_cased c.
Proof.
  intros H. split; intros s ->; cbn in H; injection H as H;
    apply title_strip_fixed in H; tauto.
Qed.

Lemma fillna_fixed (v : string) (c : text) : fillna v c = c -> filled c = true.
Proof. destruct c; [reflexivity | discriminate]. Qed.

Lemma float_ge_Z_at_least (c : option float64) (z : Z) :
  float_ge_Z c z = true -> at_least_Z c z.
Proof.
  destruct c as [f |]; [| discriminate]. cbn. intros H.
  exists f. split; [reflexivity |]. intros E. rewrite E in H. discriminate H.
Qed.

Lemma float_ge_at_least (a b : option float64) :
  float_ge a b = true -> at_least a b.
Proof.
  destruct a as [x |], b as [y |]; try discriminate. cbn. intros H.
  exists x, y. repeat split. intros E. rewrite E in H. discriminate H.
Qed.

Lemma text_isin_In (c : text) (valid : list string) :
  text_isin c valid = true -> exists s, c = Some s /\ In s valid.
Proof.
  destruct c as [s |]; [| discriminate]. cbn. intros H.
  apply existsb_exists in H as (x & Hin & E). apply String.eqb_eq in E.
  subst x. exists s. split; [reflexivity | exact Hin].
Qed.

Section WithParsers.
Context {P : Parsers}.

Lemma to_Int64_fixed_numeric (c : idcell) :
  to_Int64 c = Ok c -> is_numeric c = true.
Proof.
  destruct c as [| z | s]; [reflexivity | reflexivity |]. cbn.
  destruct (to_numeric_str s) as [[n | [neg | x]] |]; try discriminate.
  destruct (is_Eq _); discriminate.
Qed.

Lemma to_datetime_fixed_parsed (c : tscell) :
  to_datetime c = c -> parsed c = true.
Proof.
  destruct c as [| s | t]; [reflexivity | | reflexivity]. cbn.
  destruct (to_datetime_str s); discriminate.
Qed.

Lemma parsed_notna (c : tscell) :
  to_datetime c = c -> ts_notna c = true -> exists t, c = Timestamp t.
Proof.
  intros H1 H2. apply to_datetime_fixed_parsed in H1.
  destruct c as [| s | t]; try discriminate. exists t. reflexivity.
Qed.

(** X12. Every user [clean_users] returns is at least 18, has an email that
    matches [EMAIL_RE] and a parsed created_at; the city is filled and
    trimmed, first name, last name and country are trimmed and in title
    case, and the id is not text. *)
Theorem users_output_valid (df out : list Users.row) (r : Users.row) :
  clean_users df = Ok out ->
  In r out ->
  (exists a, Users.age r = Some a /\ (18 <= a)%Z)
  /\ (exists e, Users.email r = Some e /\ EMAIL_RE e = true)
  /\ (exists t, Users.created_at r = Timestamp t)
  /\ filled (Users.city r) = true /\ trimmed (Users.city r)
  /\ (trimmed (Users.first_name r) /\ title_cased (Users.first_name r))
  /\ (trimmed (Users.last_name r) /\ title_cased (Users.last_name r))
  /\ (trimmed (Users.country r) /\ title_cased (Users.country r))
  /\ is_numeric (Users.id r) = true.
Proof.
  intros Hc Hr.
  destruct (@clean_users_rows P df out Hc r Hr)
    as (Hage & Hcity & Hfn & Hln & Hco & Hcs & Hem & Hdt & Hnn & Hid).
  split; [| split; [| split; [| split; [| split; [| split;
    [| split; [| split]]]]]]].
  - destruct (Users.age r) as [a |]; [| discriminate Hage].
    exists a. split; [reflexivity |]. apply Z.leb_le. exact Hage.
  - destruct (Users.email r) as [e |]; [| discriminate Hem].
    exists e. split; [reflexivity | exact Hem].
  - apply parsed_notna; assumption.
  - eapply fillna_fixed. exact Hcity.
  - apply str_strip_fixed. exact Hcs.
  - apply str_title_strip_fixed. exact Hfn.
  - apply str_title_strip_fixed. exact Hln.
  - apply str_title_strip_fixed. exact Hco.
  - apply to_Int64_fixed_numeric. exact Hid.
Qed.

(** X13. Every product [clean_products] returns has a cost that is a number
    not below zero and a retail price not below the cost; name, brand and
    category are filled and trimmed, the category is in title case, the
    department is trimmed, and the id is not text. *)
Theorem products_output_valid (df out : list Products.row)
        (r : Products.row) :
  clean_products df = Ok out ->
  In r out ->
  at_least_Z (Products.cost r) 0
  /\ at_least (Products.retail_price r) (Products.cost r)
  /\ (filled (Products.name r) = true /\ trimmed (Products.name r))
  /\ (filled (Products.brand r) = true /\ trimmed (Products.brand r))
  /\ (filled (Products.category r) = true /\ trimmed (Products.category r)
      /\ title_cased (Products.category r))
  /\ trimmed (Products.department r)
  /\ is_numeric (Products.id r) = true.
Proof.
  intros Hc Hr.
  destruct (@clean_products_rows P df out Hc r Hr)
    as (Hcost & Hprice & Hn & Hb & Hcat & Hns & Hbs & Hcs & Hd & Hid).
  split; [apply float_ge_Z_at_least; exact Hcost |].
  split; [apply float_ge_at_least; exact Hprice |].
  split; [split; [eapply fillna_fixed; exact Hn
                 | apply str_strip_fixed; exact Hns] |].
  split; [split; [eapply fillna_fixed; exact Hb
                 | apply str_strip_fixed; exact Hbs] |].
  split; [split; [eapply fillna_fixed; exact Hcat
                 | apply str_title_strip_fixed; exact Hcs] |].
  split; [apply str_strip_fixed; exact Hd |].
  apply to_Int64_fixed_numeric. exact Hid.
Qed.

(** X14. Every order item [clean_order_items] returns has a sale price that
    is a number not below zero and one of the five valid statuses; its
    four timestamps are null or parsed, and none of its three identifiers
    is text. *)
Theorem order_items_output_valid (df out : list OrderItems.row)
        (r : OrderItems.row) :
  clean_order_items df = Ok out ->
  In r out ->
  at_least_Z (OrderItems.sale_price r) 0
  /\ (exists s, OrderItems.status r = Some s
                /\ In s ["Complete"; "Cancelled"; "Processing"; "Shipped";
                         "Returned"])
  /\ parsed (OrderItems.created_at r) = true
  /\ parsed (OrderItems.shipped_at r) = true
  /\ parsed (OrderItems.delivered_at r) = true
  /\ parsed (OrderItems.returned_at r) = true
  /\ is_numeric (OrderItems.id r) = true
  /\ is_numeric (OrderItems.order_id r) = true
  /\ is_numeric (OrderItems.product_id r) = true.
Proof.
  intros Hc Hr.
  destruct (@clean_order_items_rows P df out Hc r Hr)
    as (Hprice & H1 & H2 & H3 & H4 & Hst & Hid & Ho & Hp).
  split; [apply float_ge_Z_at_least; exact Hprice |].
  split; [apply text_isin_In in Hst; exact Hst |].
  repeat split;
    first [ apply to_datetime_fixed_parsed; assumption
          | apply to_Int64_fixed_numeric; assumption ].
Qed.

(** X15. Every inventory item [clean_inventory_items] returns has a cost and
    a retail price that are numbers not below zero; it is unsold
    (sold_at null) or sold at or after its creation, both timestamps
    parsed; product name and brand are filled, and its two identifiers
    are not text. *)
Theorem inventory_items_output_valid (df out : list InventoryItems.row)
        (r : InventoryItems.row) :
  clean_inventory_items df = Ok out ->
  In r out ->
  at_least_Z (InventoryItems.cost r) 0
  /\ at_least_Z (InventoryItems.product_retail_price r) 0
  /\ (InventoryItems.sold_at r = NaT
      \/ exists sold created,
          InventoryItems.sold_at r = Timestamp sold
          /\ InventoryItems.created_at r = Timestamp created
          /\ (created <= sold)%Z)
  /\ parsed (InventoryItems.created_at r) = true
  /\ filled (InventoryItems.product_name r) = true
  /\ filled (InventoryItems.product_brand r) = true
  /\ is_numeric (InventoryItems.id r) = true
  /\ is_numeric (InventoryItems.product_id r) = true.
Proof.
  intros Hc Hr.
  destruct (@clean_inventory_items_rows P df out Hc r Hr)
    as (Hcost & Hprice & Hcr & Hso & Hge & Hn & Hb & Hid & Hp).
  split; [apply float_ge_Z_at_least; exact Hcost |].
  split; [apply float_ge_Z_at_least; exact Hprice |].
  split.
  { destruct (InventoryItems.sold_at r) as [| s | sold];
      [left; reflexivity | discriminate Hge |].
    destruct (InventoryItems.created_at r) as [| s | created];
      try discriminate Hge.
    right. exists sold, created. repeat split. apply Z.leb_le. exact Hge. }
  split; [apply to_datetime_fixed_parsed; exact Hcr |].
  split; [eapply fillna_fixed; exact Hn |].
  split; [eapply fillna_fixed; exact Hb |].
  split; apply to_Int64_fixed_numeric; assumption.
Qed.

(** X16. Every event [clean_events] returns has a parsed created_at; its city
    is filled and has no two adjacent spaces, nor has any other text cell
    of the row; none of its three identifiers is text. *)
Theorem events_output_valid (df out : list Events.row) (r : Events.row) :
  clean_events df = Ok out ->
  In r out ->
  (exists t, Events.created_at r = Timestamp t)
  /\ (exists c, Events.city r = Some c /\ no_adjacent_blanks c = true)
  /\ (forall s, In (CStr s) (Events.extra r) -> no_adjacent_blanks s = true)
  /\ is_numeric (Events.id r) = true
  /\ is_numeric (Events.user_id r) = true
  /\ is_numeric (Events.sequence_number r) = true.
Proof.
  intros Hc Hr.
  destruct (@clean_events_rows P df out Hc r Hr)
    as (Hdt & Hnn & Hcity & Hid & Hu & Hs & Hrc & Hre).
  split; [apply parsed_notna; assumption |].
  split.
  { destruct (Events.city r) as [c |]; [| discriminate Hcity].
    exists c. split; [reflexivity |]. cbn in Hrc. injection Hrc as Hrc.
    rewrite <- Hrc. apply drop_runs_no_adjacent. }
  split.
  { intros s Hin. rewrite <- Hre in Hin.
    apply in_map_iff in Hin as (c & Hc' & _).
    destruct c as [| z | f | s0]; try discriminate Hc'.
    cbn in Hc'. injection Hc' as <-. apply drop_runs_no_adjacent. }
  repeat split; apply to_Int64_fixed_numeric; assumption.
Qed.

Lemma Forall2_map_l {A B C : Type} (g : A -> B) (R : B -> C -> Prop)
      (l : list A) (l' : list C) :
  Forall2 R (map g l) l' -> Forall2 (fun x y => R (g x) y) l l'.
Proof.
  revert l'. induction l as [| x xs IH]; cbn; intros l' H.
  - inversion H; subst. constructor.
  - inversion H as [| ? y ? ys Hy Hys]; subst.
    constructor; [exact Hy | apply IH; exact Hys].
Qed.


(** X18. [clean_products] returns, in the order of the input, one row for
    each row that is the first with its id, has a cost that is a number
    not below zero and a retail price not below the cost; the row
    returned has name, brand and category filled with their defaults and
    trimmed, the category title-cased, the department trimmed and the id
    cast to an integer. *)
Theorem clean_products_characterised (df out : list Products.row) :
  clean_products df = Ok out ->
  Forall2 cleaned_product
          (filter keep_product (drop_duplicates idcell_eqb Products.id df))
          out.
Proof.
  unfold clean_products. intros H. invert_binds H. subst out.
  apply mapM_Forall2 in Hstep.
  rewrite !map_map in Hstep. rewrite !filter_filter in Hstep.
  apply Forall2_map_l in Hstep. fold keep_product in Hstep.
  eapply Forall2_impl; [| exact Hstep].
  intros r r' Hr. cbv beta in Hr.
  apply bind_Ok_inv in Hr as (i & Hi & Hr). injection Hr as <-.
  exists i. split; [destruct r; exact Hi |]. destruct r. reflexivity.
Qed.
















(** X27. Every order [clean_orders] returns has one of the five valid
    statuses; its four timestamps are null or parsed; when shipped_at and
    created_at are both timestamps, shipped_at is not earlier, and
    likewise delivered_at and shipped_at; order_id and user_id are not
    text. *)
Theorem orders_output_valid (df out : list Orders.row) (r : Orders.row) :
  clean_orders df = Ok out ->
  In r out ->
  (exists s, Orders.status r = Some s
             /\ In s ["Completed"; "Cancelled"; "Processing"; "Shipped";
                      "Returned"])
  /\ parsed (Orders.created_at r) = true
  /\ parsed (Orders.shipped_at r) = true
  /\ parsed (Orders.delivered_at r) = true
  /\ parsed (Orders.returned_at r) = true
  /\ (forall created shipped,
         Orders.created_at r = Timestamp created ->
         Orders.shipped_at r = Timestamp shipped -> (created <= shipped)%Z)
  /\ (forall shipped delivered,
         Orders.shipped_at r = Timestamp shipped ->
         Orders.delivered_at r = Timestamp delivered ->
         (shipped <= delivered)%Z)
  /\ is_numeric (Orders.order_id r) = true
  /\ is_numeric (Orders.user_id r) = true.
Proof.
  intros Hc Hr.
  destruct (@clean_orders_stable P df out Hc r Hr)
    as (H1 & H2 & H3 & H4 & Hst & Hship & Hdel & Ho & Hu).
  split; [apply text_isin_In in Hst; exact Hst |].
  split; [apply to_datetime_fixed_parsed; exact H1 |].
  split; [apply to_datetime_fixed_parsed; exact H2 |].
  split; [apply to_datetime_fixed_parsed; exact H3 |].
  split; [apply to_datetime_fixed_parsed; exact H4 |].
  split.
  { intros created shipped Ec Es. rewrite Ec, Es in Hship. cbn in Hship.
    apply Z.leb_le. exact Hship. }
  split.
  { intros shipped delivered Es Ed. rewrite Es, Ed in Hdel. cbn in Hdel.
    apply Z.leb_le. exact Hdel. }
  split; apply to_Int64_fixed_numeric; assumption.
Qed.

(** X28. [clean_orders] does not look at returned_at: an order with
    status "Returned" and no return date, first with its order_id and
    with no shipping date, is kept, as a returned order without a return
    date.  (The docstring lists "Returned orders must have returned_at"
    among the business rules.) *)
Theorem clean_orders_keeps_returned_without_date
        (df out : list Orders.row) (r : Orders.row) :
  clean_orders df = Ok out ->
  In r (drop_duplicates idcell_eqb Orders.order_id df) ->
  Orders.status r = Some "Returned" ->
  to_datetime (Orders.returned_at r) = NaT ->
  to_datetime (Orders.shipped_at r) = NaT ->
  exists r',
    In r' out
    /\ cleaned_order r r'
    /\ Orders.status r' = Some "Returned"
    /\ Orders.returned_at r' = NaT.
Proof.
  intros Hc Hr Hst Hret Hship.
  pose proof (@clean_orders_rows P df out Hc) as Hrows.
  assert (Hkept : In r
            (filter (fun r => ts_isna (to_datetime (Orders.delivered_at r))
                              || ts_isna (to_datetime (Orders.shipped_at r))
                              || ts_ge (to_datetime (Orders.delivered_at r))
                                       (to_datetime (Orders.shipped_at r)))
               (filter (fun r => ts_isna (to_datetime (Orders.shipped_at r))
                                 || ts_isna (to_datetime (Orders.created_at r))
                                 || ts_ge (to_datetime (Orders.shipped_at r))
                                          (to_datetime (Orders.created_at r)))
                  (filter (fun r => text_isin (Orders.status r)
                                              orders_valid_statuses)
                     (drop_duplicates idcell_eqb Orders.order_id df))))).
  { repeat (apply filter_In; split); try exact Hr.
    - rewrite Hst. reflexivity.
    - rewrite Hship. reflexivity.
    - rewrite Hship. cbn. rewrite orb_true_r. reflexivity. }
  destruct (@Forall2_In_l _ _ _ _ _ Hrows r Hkept) as (r' & Hr' & Hclean).
  exists r'. split; [exact Hr' |]. split; [exact Hclean |].
  destruct (@cleaned_order_columns P r r' Hclean) as (_ & _ & _ & Hs & _).
  split; [rewrite Hs; exact Hst |].
  destruct Hclean as (o & u & _ & _ & ->). cbn. exact Hret.
Qed.

(** X29. [clean_distribution_centers] filters nothing: it returns, in
    the order of the input, one row for each row that is the first with
    its id, with the name trimmed and the id cast to an integer; and it
    returns on the empty frame, having no report line that divides. *)
Theorem clean_distribution_centers_characterised
        (df out : list DistributionCenters.row) :
  clean_distribution_centers [] = Ok []
  /\ (clean_distribution_centers df = Ok out ->
      Forall2 cleaned_center
              (drop_duplicates idcell_eqb DistributionCenters.id df) out).
Proof.
  split; [reflexivity |].
  unfold clean_distribution_centers. intros H. invert_binds H. subst out.
  apply mapM_Forall2 in Hstep. apply Forall2_map_l in Hstep.
  eapply Forall2_impl; [| exact Hstep].
  intros r r' Hr. cbv beta in Hr.
  apply bind_Ok_inv in Hr as (i & Hi & Hr). injection Hr as <-.
  exists i. split; [destruct r; exact Hi |]. destruct r. reflexivity.
Qed.


End WithParsers.
End OutputFacts.

(** ** The guarantees on the worked data *)

Module WorkedOutput.
Import Pandas DataCleaning Tables Spec Terms Scenarios OutputFacts.
Local Open Scope string_scope.

(** A user of 18 (scenario A) is kept. *)
Lemma users_output_valid_witness :
  exists out r,
    clean_users (P := Demo.parsers) [user 1 "ann@example.org" 18] = Ok out
    /\ In r out
    /\ (exists a, Users.age r = Some a /\ (18 <= a)%Z)
    /\ (exists e, Users.email r = Some e /\ EMAIL_RE e = true).
Proof.
  do 2 eexists. split; [vm_compute; reflexivity |].
  split; [left; reflexivity |].
  destruct (@users_output_valid Demo.parsers
              [user 1 "ann@example.org" 18] _ _
              ltac:(vm_compute; reflexivity) (or_introl eq_refl))
    as (Hage & Hemail & _).
  split; [exact Hage | exact Hemail].
Defined.

(** A product that retails at its cost (scenario B) is kept. *)
Lemma products_output_valid_witness :
  exists out r,
    clean_products (P := Demo.parsers) [product 7 ten ten] = Ok out
    /\ In r out
    /\ at_least (Products.retail_price r) (Products.cost r)
    /\ filled (Products.brand r) = true.
Proof.
  do 2 eexists. split; [vm_compute; reflexivity |].
  split; [left; reflexivity |].
  destruct (@products_output_valid Demo.parsers
              [product 7 ten ten] _ _
              ltac:(vm_compute; reflexivity) (or_introl eq_refl))
    as (_ & Hprice & _ & (Hbrand & _) & _).
  split; [exact Hprice | exact Hbrand].
Defined.

Lemma order_items_output_valid_witness :
  exists out r,
    clean_order_items (P := Demo.parsers) [order_item 1000 100 7] = Ok out
    /\ In r out
    /\ at_least_Z (OrderItems.sale_price r) 0
    /\ parsed (OrderItems.created_at r) = true.
Proof.
  do 2 eexists. split; [vm_compute; reflexivity |].
  split; [left; reflexivity |].
  destruct (@order_items_output_valid Demo.parsers
              [order_item 1000 100 7] _ _
              ltac:(vm_compute; reflexivity) (or_introl eq_refl))
    as (Hprice & _ & Hcreated & _).
  split; [exact Hprice | exact Hcreated].
Defined.

Lemma inventory_items_output_valid_witness :
  exists out r,
    clean_inventory_items (P := Demo.parsers) [inventory_item 1 7] = Ok out
    /\ In r out
    /\ (InventoryItems.sold_at r = NaT
        \/ exists sold created,
            InventoryItems.sold_at r = Timestamp sold
            /\ InventoryItems.created_at r = Timestamp created
            /\ (created <= sold)%Z)
    /\ filled (InventoryItems.product_name r) = true.
Proof.
  do 2 eexists. split; [vm_compute; reflexivity |].
  split; [left; reflexivity |].
  destruct (@inventory_items_output_valid Demo.parsers
              [inventory_item 1 7] _ _
              ltac:(vm_compute; reflexivity) (or_introl eq_refl))
    as (_ & _ & Hsold & _ & Hname & _).
  split; [exact Hsold | exact Hname].
Defined.

(** The city of the worked event has two adjacent spaces. *)
Lemma events_output_valid_witness :
  exists out r,
    clean_events (P := Demo.parsers) [event 10 (IInt 1)] = Ok out
    /\ In r out
    /\ (exists t, Events.created_at r = Timestamp t)
    /\ (exists c, Events.city r = Some c /\ no_adjacent_blanks c = true).
Proof.
  do 2 eexists. split; [vm_compute; reflexivity |].
  split; [left; reflexivity |].
  destruct (@events_output_valid Demo.parsers
              [event 10 (IInt 1)] _ _
              ltac:(vm_compute; reflexivity) (or_introl eq_refl))
    as (Hcreated & Hcity & _).
  split; [exact Hcreated | exact Hcity].
Defined.


(** The products of the five-table run: product 8 retails below cost. *)
Lemma clean_products_characterised_witness :
  exists out,
    clean_products (P := Demo.parsers)
                   [product 7 ten ten; product 8 ten five] = Ok out
    /\ Forall2 (cleaned_product (P := Demo.parsers))
               [product 7 ten ten] out.
Proof.
  eexists. split; [vm_compute; reflexivity |].
  apply (@clean_products_characterised Demo.parsers
           [product 7 ten ten; product 8 ten five]).
  vm_compute. reflexivity.
Defined.


(** Order 100 of the five-table run. *)
Lemma orders_output_valid_witness :
  exists out r,
    clean_orders (P := Demo.parsers) raw_orders = Ok out
    /\ In r out
    /\ (exists s, Orders.status r = Some s
                  /\ In s ["Completed"; "Cancelled"; "Processing"; "Shipped";
                           "Returned"])
    /\ parsed (Orders.created_at r) = true.
Proof.
  do 2 eexists. split; [vm_compute; reflexivity |].
  split; [left; reflexivity |].
  destruct (@orders_output_valid Demo.parsers raw_orders _ _
              ltac:(vm_compute; reflexivity) (or_introl eq_refl))
    as (Hstatus & Hcreated & _).
  split; [exact Hstatus | exact Hcreated].
Defined.

(** A returned order that was never shipped and has no return date. *)
Lemma clean_orders_keeps_returned_without_date_witness :
  exists out r',
    clean_orders (P := Demo.parsers) [returned_order 103 1] = Ok out
    /\ In r' out
    /\ Orders.status r' = Some "Returned"
    /\ Orders.returned_at r' = NaT.
Proof.
  assert (Hc : exists out,
             clean_orders (P := Demo.parsers) [returned_order 103 1] = Ok out)
    by (eexists; vm_compute; reflexivity).
  destruct Hc as (out & Hc).
  destruct (@clean_orders_keeps_returned_without_date Demo.parsers
              [returned_order 103 1] out (returned_order 103 1) Hc
              (or_introl eq_refl) eq_refl eq_refl eq_refl)
    as (r' & Hin & _ & Hstatus & Hreturned).
  exists out, r'. split; [exact Hc |]. split; [exact Hin |].
  split; [exact Hstatus | exact Hreturned].
Defined.

(** Two centers with id 1: the first is kept, its name trimmed. *)
Lemma clean_distribution_centers_characterised_witness :
  exists out,
    clean_distribution_centers (P := Demo.parsers) centers = Ok out
    /\ map DistributionCenters.name out = [Some "Memphis TN"]
    /\ Forall2 (cleaned_center (P := Demo.parsers))
               (Pandas.drop_duplicates idcell_eqb DistributionCenters.id
                                       centers)
               out.
Proof.
  eexists. split; [vm_compute; reflexivity |]. split; [reflexivity |].
  apply (@clean_distribution_centers_characterised Demo.parsers centers).
  vm_compute. reflexivity.
Defined.


End WorkedOutput.

(** ** [validate] as a whole *)

Module ValidateFacts.
Import BigintValidator Spec Terms ValidatorFacts.
Local Open Scope string_scope.

Section WithParsers.
Context {P : Parsers}.

(** The loop body looks at [self.violations] only to append to it. *)
Lemma validate_value_oblivious col column idx value pre self :
  validate_value col column idx value (after_earlier pre self)
  = (after_earlier pre (fst (validate_value col column idx value self)),
     snd (validate_value col column idx value self)).
Proof.
  unfold validate_value, after_earlier.
  destruct value as [[n | [neg | x]] |]; cbn;
    unfold mbind, append, ret, lift; cbn.
  - destruct (n <? BIGINT_MIN)%Z; cbn; [rewrite app_assoc; reflexivity |].
    destruct (n >? BIGINT_MAX)%Z; cbn; [rewrite app_assoc |]; reflexivity.
  - destruct neg; cbn; rewrite app_assoc; reflexivity.
  - destruct (is_Lt (fin_cmp_Z x BIGINT_MIN)); cbn;
      [| destruct (is_Gt (fin_cmp_Z x BIGINT_MAX)); cbn];
      destruct (is_Eq (fin_cmp_Z x (fin_trunc x))); cbn;
      rewrite ?app_assoc; reflexivity.
  - destruct (notna (nth idx column CNull)
              && str_strip_truthy (nth idx column CNull)); cbn;
      rewrite ?app_assoc; reflexivity.
Qed.

Lemma for_each_oblivious {A : Type} (body : A -> M unit) (l : list A) :
  (forall x pre self,
      body x (after_earlier pre self)
      = (after_earlier pre (fst (body x self)), snd (body x self))) ->
  forall pre self,
    for_each l body (after_earlier pre self)
    = (after_earlier pre (fst (for_each l body self)),
       snd (for_each l body self)).
Proof.
  intros Hbody. induction l as [| x xs IH]; intros pre self.
  - reflexivity.
  - rewrite !for_each_cons, Hbody.
    destruct (body x self) as [self1 [[] | e]]; cbn [fst snd].
    + apply IH.
    + reflexivity.
Qed.

Lemma validate_column_oblivious df col pre self :
  _validate_column df col (after_earlier pre self)
  = (after_earlier pre (fst (_validate_column df col self)),
     snd (_validate_column df col self)).
Proof.
  unfold _validate_column. apply for_each_oblivious.
  intros [idx value] pre' self'. apply validate_value_oblivious.
Qed.

(** The loop of [validate] over the columns. *)
Lemma columns_loop_oblivious df cols pre self :
  for_each cols
           (fun col => if existsb (String.eqb col) (columns df)
                       then _validate_column df col
                       else ret tt)
           (after_earlier pre self)
  = (after_earlier pre
       (fst (for_each cols
               (fun col => if existsb (String.eqb col) (columns df)
                           then _validate_column df col
                           else ret tt) self)),
     snd (for_each cols
            (fun col => if existsb (String.eqb col) (columns df)
                        then _validate_column df col
                        else ret tt) self)).
Proof.
  apply for_each_oblivious. intros col pre' self'.
  destruct (existsb (String.eqb col) (columns df)).
  - apply validate_column_oblivious.
  - reflexivity.
Qed.

(** What the loop over the columns appends. *)
Lemma columns_loop_emits df cols self :
  let self' :=
    fst (for_each cols
           (fun col => if existsb (String.eqb col) (columns df)
                       then _validate_column df col
                       else ret tt) self) in
  csv_path self' = csv_path self
  /\ numeric_columns self' = numeric_columns self
  /\ exists new,
      violations self' = (violations self ++ new)%list
      /\ forall v, In v new ->
                   In (column v) cols /\ In (column v) (columns df)
                   /\ exists idx,
                       row v = idx + 2
                       /\ idx < List.length (getitem df (column v))
                       /\ justified
                            (to_numeric (nth idx (getitem df (column v)) CNull))
                            (nth idx (getitem df (column v)) CNull) (error v).
Proof.
  revert self. induction cols as [| col cols IH]; intros self.
  - cbn. repeat split. exists []. rewrite app_nil_r.
    split; [reflexivity | intros v []].
  - cbv zeta. rewrite for_each_cons.
    destruct (existsb (String.eqb col) (columns df)) eqn:Hcol.
    + pose proof (validate_suffix_emits col (cells := getitem df col)
                    (getitem df col) [] self eq_refl) as Hcolumn.
      cbn [List.length] in Hcolumn. cbv zeta in Hcolumn.
      change (_validate_column df col self)
        with (for_each (enumerate_from 0 (map to_numeric (getitem df col)))
                       (fun '(idx, value) =>
                          validate_value col (getitem df col) idx value)
                       self).
      destruct (for_each (enumerate_from 0 (map to_numeric (getitem df col)))
                         (fun '(idx, value) =>
                            validate_value col (getitem df col) idx value)
                         self)
        as [self1 [[] | e]] eqn:Hrun; cbn [fst] in Hcolumn |- *;
        destruct Hcolumn as (Hp & Hn & new & Hv & Hin & _).
      * destruct (IH self1) as (Hp' & Hn' & new' & Hv' & Hin').
        split; [congruence |]. split; [congruence |].
        exists (new ++ new')%list.
        split; [rewrite Hv', Hv, app_assoc; reflexivity |].
        intros v Hv0. apply in_app_or in Hv0 as [Hv0 | Hv0].
        -- destruct (Hin v Hv0) as (Hc & idx & Hr & Hrange & Hj).
           rewrite Hc. split; [left; reflexivity |]. split.
           ++ apply existsb_exists in Hcol as (x & Hx & E).
              apply String.eqb_eq in E. subst x. exact Hx.
           ++ exists idx. repeat split; try assumption. lia.
        -- destruct (Hin' v Hv0) as (Hc & Hrest).
           split; [right; exact Hc | exact Hrest].
      * split; [exact Hp |]. split; [exact Hn |].
        exists new. split; [exact Hv |].
        intros v Hv0. destruct (Hin v Hv0) as (Hc & idx & Hr & Hrange & Hj).
        rewrite Hc. split; [left; reflexivity |]. split.
        -- apply existsb_exists in Hcol as (x & Hx & E).
           apply String.eqb_eq in E. subst x. exact Hx.
        -- exists idx. repeat split; try assumption. lia.
    + cbn [ret]. destruct (IH self) as (Hp' & Hn' & new' & Hv' & Hin').
      split; [exact Hp' |]. split; [exact Hn' |].
      exists new'. split; [exact Hv' |].
      intros v Hv0. destruct (Hin' v Hv0) as (Hc & Hrest).
      split; [right; exact Hc | exact Hrest].
Qed.

(** [validate] with the columns listed, and with the columns detected. *)
Lemma validate_listed df self cols :
  numeric_columns self = Some cols ->
  validate (Csv df) self
  = match for_each cols
            (fun col => if existsb (String.eqb col) (columns df)
                        then _validate_column df col
                        else ret tt) self with
    | (self', Ok _) =>
        (self', Ok (Nat.eqb (List.length (violations self')) 0,
                    violations self'))
    | (self', Raise e) => (self', Raise e)
    end.
Proof.
  intros H. destruct self as [path n vs]. cbn in H. subst n. reflexivity.
Qed.

Lemma validate_detects df self :
  numeric_columns self = None ->
  validate (Csv df) self
  = validate (Csv df)
             {| csv_path := csv_path self;
                numeric_columns := Some (_detect_numeric_columns df);
                violations := violations self |}.
Proof.
  intros H. destruct self as [path n vs]. cbn in H. subst n. reflexivity.
Qed.

(** X22. [validate] only appends to [self.violations], whether it returns or
    raises, and every violation it appends is for a column of the frame,
    one of [numeric_columns] when the caller gave them, and for a row of
    that column whose cell the error type describes.  A listed column
    that is not in the frame is skipped. *)
Theorem validate_reports_columns_of_the_frame (df : DataFrame)
        (self : validator) :
  exists new,
    violations (fst (validate (Csv df) self))
    = (violations self ++ new)%list
    /\ forall v, In v new ->
         In (column v) (columns df)
         /\ (forall cols, numeric_columns self = Some cols ->
                          In (column v) cols)
         /\ exists idx,
             row v = idx + 2
             /\ idx < List.length (getitem df (column v))
             /\ justified (to_numeric (nth idx (getitem df (column v)) CNull))
                          (nth idx (getitem df (column v)) CNull) (error v).
Proof.
  destruct (numeric_columns self) as [cols |] eqn:Hcols.
  - rewrite (validate_listed df self Hcols).
    destruct (columns_loop_emits df cols self) as (_ & _ & new & Hv & Hin).
    cbv zeta in *.
    destruct (for_each cols _ self) as [self1 [[] | e]]; cbn [fst] in *;
      exists new; (split; [exact Hv |]);
      intros v Hv0; destruct (Hin v Hv0) as (Hc & Hd & Hrest);
      (split; [exact Hd |]); (split; [| exact Hrest]);
      intros cols' E; injection E as <-; exact Hc.
  - rewrite (validate_detects df self Hcols).
    rewrite (@validate_listed df
               {| csv_path := csv_path self;
                  numeric_columns := Some (_detect_numeric_columns df);
                  violations := violations self |}
               (_detect_numeric_columns df) eq_refl).
    match goal with
    | |- context [for_each _ _ ?s] =>
        destruct (columns_loop_emits df (_detect_numeric_columns df) s)
          as (_ & _ & new & Hv & Hin)
    end.
    cbv zeta in *. cbn [violations] in Hv.
    destruct (for_each (_detect_numeric_columns df) _ _)
      as [self1 [[] | e]]; cbn [fst] in *;
      exists new; (split; [exact Hv |]);
      intros v Hv0; destruct (Hin v Hv0) as (Hc & Hd & Hrest);
      (split; [exact Hd |]); (split; [| exact Hrest]);
      intros cols' E; discriminate E.
Qed.

(** X23. [validate] does not reset [self.violations]: called a second time on
    the same instance and the same file, it returns every violation of
    the first call twice. *)
Theorem validate_again_repeats_the_report (df : DataFrame)
        (self self1 : validator) (ok : bool) (vs : list Violation) :
  violations self = [] ->
  validate (Csv df) self = (self1, Ok (ok, vs)) ->
  exists self2,
    validate (Csv df) self1 = (self2, Ok (ok, (vs ++ vs)%list)).
Proof.
  assert (Hlisted : forall s s1 cols ok' vs',
             violations s = [] -> numeric_columns s = Some cols ->
             validate (Csv df) s = (s1, Ok (ok', vs')) ->
             exists s2,
               validate (Csv df) s1 = (s2, Ok (ok', (vs' ++ vs')%list))).
  { intros s s1 cols ok' vs' Hnil Hcols Hrun.
    rewrite (validate_listed df s Hcols) in Hrun.
    destruct (columns_loop_emits df cols s) as (Hp & Hn & new & Hv & _).
    cbv zeta in *.
    destruct (for_each cols _ s) as [s' [[] | e]] eqn:Hloop;
      [| discriminate Hrun].
    cbn [fst] in *. injection Hrun as -> <- <-.
    rewrite Hnil in Hv. cbn in Hv.
    assert (Hs1 : s1 = after_earlier (violations s1) s).
    { unfold after_earlier. rewrite Hnil, app_nil_r, <- Hp, <- Hn.
      destruct s1. reflexivity. }
    rewrite (validate_listed df s1 (cols := cols)) by congruence.
    eexists. rewrite Hs1 at 1. rewrite columns_loop_oblivious, Hloop.
    cbn [fst snd]. f_equal. f_equal. cbn [after_earlier violations]. f_equal.
    rewrite length_app. destruct (violations s1); reflexivity. }
  intros Hnil Hrun.
  destruct (numeric_columns self) as [cols |] eqn:Hcols.
  - eapply Hlisted; [exact Hnil | exact Hcols | exact Hrun].
  - rewrite (validate_detects df self Hcols) in Hrun.
    eapply Hlisted; [| | exact Hrun]; [exact Hnil | reflexivity].
Qed.









Lemma getitem_unique (df : DataFrame) (name : string) (cells : list cell) :
  NoDup (columns df) -> In (name, cells) df -> getitem df name = cells.
Proof.
  induction df as [| [n c] df IH]; intros Hnd Hin; [destruct Hin |].
  cbn in Hnd. inversion Hnd as [| ? ? Hnotin Hnd']; subst.
  destruct Hin as [E | Hin].
  - injection E as -> ->. cbn. rewrite String.eqb_refl. reflexivity.
  - cbn. destruct (String.eqb_spec n name) as [-> | _].
    + exfalso. apply Hnotin. apply (in_map fst) in Hin. exact Hin.
    + apply IH; assumption.
Qed.

(** X25. With [numeric_columns] left to auto-detection, [validate] reports
    nothing for a column in which no cell parses as a number: a text
    column is not taken for validation, and a column of nulls has nothing
    to report.  (Listed by the caller, the same text column has every
    non-blank cell reported as NON_NUMERIC.) *)
Theorem detection_skips_columns_without_numbers (df : DataFrame)
        (self : validator) (col : string) (new : list Violation) :
  numeric_columns self = None ->
  NoDup (columns df) ->
  (forall c, In c (getitem df col) -> to_numeric c = None) ->
  violations (fst (validate (Csv df) self)) = (violations self ++ new)%list ->
  forall v, In v new -> column v <> col.
Proof.
  intros Hnone Hnd Htext Hnew v Hv Hcol.
  rewrite (validate_detects df self Hnone) in Hnew.
  rewrite (@validate_listed df
             {| csv_path := csv_path self;
                numeric_columns := Some (_detect_numeric_columns df);
                violations := violations self |}
             (_detect_numeric_columns df) eq_refl) in Hnew.
  match type of Hnew with
  | context [for_each _ _ ?s] =>
      destruct (columns_loop_emits df (_detect_numeric_columns df) s)
        as (_ & _ & new' & Hv' & Hin)
  end.
  cbv zeta in *. cbn [violations] in Hv'.
  assert (E : new = new').
  { destruct (for_each (_detect_numeric_columns df) _ _)
      as [s1 [[] | e]]; cbn [fst] in *;
      rewrite Hv' in Hnew; apply app_inv_head in Hnew; congruence. }
  subst new'. clear Hnew Hv'.
  destruct (Hin v Hv) as (Hdet & _ & idx & _ & Hidx & Hj).
  rewrite Hcol in *.
  assert (Hcell : In (nth idx (getitem df col) CNull) (getitem df col))
    by (apply nth_In; exact Hidx).
  pose proof (Htext _ Hcell) as Hnum. rewrite Hnum in Hj.
  unfold _detect_numeric_columns in Hdet.
  apply in_map_iff in Hdet as ([name cells] & Hname & Hdet).
  cbn in Hname. subst name.
  apply filter_In in Hdet as [Hdf Hpred].
  rewrite (@getitem_unique df col cells Hnd Hdf) in *.
  apply orb_true_iff in Hpred as [Hdtype | Hsome].
  - destruct (error v); cbn in Hj;
      try (destruct Hj as (x & Hx & _); discriminate Hx).
    destruct Hj as [_ Hnotnull].
    unfold dtype_int64_float64 in Hdtype.
    destruct cells as [| c0 cells0]; [discriminate |].
    rewrite forallb_forall in Hdtype. specialize (Hdtype _ Hcell).
    destruct (nth idx (c0 :: cells0) CNull) as [| z | f | s];
      try discriminate; contradiction.
  - apply existsb_exists in Hsome as (c & Hc & Hsome).
    rewrite (Htext c Hc) in Hsome. discriminate.
Qed.


End WithParsers.
End ValidateFacts.

(** ** [validate] on the worked frames *)

Module WorkedValidate.
Import BigintValidator Spec Terms ValidateFacts.
Local Open Scope string_scope.

(** The second call reports row 3 of sequence_number twice. *)
Lemma validate_again_repeats_the_report_witness :
  exists self1 self2 v,
    validate (P := Demo.parsers) (Csv fractional_frame)
             (init "events_cleaned.csv" (Some ["id"; "sequence_number"]))
    = (self1, Ok (false, [v]))
    /\ error v = PRECISION_LOSS
    /\ validate (P := Demo.parsers) (Csv fractional_frame) self1
       = (self2, Ok (false, [v; v])).
Proof.
  assert (H1 : exists self1 v,
             validate (P := Demo.parsers) (Csv fractional_frame)
                      (init "events_cleaned.csv"
                            (Some ["id"; "sequence_number"]))
             = (self1, Ok (false, [v]))
             /\ error v = PRECISION_LOSS).
  { do 2 eexists. split; [vm_compute; reflexivity | reflexivity]. }
  destruct H1 as (self1 & v & Hrun & He).
  destruct (@validate_again_repeats_the_report Demo.parsers
              fractional_frame
              (init "events_cleaned.csv" (Some ["id"; "sequence_number"]))
              self1 false [v] eq_refl Hrun)
    as (self2 & Hagain).
  exists self1, self2, v. split; [exact Hrun |]. split; [exact He |].
  exact Hagain.
Defined.


(** Auto-detection on the fractional frame: nothing is reported for
    city. *)
Lemma detection_skips_columns_without_numbers_witness :
  Forall (fun v => column v <> "city")
         (violations
            (fst (validate (P := Demo.parsers) (Csv fractional_frame)
                           (init "events_cleaned.csv" None)))).
Proof.
  apply Forall_forall.
  apply (@detection_skips_columns_without_numbers Demo.parsers
           fractional_frame (init "events_cleaned.csv" None) "city").
  - reflexivity.
  - repeat constructor; cbn; intuition discriminate.
  - intros c [<- | [<- | []]]; reflexivity.
  - reflexivity.
Defined.

End WorkedValidate.

(** ** What [EMAIL_RE] accepts *)

Module EmailFacts.
Import Str EmailRe Terms StrFacts.

Lemma split_first_spec (p : ascii -> bool) (s a b : list ascii) :
  split_first p s = Some (a, b) ->
  exists c, s = (a ++ c :: b)%list /\ p c = true
            /\ forallb (fun x => negb (p x)) a = true.
Proof.
  revert a b. induction s as [| c s IH]; cbn; intros a b H; [discriminate |].
  destruct (p c) eqn:Hc.
  - injection H as <- <-. exists c. repeat split. exact Hc.
  - destruct (split_first p s) as [[a' b'] |]; [| discriminate].
    injection H as <- <-. destruct (IH a' b' eq_refl) as (c' & -> & Hc' & Ha).
    exists c'. cbn. rewrite Hc, Ha. repeat split. exact Hc'.
Qed.

Lemma split_first_app (p : ascii -> bool) (a b : list ascii) (c : ascii) :
  forallb (fun x => negb (p x)) a = true -> p c = true ->
  split_first p (a ++ c :: b) = Some (a, b).
Proof.
  intros Ha Hc. induction a as [| x a IH]; cbn.
  - rewrite Hc. reflexivity.
  - cbn in Ha. apply andb_prop in Ha as [Hx Ha].
    apply negb_true_iff in Hx. rewrite Hx, (IH Ha). reflexivity.
Qed.

Lemma chop_final_newline_last (r : list ascii) (c : ascii) :
  chop_final_newline (r ++ [c])
  = if (code c =? 10)%N then r else (r ++ [c])%list.
Proof.
  unfold chop_final_newline. rewrite rev_app_distr. cbn.
  rewrite rev_involutive. reflexivity.
Qed.

Lemma newline_code (c : ascii) : (code c =? 10)%N = true -> c = "010"%char.
Proof.
  intros H. apply N.eqb_eq in H. unfold code in H.
  rewrite <- (ascii_N_embedding c), H. reflexivity.
Qed.

Lemma last_cases {A : Type} (l : list A) :
  l = [] \/ exists r c, l = (r ++ [c])%list.
Proof.
  induction l as [| c r _] using rev_ind; [left; reflexivity |].
  right. exists r, c. reflexivity.
Qed.

Lemma chop_final_newline_spec (s : list ascii) :
  exists tail,
    s = (chop_final_newline s ++ tail)%list
    /\ (tail = [] \/ tail = ["010"%char]).
Proof.
  destruct (last_cases s) as [-> | (r & c & ->)].
  - exists []. split; [reflexivity | left; reflexivity].
  - rewrite chop_final_newline_last.
    destruct (code c =? 10)%N eqn:Hc.
    + exists [c]. split; [reflexivity |]. right.
      rewrite (newline_code c Hc). reflexivity.
    + exists []. rewrite app_nil_r. split; [reflexivity | left; reflexivity].
Qed.

Lemma local_char_not_at (c : ascii) :
  local_char c = true -> negb (Ascii.eqb "@" c) = true.
Proof. each_char c; intros H; try discriminate H; reflexivity. Qed.

Lemma isalpha_not_dot (c : ascii) :
  isalpha c = true -> negb (Ascii.eqb "." c) = true.
Proof. each_char c; intros H; try discriminate H; reflexivity. Qed.

Lemma isalpha_not_newline (c : ascii) :
  isalpha c = true -> (code c =? 10)%N = false.
Proof. each_char c; intros H; try discriminate H; reflexivity. Qed.

Lemma forallb_impl {A : Type} (p q : A -> bool) (l : list A) :
  (forall x, p x = true -> q x = true) ->
  forallb p l = true -> forallb q l = true.
Proof.
  intros H. rewrite !forallb_forall. intros Hp x Hx. apply H, Hp. exact Hx.
Qed.

Lemma nonempty_iff {A : Type} (l : list A) : nonempty l = true <-> l <> [].
Proof. destruct l; cbn; split; intros; congruence. Qed.

(** X26. [EMAIL_RE] accepts exactly the strings of the shape its pattern
    describes: a non-empty local part of letters, digits and [._%+-], one
    "@", a non-empty domain of letters, digits, dots and hyphens, a dot,
    and at least two letters, with at most one newline after them. *)
Theorem EMAIL_RE_accepts_its_pattern (s : string) :
  EMAIL_RE s = true <-> email_shape (list_ascii_of_string s).
Proof.
  unfold EMAIL_RE, matches, email_shape. split.
  - destruct (split_first (Ascii.eqb "@") (list_ascii_of_string s))
      as [[local rest] |] eqn:H1; [| discriminate].
    intros H. apply andb_prop in H as [H Hrest].
    apply andb_prop in H as [Hne Hlocal].
    destruct (split_last (Ascii.eqb ".") (chop_final_newline rest))
      as [[domain tld] |] eqn:H2; [| discriminate].
    apply andb_prop in Hrest as [Hrest Htld].
    apply andb_prop in Hrest as [Hrest Hlen].
    apply andb_prop in Hrest as [Hne' Hdomain].
    apply split_first_spec in H1 as (c & Hs & Hc & _).
    apply Ascii.eqb_eq in Hc. subst c.
    unfold split_last in H2.
    destruct (split_first (Ascii.eqb ".") (rev (chop_final_newline rest)))
      as [[a b] |] eqn:H3; [| discriminate].
    injection H2 as <- <-.
    apply split_first_spec in H3 as (c & Hrev & Hc & _).
    apply Ascii.eqb_eq in Hc. subst c.
    apply (f_equal (@rev ascii)) in Hrev.
    rewrite rev_involutive, rev_app_distr in Hrev. cbn in Hrev.
    rewrite <- app_assoc in Hrev. cbn in Hrev.
    destruct (chop_final_newline_spec rest) as (tail & Hrest & Htail).
    exists local, (rev b), (rev a), tail.
    split; [rewrite Hs, Hrest, Hrev, <- app_assoc; reflexivity |].
    split; [exact Htail |].
    split; [apply nonempty_iff; exact Hne |].
    split; [exact Hlocal |].
    split; [apply nonempty_iff; exact Hne' |].
    split; [exact Hdomain |].
    split; [apply Nat.leb_le; exact Hlen | exact Htld].
  - intros (local & domain & tld & tail & -> & Htail & Hne & Hlocal
            & Hne' & Hdomain & Hlen & Htld).
    rewrite split_first_app;
      [| apply (forallb_impl local_char); [apply local_char_not_at | exact Hlocal]
       | reflexivity].
    apply nonempty_iff in Hne. rewrite Hne, Hlocal. cbn [andb].
    assert (Hchop : chop_final_newline (domain ++ "."%char :: tld ++ tail)
                    = (domain ++ "."%char :: tld)%list).
    { destruct (last_cases tld) as [-> | (r & c & ->)];
        [cbn in Hlen; lia |].
      assert (Hc : isalpha c = true).
      { rewrite forallb_app in Htld. apply andb_prop in Htld as [_ Hc].
        cbn in Hc. rewrite andb_true_r in Hc. exact Hc. }
      destruct Htail as [-> | ->].
      - rewrite app_nil_r.
        replace (domain ++ "."%char :: r ++ [c])%list
          with ((domain ++ "."%char :: r) ++ [c])%list
          by (rewrite <- app_assoc; reflexivity).
        rewrite chop_final_newline_last, (isalpha_not_newline c Hc).
        reflexivity.
      - replace (domain ++ "."%char :: (r ++ [c]) ++ ["010"%char])%list
          with ((domain ++ "."%char :: r ++ [c]) ++ ["010"%char])%list
          by (rewrite <- !app_assoc; cbn; rewrite <- app_assoc; reflexivity).
        rewrite chop_final_newline_last. reflexivity. }
    rewrite Hchop. unfold split_last.
    rewrite rev_app_distr. cbn [rev]. rewrite <- app_assoc. cbn [app].
    rewrite split_first_app;
      [| apply (forallb_impl isalpha);
         [apply isalpha_not_dot
         | rewrite forallb_forall in *; intros x Hx; apply Htld;
           apply in_rev; exact Hx]
       | reflexivity].
    rewrite !rev_involutive.
    apply nonempty_iff in Hne'. rewrite Hne', Hdomain, Htld.
    apply Nat.leb_le in Hlen. rewrite Hlen. reflexivity.
Qed.

End EmailFacts.

(** ** Idempotence and uniqueness on the worked data *)

Module WorkedStability.
Import Pandas DataCleaning Pipeline Tables Spec Scenarios.
Import PipelineFacts IdempotenceFacts.
Local Open Scope string_scope.

(** The products of the five-table run, cleaned twice. *)
Lemma files_to_clean_idempotent_witness :
  exists out,
    files_to_clean (P := Demo.parsers) products
                   [product 7 ten ten; product 8 ten five] = Ok out
    /\ files_to_clean (P := Demo.parsers) products out = Ok out.
Proof.
  eexists. split; [vm_compute; reflexivity |].
  apply (@files_to_clean_idempotent Demo.parsers products
           [product 7 ten ten; product 8 ten five]).
  - vm_compute. reflexivity.
  - intros _. discriminate.
  - intros _. repeat constructor.
Defined.

(** The orders file the five-table run leaves. *)
Lemma final_files_unique_witness :
  exists fs' s final,
    main (P := Demo.parsers) five_tables = Ok (fs', s)
    /\ file_of orders (processed fs') = Some final
    /\ dedup_column_unique orders final.
Proof.
  assert (Hmain : exists fs' s,
             main (P := Demo.parsers) five_tables = Ok (fs', s))
    by (do 2 eexists; vm_compute; reflexivity).
  destruct Hmain as (fs' & s & Hmain).
  destruct (@final_files_unique Demo.parsers five_tables fs' s orders
              _ Hmain eq_refl)
    as (final & Hfile & Hunique).
  - intros _. repeat constructor.
  - exists fs', s, final. split; [exact Hmain |].
    split; [exact Hfile | exact Hunique].
Defined.

End WorkedStability.
